(** * QtIOCompressor: a shallow embedding of src/streams/qtiocompressor.cpp

    The compressor is a QIODevice that sits on top of another QIODevice and
    drives zlib or zstd.  The three external collaborators (the underlying
    device, zlib, zstd) are interfaces here; the code of the compressor itself
    is translated function by function.  Loops of the source whose
    termination depends on the collaborators take a fuel argument. *)

From Stdlib Require Import ZArith List String Ascii Bool Lia DecimalString.
Import ListNotations.
Local Open Scope Z_scope.

(** ** Bytes, integer conversions, outcomes *)

Definition byte : Type := Byte.byte.

(** [uInt] (zlib's [unsigned int]) and [int] are 32 bits wide, [size_t] is
    64 bits wide; [qint64] values are kept as they are. *)
Definition to_uInt (x : Z) : Z := x mod 2 ^ 32.
Definition to_int (x : Z) : Z := (x + 2 ^ 31) mod 2 ^ 32 - 2 ^ 31.
Definition to_size_t (x : Z) : Z := x mod 2 ^ 64.

Definition len (l : list byte) : Z := Z.of_nat (List.length l).

(** [n] bytes of the memory seen from a pointer. *)
Definition take (n : Z) (mem : list byte) : list byte := firstn (Z.to_nat n) mem.
Definition advance (n : Z) (mem : list byte) : list byte := skipn (Z.to_nat n) mem.

(** Storing [bs] at the start of a memory area. *)
Definition store (bs mem : list byte) : list byte := bs ++ skipn (List.length bs) mem.

(** What a call does: it returns, it is still looping when the fuel is
    used up, or it dereferences memory it does not own. *)
Inductive run (A : Type) : Type :=
| Returns (a : A)
| OutOfFuel
| Aborts.
Arguments Returns {A} a.
Arguments OutOfFuel {A}.
Arguments Aborts {A}.

Definition bind {A B : Type} (m : run A) (k : A -> run B) : run B :=
  match m with
  | Returns a => k a
  | OutOfFuel => OutOfFuel
  | Aborts => Aborts
  end.

Declare Scope run_scope.
Delimit Scope run_scope with run.
Notation "x <- m ;; k" := (bind m (fun x => k))
  (at level 61, m at next level, right associativity) : run_scope.

(** ** QIODevice::OpenModeFlag *)

Definition NotOpen : Z := 0.
Definition ReadOnly : Z := 1.
Definition WriteOnly : Z := 2.

(** [mode & flag] converted to bool. *)
Definition has_flag (mode flag : Z) : bool := negb (Z.land mode flag =? 0).

(** ** The underlying device

    The interface of the QIODevice the compressor is built on.  [dev_read n]
    is [read(buffer, n)]: [None] is the result -1, [Some bs] stores [bs] and
    returns its length.  [dev_write mem n] is [write(mem, n)] and gives the
    number of bytes written, or -1. *)
Class QIODevice (Dev : Type) : Type := {
  dev_isOpen : Dev -> bool;
  dev_openMode : Dev -> Z;
  dev_open : Z -> Dev -> bool * Dev;
  dev_close : Dev -> Dev;
  dev_read : Z -> Dev -> option (list byte) * Dev;
  dev_write : list byte -> Z -> Dev -> Z * Dev;
  dev_ungetChar : byte -> Dev -> Dev;
  dev_errorString : Dev -> string
}.

(** ** zlib

    One call of [inflate], [deflate], [ZSTD_decompressStream] or
    [ZSTD_compressStream2]: the status returned, how many input bytes were
    taken and the bytes put into the output area. *)
Record codec_step : Type := {
  status : Z;
  consumed : nat;
  produced : list byte
}.

Definition Z_OK : Z := 0.
Definition Z_STREAM_END : Z := 1.
Definition Z_NEED_DICT : Z := 2.
Definition Z_STREAM_ERROR : Z := -2.
Definition Z_DATA_ERROR : Z := -3.
Definition Z_MEM_ERROR : Z := -4.
Definition Z_BUF_ERROR : Z := -5.

Definition Z_NO_FLUSH : Z := 0.
Definition Z_SYNC_FLUSH : Z := 2.
Definition Z_FINISH : Z := 4.
Definition Z_DEFLATED : Z := 8.
Definition Z_DEFAULT_STRATEGY : Z := 0.

(** The functions of zlib the compressor calls.  [inflate st input room
    flush] sees the [avail_in] bytes at [next_in] and may produce up to
    [room = avail_out] bytes. *)
Class ZlibApi : Type := {
  internal_state : Type;
  Z_NULL : internal_state;
  ZLIB_VERSION : string;
  zlibVersion : string;
  inflateInit : Z * internal_state;
  inflateInit2 : Z -> Z * internal_state;
  deflateInit : Z -> Z * internal_state;
  deflateInit2 : Z -> Z -> Z -> Z -> Z -> Z * internal_state;
  inflate : internal_state -> list byte -> Z -> Z -> codec_step * internal_state;
  deflate : internal_state -> list byte -> Z -> Z -> codec_step * internal_state;
  inflateEnd : internal_state -> internal_state;
  deflateEnd : internal_state -> internal_state;
  zError : Z -> option string
}.

(** ** zstd *)

Inductive ZSTD_EndDirective : Type := ZSTD_e_continue | ZSTD_e_flush | ZSTD_e_end.

(** The functions of zstd the compressor calls; a stream pointer is an
    option, [None] being nullptr. *)
Class ZstdApi : Type := {
  ZSTD_CStream : Type;
  ZSTD_DStream : Type;
  ZSTD_createCStream : option ZSTD_CStream;
  ZSTD_createDStream : option ZSTD_DStream;
  ZSTD_initCStream : ZSTD_CStream -> Z -> Z * ZSTD_CStream;
  ZSTD_initDStream : ZSTD_DStream -> Z * ZSTD_DStream;
  ZSTD_isError : Z -> bool;
  ZSTD_DStreamInSize : Z;
  ZSTD_CStreamOutSize : Z;
  ZSTD_compressStream2 :
    ZSTD_CStream -> list byte -> Z -> ZSTD_EndDirective -> codec_step * ZSTD_CStream;
  ZSTD_decompressStream :
    ZSTD_DStream -> list byte -> Z -> codec_step * ZSTD_DStream;
  ZSTD_getErrorName : Z -> option string
}.

(** The build option of config-keepassx.h. *)
Class BuildConfig : Type := { WITH_XC_ZSTD : bool }.

(** ** QtIOCompressorPrivate *)

Inductive State : Type :=
| NotReadFirstByte | InStream | EndOfStream
| NoBytesWritten | BytesWritten
| Closed | Error.

Definition State_eqb (a b : State) : bool :=
  match a, b with
  | NotReadFirstByte, NotReadFirstByte | InStream, InStream
  | EndOfStream, EndOfStream | NoBytesWritten, NoBytesWritten
  | BytesWritten, BytesWritten | Closed, Closed | Error, Error => true
  | _, _ => false
  end.

(** The members of the base class; [derived] holds the members of the
    subclass ([D] is the zlib or the zstd part). *)
Record QtIOCompressorPrivate (Dev D : Type) : Type := {
  device : Dev;
  manageDevice : bool;
  state : State;
  bufferSize : Z;
  buffer : list byte;
  derived : D
}.
Arguments device {Dev D} _.
Arguments manageDevice {Dev D} _.
Arguments state {Dev D} _.
Arguments bufferSize {Dev D} _.
Arguments buffer {Dev D} _.
Arguments derived {Dev D} _.

(** The compressor object: its private part ([d_ptr], whose [q_ptr] points
    back here) and the two members of its QIODevice base class that the
    source reads and writes, the open mode and the error string. *)
Record QtIOCompressor (Dev D : Type) : Type := {
  d_ptr : QtIOCompressorPrivate Dev D;
  openMode : Z;
  errorString : string
}.
Arguments d_ptr {Dev D} _.
Arguments openMode {Dev D} _.
Arguments errorString {Dev D} _.

Section Members.
Context {Dev D : Type}.
Local Abbreviation Q := (QtIOCompressor Dev D).

Definition with_d (f : QtIOCompressorPrivate Dev D -> QtIOCompressorPrivate Dev D)
    (q : Q) : Q :=
  {| d_ptr := f (d_ptr q); openMode := openMode q; errorString := errorString q |}.

Definition set_device (x : Dev) : Q -> Q :=
  with_d (fun d => {| device := x; manageDevice := manageDevice d; state := state d;
                      bufferSize := bufferSize d; buffer := buffer d; derived := derived d |}).
Definition set_manageDevice (x : bool) : Q -> Q :=
  with_d (fun d => {| device := device d; manageDevice := x; state := state d;
                      bufferSize := bufferSize d; buffer := buffer d; derived := derived d |}).
Definition set_state (x : State) : Q -> Q :=
  with_d (fun d => {| device := device d; manageDevice := manageDevice d; state := x;
                      bufferSize := bufferSize d; buffer := buffer d; derived := derived d |}).
Definition set_bufferSize (x : Z) : Q -> Q :=
  with_d (fun d => {| device := device d; manageDevice := manageDevice d; state := state d;
                      bufferSize := x; buffer := buffer d; derived := derived d |}).
Definition set_buffer (x : list byte) : Q -> Q :=
  with_d (fun d => {| device := device d; manageDevice := manageDevice d; state := state d;
                      bufferSize := bufferSize d; buffer := x; derived := derived d |}).
Definition set_derived (x : D) : Q -> Q :=
  with_d (fun d => {| device := device d; manageDevice := manageDevice d; state := state d;
                      bufferSize := bufferSize d; buffer := buffer d; derived := x |}).

(** QIODevice::setErrorString, QIODevice::isOpen, and what QIODevice::open
    and QIODevice::close do to the open mode. *)
Definition setErrorString (msg : string) (q : Q) : Q :=
  {| d_ptr := d_ptr q; openMode := openMode q; errorString := msg |}.
Definition set_openMode (mode : Z) (q : Q) : Q :=
  {| d_ptr := d_ptr q; openMode := mode; errorString := errorString q |}.
Definition isOpen (q : Q) : bool := negb (openMode q =? NotOpen).

Context {dev_ops : QIODevice Dev}.

(** QtIOCompressorPrivate::writeBytes: writes [outputSize] bytes of [mem]
    to the underlying device, calling write until all are taken. *)
Fixpoint writeBytes (fuel : nat) (mem : list byte) (outputSize : Z) (q : Q)
    : run (bool * Q) :=
  match fuel with
  | O => OutOfFuel
  | S fuel' =>
    let '(bytesWritten, dev') := dev_write mem outputSize (device (d_ptr q)) in
    let q1 := set_device dev' q in
    if bytesWritten =? -1 then
      Returns (false,
               setErrorString ("Error writing to underlying device: "
                                 ++ dev_errorString dev')%string q1)
    else
      let mem' := advance bytesWritten mem in
      let outputSize' := outputSize - bytesWritten in
      if outputSize' >? 0 then writeBytes fuel' mem' outputSize' q1
      else Returns (true, set_state BytesWritten q1)
  end.
End Members.

(** The pure virtual functions of QtIOCompressorPrivate, on the whole
    object since they set its error string.  [readData fuel maxSize q] gives
    the value returned, the bytes stored into [data] and the object;
    [writeData fuel data maxSize q] gets the memory at [data]. *)
Module Private.
Class Backend (Dev D : Type) : Type := {
  initialize : bool -> QtIOCompressor Dev D -> bool * QtIOCompressor Dev D;
  readData : nat -> Z -> QtIOCompressor Dev D
             -> run (Z * list byte * QtIOCompressor Dev D);
  writeData : nat -> list byte -> Z -> QtIOCompressor Dev D
              -> run (Z * QtIOCompressor Dev D);
  flush : nat -> QtIOCompressor Dev D -> run (QtIOCompressor Dev D);
  finalize : nat -> bool -> QtIOCompressor Dev D -> run (QtIOCompressor Dev D)
}.
End Private.

(** ** QtIOCompressorZlibPrivate *)

Module ZlibPrivate.

Inductive StreamFormat : Type := ZlibFormat | GzipFormat | RawZipFormat.

Section Zlib.
Context {Dev : Type} {dev_ops : QIODevice Dev} {zlib : ZlibApi}.

(** The members of [z_stream] the source uses.  [next_in] is the memory
    seen from the pointer up to the end of the area it points into (the
    scratch buffer when reading, the caller's data when writing; nullptr is
    the empty view).  [next_out] is not a member here: the functions below
    put the produced bytes where it points. *)
Record z_stream : Type := {
  next_in : list byte;
  avail_in : Z;
  avail_out : Z;
  strm_state : internal_state
}.

Record Members : Type := {
  zlibStream : z_stream;
  compressionLevel : Z;
  streamFormat : StreamFormat
}.

Local Abbreviation Q := (QtIOCompressor Dev Members).

Definition strm (q : Q) : z_stream := zlibStream (derived (d_ptr q)).

Definition set_strm (s : z_stream) (q : Q) : Q :=
  set_derived {| zlibStream := s;
                 compressionLevel := compressionLevel (derived (d_ptr q));
                 streamFormat := streamFormat (derived (d_ptr q)) |} q.

(** The constructor.  [new char[bufferSize]] and the members of
    [zlibStream] it leaves unset are zero here. *)
Definition QtIOCompressorZlibPrivate (dev : Dev) (format : StreamFormat)
    (level bufSize : Z) : QtIOCompressorPrivate Dev Members :=
  {| device := dev; manageDevice := false; state := Closed;
     bufferSize := bufSize; buffer := repeat Byte.x00 (Z.to_nat bufSize);
     derived := {| zlibStream := {| next_in := []; avail_in := 0; avail_out := 0;
                                    strm_state := Z_NULL |};
                   compressionLevel := level; streamFormat := format |} |}.

Definition checkGzipSupport (versionString : string) : bool :=
  if (String.length versionString <? 3)%nat then false
  else
    match String.get 0 versionString, String.get 2 versionString with
    | Some c0, Some c2 =>
      if Ascii.eqb c0 "0" || (Ascii.eqb c0 "1" && (Ascii.eqb c2 "0" || Ascii.eqb c2 "1"))
      then false else true
    | _, _ => false
    end.

Definition setZlibError (errorMessage : string) (zlibErrorCode : Z) (q : Q) : Q :=
  match zError zlibErrorCode with
  | Some zlibErrorString => setErrorString (errorMessage ++ zlibErrorString)%string q
  | None =>
    setErrorString (errorMessage ++ " Unknown error, code "
                      ++ NilZero.string_of_int (Z.to_int zlibErrorCode))%string q
  end.

Definition initialize (read : bool) (q : Q) : bool * Q :=
  let format := streamFormat (derived (d_ptr q)) in
  let level := compressionLevel (derived (d_ptr q)) in
  let windowBits :=
    match format with
    | GzipFormat => 31
    | RawZipFormat => -15
    | ZlibFormat => 15
    end in
  let handle (r : Z * internal_state) (q1 : Q) : bool * Q :=
    let q2 := set_strm {| next_in := next_in (strm q1); avail_in := avail_in (strm q1);
                          avail_out := avail_out (strm q1); strm_state := snd r |} q1 in
    if negb (fst r =? Z_OK) then (false, setZlibError "Internal zlib error: " (fst r) q2)
    else (true, q2) in
  if read then
    let q1 := set_state NotReadFirstByte q in
    let q2 := set_strm {| next_in := []; avail_in := 0; avail_out := avail_out (strm q1);
                          strm_state := strm_state (strm q1) |} q1 in
    match format with
    | ZlibFormat => handle inflateInit q2
    | _ =>
      if negb (checkGzipSupport zlibVersion) then
        (false, setErrorString "The gzip format not supported in this version of zlib." q2)
      else handle (inflateInit2 windowBits) q2
    end
  else
    let q1 := set_state NoBytesWritten q in
    match format with
    | ZlibFormat => handle (deflateInit level) q1
    | _ => handle (deflateInit2 level Z_DEFLATED windowBits 8 Z_DEFAULT_STRATEGY) q1
    end.

(** The block [if (zlibStream.avail_in == 0) { ... }] of readData: [inl] is
    a return from readData, [inr] goes on to inflate. *)
Definition fill (data : list byte) (q : Q) : (Z * list byte * Q) + Q :=
  if avail_in (strm q) =? 0 then
    let '(r, dev') := dev_read (bufferSize (d_ptr q)) (device (d_ptr q)) in
    let q0 := set_device dev' q in
    match r with
    | None =>
      let q1 := set_strm {| next_in := buffer (d_ptr q0); avail_in := to_uInt (-1);
                            avail_out := avail_out (strm q0);
                            strm_state := strm_state (strm q0) |} q0 in
      inl (-1, data,
           setErrorString ("Error reading data from underlying device: "
                             ++ dev_errorString dev')%string (set_state Error q1))
    | Some bs =>
      let bytesAvailable := len bs in
      let q1 := set_buffer (store bs (buffer (d_ptr q0))) q0 in
      let q2 := set_strm {| next_in := buffer (d_ptr q1); avail_in := to_uInt bytesAvailable;
                            avail_out := avail_out (strm q1);
                            strm_state := strm_state (strm q1) |} q1 in
      if negb (State_eqb (state (d_ptr q2)) InStream) then
        if bytesAvailable =? 0 then inl (0, data, q2)
        else if bytesAvailable >? 0 then inr (set_state InStream q2)
        else inr q2
      else inr q2
    end
  else inr q.

(** [inflate(&zlibStream, flushMode)] with [next_out] in the caller's data:
    the status, the data stored so far and the object. *)
Definition inflate_call (flushMode : Z) (data : list byte) (q : Q) : Z * list byte * Q :=
  let s := strm q in
  let '(r, st') :=
    inflate (strm_state s) (take (avail_in s) (next_in s)) (avail_out s) flushMode in
  (status r, data ++ produced r,
   set_strm {| next_in := skipn (consumed r) (next_in s);
               avail_in := avail_in s - Z.of_nat (consumed r);
               avail_out := avail_out s - len (produced r);
               strm_state := st' |} q).

(** The loop [for (int i = ...; i >= 0; --i)] that passes the byte at
    [next_in + i] to [device->ungetChar], from [i] down to 0; [None] when
    [next_in + i] is outside the buffer. *)
Fixpoint ungetLoop (i : nat) (view : list byte) (dev : Dev) : option Dev :=
  match nth_error view i with
  | None => None
  | Some c =>
    let dev' := dev_ungetChar c dev in
    match i with
    | O => Some dev'
    | S j => ungetLoop j view dev'
    end
  end.

(** The end of readData, after the loop. *)
Definition readEnd (status maxSize : Z) (data : list byte) (q : Q)
    : run (Z * list byte * Q) :=
  let outputSize (q' : Q) := to_uInt (maxSize - avail_out (strm q')) in
  if status =? Z_STREAM_END then
    let q1 := set_state EndOfStream q in
    let i := to_int (avail_in (strm q1)) in
    if i >=? 0 then
      match ungetLoop (Z.to_nat i) (next_in (strm q1)) (device (d_ptr q1)) with
      | None => Aborts
      | Some dev' => let q2 := set_device dev' q1 in Returns (outputSize q2, data, q2)
      end
    else Returns (outputSize q1, data, q1)
  else Returns (outputSize q, data, q).

(** The do-while loop of readData and what follows it. *)
Fixpoint readLoop (fuel : nat) (maxSize : Z) (data : list byte) (q : Q)
    : run (Z * list byte * Q) :=
  match fuel with
  | O => OutOfFuel
  | S fuel' =>
    match fill data q with
    | inl early => Returns early
    | inr q1 =>
      let '(status, data', q2) := inflate_call Z_SYNC_FLUSH data q1 in
      if (status =? Z_NEED_DICT) || (status =? Z_DATA_ERROR) || (status =? Z_MEM_ERROR) then
        Returns (-1, data',
                 setZlibError "Internal zlib error when decompressing: " status
                   (set_state Error q2))
      else if status =? Z_BUF_ERROR then Returns (0, data', q2)
      else if negb (avail_out (strm q2) =? 0) && negb (status =? Z_STREAM_END) then
        readLoop fuel' maxSize data' q2
      else readEnd status maxSize data' q2
    end
  end.

Definition readData (fuel : nat) (maxSize : Z) (q : Q) : run (Z * list byte * Q) :=
  let q1 := set_strm {| next_in := next_in (strm q); avail_in := avail_in (strm q);
                        avail_out := to_uInt maxSize;
                        strm_state := strm_state (strm q) |} q in
  readLoop fuel maxSize [] q1.

(** [deflate(&zlibStream, flushMode)] after [next_out = buffer; avail_out =
    bufferSize]: the produced bytes go to the scratch buffer.  (The Q_ASSERTs
    of writeData and flushZlib are those of a release build: no code.) *)
Definition deflate_call (flushMode : Z) (q : Q) : Z * Q :=
  let s := strm q in
  let room := to_uInt (bufferSize (d_ptr q)) in
  let '(r, st') := deflate (strm_state s) (take (avail_in s) (next_in s)) room flushMode in
  (status r,
   set_strm {| next_in := skipn (consumed r) (next_in s);
               avail_in := avail_in s - Z.of_nat (consumed r);
               avail_out := room - len (produced r);
               strm_state := st' |}
     (set_buffer (store (produced r) (buffer (d_ptr q))) q)).

Fixpoint writeLoop (fuel : nat) (maxSize : Z) (q : Q) : run (Z * Q) :=
  match fuel with
  | O => OutOfFuel
  | S fuel' =>
    let '(status, q1) := deflate_call Z_NO_FLUSH q in
    if negb (status =? Z_OK) then
      Returns (-1, setZlibError "Internal zlib error when compressing: " status
                     (set_state Error q1))
    else
      let outputSize := to_uInt (bufferSize (d_ptr q1) - avail_out (strm q1)) in
      match writeBytes fuel' (buffer (d_ptr q1)) outputSize q1 with
      | Returns (false, q2) => Returns (-1, q2)
      | Returns (true, q2) =>
        if avail_out (strm q2) =? 0 then writeLoop fuel' maxSize q2
        else Returns (maxSize, q2)
      | OutOfFuel => OutOfFuel
      | Aborts => Aborts
      end
  end.

Definition writeData (fuel : nat) (data : list byte) (maxSize : Z) (q : Q) : run (Z * Q) :=
  let q1 := set_strm {| next_in := data; avail_in := to_uInt maxSize;
                        avail_out := avail_out (strm q);
                        strm_state := strm_state (strm q) |} q in
  writeLoop fuel maxSize q1.

Fixpoint flushLoop (fuel : nat) (flushMode : Z) (q : Q) : run Q :=
  match fuel with
  | O => OutOfFuel
  | S fuel' =>
    let '(status, q1) := deflate_call flushMode q in
    if negb (status =? Z_OK) && negb (status =? Z_STREAM_END) then
      Returns (setZlibError "Internal zlib error when compressing: " status
                 (set_state Error q1))
    else
      let outputSize := to_uInt (bufferSize (d_ptr q1) - avail_out (strm q1)) in
      match writeBytes fuel' (buffer (d_ptr q1)) outputSize q1 with
      | Returns (false, q2) => Returns q2
      | Returns (true, q2) =>
        if ((flushMode =? Z_FINISH) && negb (status =? Z_STREAM_END))
           || (negb (flushMode =? Z_FINISH) && (avail_out (strm q2) =? 0))
        then flushLoop fuel' flushMode q2
        else Returns q2
      | OutOfFuel => OutOfFuel
      | Aborts => Aborts
      end
  end.

Definition flushZlib (fuel : nat) (flushMode : Z) (q : Q) : run Q :=
  let q1 := set_strm {| next_in := []; avail_in := 0;
                        avail_out := avail_out (strm q);
                        strm_state := strm_state (strm q) |} q in
  flushLoop fuel flushMode q1.

Definition flush (fuel : nat) (q : Q) : run Q := flushZlib fuel Z_SYNC_FLUSH q.

Definition end_stream (f : internal_state -> internal_state) (q : Q) : Q :=
  set_strm {| next_in := next_in (strm q); avail_in := avail_in (strm q);
              avail_out := avail_out (strm q);
              strm_state := f (strm_state (strm q)) |} q.

Definition finalize (fuel : nat) (read : bool) (q : Q) : run Q :=
  if read then Returns (end_stream inflateEnd (set_state NotReadFirstByte q))
  else if State_eqb (state (d_ptr q)) BytesWritten then
    bind (flushZlib fuel Z_FINISH (set_state NoBytesWritten q))
         (fun q1 => Returns (end_stream deflateEnd q1))
  else Returns (end_stream deflateEnd q).

#[global] Instance zlib_backend : Private.Backend Dev Members := {
  Private.initialize := initialize;
  Private.readData := readData;
  Private.writeData := writeData;
  Private.flush := flush;
  Private.finalize := finalize
}.

End Zlib.
End ZlibPrivate.

(** ** QtIOCompressorZstdPrivate *)

Module ZstdPrivate.

(** Where [zstdInBuffer.src] points: nowhere, or at the scratch buffer. *)
Inductive pointer : Type := nullptr | to_buffer.

Record ZSTD_inBuffer : Type := {
  src : pointer;
  size : Z;
  pos : Z
}.

Section Zstd.
Context {Dev : Type} {dev_ops : QIODevice Dev} {zstd : ZstdApi} {build : BuildConfig}.

Record Members : Type := {
  zstdCStream : option ZSTD_CStream;
  zstdDStream : option ZSTD_DStream;
  zstdInBuffer : ZSTD_inBuffer;
  compressionLevel : Z
}.

Local Abbreviation Q := (QtIOCompressor Dev Members).

Definition inbuf (q : Q) : ZSTD_inBuffer := zstdInBuffer (derived (d_ptr q)).

Definition set_zstdCStream (c : option ZSTD_CStream) (q : Q) : Q :=
  set_derived {| zstdCStream := c;
                 zstdDStream := zstdDStream (derived (d_ptr q));
                 zstdInBuffer := zstdInBuffer (derived (d_ptr q));
                 compressionLevel := compressionLevel (derived (d_ptr q)) |} q.
Definition set_zstdDStream (s : option ZSTD_DStream) (q : Q) : Q :=
  set_derived {| zstdCStream := zstdCStream (derived (d_ptr q));
                 zstdDStream := s;
                 zstdInBuffer := zstdInBuffer (derived (d_ptr q));
                 compressionLevel := compressionLevel (derived (d_ptr q)) |} q.
Definition set_inbuf (b : ZSTD_inBuffer) (q : Q) : Q :=
  set_derived {| zstdCStream := zstdCStream (derived (d_ptr q));
                 zstdDStream := zstdDStream (derived (d_ptr q));
                 zstdInBuffer := b;
                 compressionLevel := compressionLevel (derived (d_ptr q)) |} q.

Definition QtIOCompressorZstdPrivate (dev : Dev) (level bufferSizeHint : Z)
    : QtIOCompressorPrivate Dev Members :=
  {| device := dev; manageDevice := false;
     state := if WITH_XC_ZSTD then Closed else Error;
     bufferSize := bufferSizeHint; buffer := [];
     derived := {| zstdCStream := None; zstdDStream := None;
                   zstdInBuffer := {| src := nullptr; size := 0; pos := 0 |};
                   compressionLevel := level |} |}.

Definition setZstdError (errorMessage : string) (zstdErrorCode : Z) (q : Q) : Q :=
  let unknown :=
    setErrorString (errorMessage ++ " Unknown error, code "
                      ++ NilZero.string_of_int (Z.to_int zstdErrorCode))%string q in
  if WITH_XC_ZSTD then
    match ZSTD_getErrorName zstdErrorCode with
    | Some zstdErrorString => setErrorString (errorMessage ++ zstdErrorString)%string q
    | None => unknown
    end
  else unknown.

(** The end of initialize: [buffer = new char[bufferSize]; zstdInBuffer =
    ZSTD_inBuffer{buffer, 0, 0}; return true]. *)
Definition allocate (q : Q) : bool * Q :=
  (true,
   set_inbuf {| src := to_buffer; size := 0; pos := 0 |}
     (set_buffer (repeat Byte.x00 (Z.to_nat (bufferSize (d_ptr q)))) q)).

Definition initialize (read : bool) (q : Q) : bool * Q :=
  if WITH_XC_ZSTD then
    if read then
      match ZSTD_createDStream with
      | None => (false, setErrorString "Internal zstd error" (set_zstdDStream None q))
      | Some ds =>
        let '(status, ds') := ZSTD_initDStream ds in
        let q1 := set_zstdDStream (Some ds') q in
        if ZSTD_isError status then (false, setZstdError "Internal zstd error: " status q1)
        else allocate (set_bufferSize (Z.max ZSTD_DStreamInSize (bufferSize (d_ptr q1))) q1)
      end
    else
      match ZSTD_createCStream with
      | None => (false, setErrorString "Internal zstd error" (set_zstdCStream None q))
      | Some cs =>
        let '(status, cs') := ZSTD_initCStream cs (compressionLevel (derived (d_ptr q))) in
        let q1 := set_zstdCStream (Some cs') q in
        if ZSTD_isError status then (false, setZstdError "Internal zstd error: " status q1)
        else allocate (set_bufferSize (Z.max ZSTD_CStreamOutSize (bufferSize (d_ptr q1))) q1)
      end
  else (false, setErrorString "this build doesn't ship zstd support" q).

(** The block [if (zstdInBuffer.pos >= zstdInBuffer.size) { ... }] of
    readData: [inl] is a return from readData. *)
Definition fill (data : list byte) (q : Q) : (Z * list byte * Q) + Q :=
  if pos (inbuf q) >=? size (inbuf q) then
    let '(r, dev') := dev_read (bufferSize (d_ptr q)) (device (d_ptr q)) in
    let q0 := set_device dev' q in
    match r with
    | None =>
      inl (-1, data,
           setErrorString ("Error reading data from underlying device: "
                             ++ dev_errorString dev')%string (set_state Error q0))
    | Some bs =>
      let bytesAvailable := len bs in
      let q1 := set_buffer (store bs (buffer (d_ptr q0))) q0 in
      let q2 := set_inbuf {| src := src (inbuf q1); size := bytesAvailable; pos := 0 |} q1 in
      if negb (State_eqb (state (d_ptr q2)) InStream) then
        if bytesAvailable =? 0 then inl (0, data, q2)
        else if bytesAvailable >? 0 then inr (set_state InStream q2)
        else inr q2
      else inr q2
    end
  else inr q.

(** The bytes [src[pos .. size)] the codec is shown; [None] when there are
    some and [src] is nullptr. *)
Definition window (q : Q) : option (list byte) :=
  let ib := inbuf q in
  match src ib with
  | to_buffer => Some (take (size ib - pos ib) (advance (pos ib) (buffer (d_ptr q))))
  | nullptr => if pos ib <? size ib then None else Some []
  end.

(** [ZSTD_decompressStream(zstdDStream, &zstdOutBuffer, &zstdInBuffer)];
    [zstdOutBuffer.size] is [outSize] and [zstdOutBuffer.pos] is the length
    of [data]. *)
Definition decompress_call (outSize : Z) (data : list byte) (q : Q)
    : run (Z * list byte * Q) :=
  match zstdDStream (derived (d_ptr q)), window q with
  | Some ds, Some input =>
    let '(r, ds') := ZSTD_decompressStream ds input (outSize - len data) in
    Returns (status r, data ++ produced r,
             set_zstdDStream (Some ds')
               (set_inbuf {| src := src (inbuf q); size := size (inbuf q);
                             pos := pos (inbuf q) + Z.of_nat (consumed r) |} q))
  | _, _ => Aborts
  end.

(** [while (pos < size) device->ungetChar(src[--size])]. *)
Fixpoint ungetLoop (fuel : nat) (q : Q) : run Q :=
  if pos (inbuf q) <? size (inbuf q) then
    match fuel with
    | O => OutOfFuel
    | S fuel' =>
      let size' := size (inbuf q) - 1 in
      match src (inbuf q), nth_error (buffer (d_ptr q)) (Z.to_nat size') with
      | to_buffer, Some c =>
        ungetLoop fuel'
          (set_device (dev_ungetChar c (device (d_ptr q)))
             (set_inbuf {| src := src (inbuf q); size := size'; pos := pos (inbuf q) |} q))
      | _, _ => Aborts
      end
    end
  else Returns q.

(** The end of readData, after the loop; the unget loop runs [size - pos]
    times. *)
Definition readEnd (status : Z) (data : list byte) (q : Q) : run (Z * list byte * Q) :=
  if status =? 0 then
    let q1 := set_state EndOfStream q in
    bind (ungetLoop (Z.to_nat (size (inbuf q1) - pos (inbuf q1))) q1)
         (fun q2 => Returns (len data, data, q2))
  else Returns (len data, data, q).

Fixpoint readLoop (fuel : nat) (outSize : Z) (data : list byte) (q : Q)
    : run (Z * list byte * Q) :=
  match fuel with
  | O => OutOfFuel
  | S fuel' =>
    match fill data q with
    | inl early => Returns early
    | inr q1 =>
      match decompress_call outSize data q1 with
      | Returns (status, data', q2) =>
        if status =? 0 then readEnd status data' q2
        else if ZSTD_isError status then
          Returns (-1, data',
                   setZstdError "Internal zstd error when decompressing: " status q2)
        else if (len data' <? outSize) && negb (status =? 0) then
          readLoop fuel' outSize data' q2
        else readEnd status data' q2
      | OutOfFuel => OutOfFuel
      | Aborts => Aborts
      end
    end
  end.

Definition readData (fuel : nat) (maxSize : Z) (q : Q) : run (Z * list byte * Q) :=
  if WITH_XC_ZSTD then readLoop fuel (to_size_t maxSize) [] q
  else Returns (-1, [], q).

(** [ZSTD_compressStream2(zstdCStream, &zstdOutBuffer, &in, flushMode)] with
    a fresh [zstdOutBuffer{buffer, bufferSize, 0}]; [input] is what is left
    of the local in-buffer.  Gives the step and the object. *)
Definition compress_call (flushMode : ZSTD_EndDirective) (input : list byte) (q : Q)
    : run (codec_step * Q) :=
  match zstdCStream (derived (d_ptr q)) with
  | Some cs =>
    let '(r, cs') :=
      ZSTD_compressStream2 cs input (to_size_t (bufferSize (d_ptr q))) flushMode in
    Returns (r, set_zstdCStream (Some cs')
                  (set_buffer (store (produced r) (buffer (d_ptr q))) q))
  | None => Aborts
  end.

(** The loop of writeData over the local [ZSTD_inBuffer{data, inSize,
    inPos}]. *)
Fixpoint writeLoop (fuel : nat) (data : list byte) (inSize inPos : Z) (maxSize : Z) (q : Q)
    : run (Z * Q) :=
  match fuel with
  | O => OutOfFuel
  | S fuel' =>
    match compress_call ZSTD_e_continue (take (inSize - inPos) (advance inPos data)) q with
    | Returns (r, q1) =>
      if ZSTD_isError (status r) then
        Returns (-1, setZstdError "Internal zstd error when compressing: " (status r)
                       (set_state Error q1))
      else
        match writeBytes fuel' (buffer (d_ptr q1)) (len (produced r)) q1 with
        | Returns (false, q2) => Returns (-1, q2)
        | Returns (true, q2) =>
          let inPos' := inPos + Z.of_nat (consumed r) in
          if inPos' <? inSize then writeLoop fuel' data inSize inPos' maxSize q2
          else Returns (maxSize, set_state BytesWritten q2)
        | OutOfFuel => OutOfFuel
        | Aborts => Aborts
        end
    | OutOfFuel => OutOfFuel
    | Aborts => Aborts
    end
  end.

Definition writeData (fuel : nat) (data : list byte) (maxSize : Z) (q : Q) : run (Z * Q) :=
  if WITH_XC_ZSTD then writeLoop fuel data (to_size_t maxSize) 0 maxSize q
  else Returns (-1, q).

Fixpoint flushLoop (fuel : nat) (flushMode : ZSTD_EndDirective) (q : Q) : run Q :=
  match fuel with
  | O => OutOfFuel
  | S fuel' =>
    match compress_call flushMode [] q with
    | Returns (r, q1) =>
      if ZSTD_isError (status r) then
        Returns (setZstdError "Internal zstd error when compressing: " (status r)
                   (set_state Error q1))
      else
        match writeBytes fuel' (buffer (d_ptr q1)) (len (produced r)) q1 with
        | Returns (false, q2) => Returns q2
        | Returns (true, q2) =>
          if negb (status r =? 0) then flushLoop fuel' flushMode q2 else Returns q2
        | OutOfFuel => OutOfFuel
        | Aborts => Aborts
        end
    | OutOfFuel => OutOfFuel
    | Aborts => Aborts
    end
  end.

Definition flushZstd (fuel : nat) (flushMode : ZSTD_EndDirective) (q : Q) : run Q :=
  if WITH_XC_ZSTD then flushLoop fuel flushMode q else Returns q.

Definition flush (fuel : nat) (q : Q) : run Q :=
  if WITH_XC_ZSTD then flushZstd fuel ZSTD_e_flush q else Returns q.

Definition finalize (fuel : nat) (read : bool) (q : Q) : run Q :=
  if WITH_XC_ZSTD then
    bind
      (if read then Returns (set_zstdDStream None (set_state NotReadFirstByte q))
       else if State_eqb (state (d_ptr q)) BytesWritten then
         bind (flushZstd fuel ZSTD_e_end (set_state NoBytesWritten q))
              (fun q1 => Returns (set_zstdCStream None q1))
       else Returns (set_zstdCStream None q))
      (fun q2 => Returns (set_inbuf {| src := nullptr; size := 0; pos := 0 |} q2))
  else Returns q.

#[global] Instance zstd_backend : Private.Backend Dev Members := {
  Private.initialize := initialize;
  Private.readData := readData;
  Private.writeData := writeData;
  Private.flush := flush;
  Private.finalize := finalize
}.

End Zstd.
End ZstdPrivate.

(** ** QtIOCompressor *)

Section Compressor.
Context {Dev D : Type} {dev_ops : QIODevice Dev} {backend : Private.Backend Dev D}.

Local Abbreviation Q := (QtIOCompressor Dev D).

Definition isSequential (q : Q) : bool := true.

(** The end of open: [if (!d->initialize(read)) return false; return
    QIODevice::open(mode);], the base class recording the mode. *)
Definition open_backend (mode : Z) (read : bool) (q : Q) : bool * Q :=
  let '(ok, q1) := Private.initialize read q in
  if negb ok then (false, q1) else (true, set_openMode mode q1).

Definition open (mode : Z) (q : Q) : bool * Q :=
  if isOpen q then (false, q)
  else
    let read := has_flag mode ReadOnly in
    let write := has_flag mode WriteOnly in
    let both := read && write in
    let neither := negb (read || write) in
    if both || neither then (false, q)
    else if dev_isOpen (device (d_ptr q)) then
      let q1 := set_manageDevice false q in
      let deviceMode := dev_openMode (device (d_ptr q1)) in
      if read && negb (has_flag deviceMode ReadOnly) then (false, q1)
      else if write && negb (has_flag deviceMode WriteOnly) then (false, q1)
      else open_backend mode read q1
    else
      let q1 := set_manageDevice true q in
      let '(ok, dev') := dev_open mode (device (d_ptr q1)) in
      let q2 := set_device dev' q1 in
      if negb ok then
        (false, setErrorString ("Error opening underlying device: "
                                  ++ dev_errorString dev')%string q2)
      else open_backend mode read q2.

Definition close (fuel : nat) (q : Q) : run Q :=
  if negb (isOpen q) then Returns q
  else
    bind (Private.finalize fuel (has_flag (openMode q) ReadOnly) q)
         (fun q1 =>
            let q2 := if manageDevice (d_ptr q1)
                      then set_device (dev_close (device (d_ptr q1))) q1
                      else q1 in
            Returns (set_openMode NotOpen q2)).

Definition flush (fuel : nat) (q : Q) : run Q :=
  if negb (isOpen q) || has_flag (openMode q) ReadOnly then Returns q
  else Private.flush fuel q.

Definition readData (fuel : nat) (maxSize : Z) (q : Q) : run (Z * list byte * Q) :=
  if State_eqb (state (d_ptr q)) EndOfStream then Returns (0, [], q)
  else if State_eqb (state (d_ptr q)) Error then Returns (-1, [], q)
  else Private.readData fuel maxSize q.

Definition writeData (fuel : nat) (data : list byte) (maxSize : Z) (q : Q) : run (Z * Q) :=
  if maxSize <? 1 then Returns (0, q)
  else if State_eqb (state (d_ptr q)) Error then Returns (-1, q)
  else Private.writeData fuel data maxSize q.

(** A session: reads, writes and flushes issued one after the other on the
    same object, with the values the reads and writes return. *)
Inductive io_call : Type :=
| call_read (maxSize : Z)
| call_write (data : list byte) (maxSize : Z)
| call_flush.

Definition perform (fuel : nat) (c : io_call) (q : Q) : run (option Z * Q) :=
  match c with
  | call_read maxSize =>
    bind (readData fuel maxSize q) (fun r => Returns (Some (fst (fst r)), snd r))
  | call_write data maxSize =>
    bind (writeData fuel data maxSize q) (fun r => Returns (Some (fst r), snd r))
  | call_flush => bind (flush fuel q) (fun q' => Returns (None, q'))
  end.

Fixpoint session (fuel : nat) (calls : list io_call) (q : Q) : run (list (option Z) * Q) :=
  match calls with
  | [] => Returns ([], q)
  | c :: rest =>
    bind (perform fuel c q)
         (fun r => bind (session fuel rest (snd r))
                        (fun rs => Returns (fst r :: fst rs, snd rs)))
  end.

End Compressor.

(** The two constructors; the base class starts closed, with no error
    string. *)
Definition QtIOCompressor_Gzip {Dev : Type} {zlib : ZlibApi} (dev : Dev)
    (Spec_compressionLevel bufSize : Z) : QtIOCompressor Dev ZlibPrivate.Members :=
  {| d_ptr := ZlibPrivate.QtIOCompressorZlibPrivate dev ZlibPrivate.GzipFormat
                Spec_compressionLevel bufSize;
     openMode := NotOpen; errorString := "" |}.

Definition QtIOCompressor_Zstd {Dev : Type} {zstd : ZstdApi} {build : BuildConfig} (dev : Dev)
    (Spec_compressionLevel bufSize : Z) : QtIOCompressor Dev ZstdPrivate.Members :=
  {| d_ptr := ZstdPrivate.QtIOCompressorZstdPrivate dev Spec_compressionLevel bufSize;
     openMode := NotOpen; errorString := "" |}.

(** The format given to the constructor selects the subclass behind
    [d_ptr]; [backend_of] is the virtual dispatch on it. *)
Inductive FormatSpec : Type :=
| GzipFormatSpec (compressionLevel : Z)
| ZstdFormatSpec (compressionLevel : Z).

Definition Members_of {zlib : ZlibApi} {zstd : ZstdApi} (Spec : FormatSpec) : Type :=
  match Spec with
  | GzipFormatSpec _ => ZlibPrivate.Members
  | ZstdFormatSpec _ => ZstdPrivate.Members
  end.

Definition new_QtIOCompressor {Dev : Type} {zlib : ZlibApi} {zstd : ZstdApi}
    {build : BuildConfig} (dev : Dev) (Spec : FormatSpec) (bufSize : Z)
    : QtIOCompressor Dev (Members_of Spec) :=
  match Spec with
  | GzipFormatSpec level => QtIOCompressor_Gzip dev level bufSize
  | ZstdFormatSpec level => QtIOCompressor_Zstd dev level bufSize
  end.

#[global] Instance backend_of {Dev : Type} {dev_ops : QIODevice Dev} {zlib : ZlibApi}
    {zstd : ZstdApi} {build : BuildConfig} (Spec : FormatSpec)
    : Private.Backend Dev (Members_of Spec) :=
  match Spec with
  | GzipFormatSpec _ => ZlibPrivate.zlib_backend
  | ZstdFormatSpec _ => ZstdPrivate.zstd_backend
  end.

(** ** Instances the examples run on

    A device that lives in memory, and a zlib and a zstd that keep the
    calling conventions of the libraries with a trivial format: a stream is
    its payload followed by the byte 00, and the byte ff never occurs in a
    valid stream. *)

Record MemDevice : Type := {
  md_mode : Z;
  md_in : list byte;
  md_out : list byte
}.

Definition md_dev_open (mode : Z) (d : MemDevice) : bool * MemDevice :=
  (true, {| md_mode := mode; md_in := md_in d; md_out := md_out d |}).

Definition md_dev_close (d : MemDevice) : MemDevice :=
  {| md_mode := NotOpen; md_in := md_in d; md_out := md_out d |}.

Definition md_dev_read (n : Z) (d : MemDevice) : option (list byte) * MemDevice :=
  if has_flag (md_mode d) ReadOnly then
    (Some (take n (md_in d)),
     {| md_mode := md_mode d; md_in := advance n (md_in d); md_out := md_out d |})
  else (None, d).

Definition md_dev_write (mem : list byte) (n : Z) (d : MemDevice) : Z * MemDevice :=
  if has_flag (md_mode d) WriteOnly && (0 <=? n) then
    (n, {| md_mode := md_mode d; md_in := md_in d; md_out := md_out d ++ take n mem |})
  else (-1, d).

Definition md_dev_ungetChar (c : byte) (d : MemDevice) : MemDevice :=
  {| md_mode := md_mode d; md_in := c :: md_in d; md_out := md_out d |}.

Definition mem_device : QIODevice MemDevice := {|
  dev_isOpen := fun d => negb (md_mode d =? NotOpen);
  dev_openMode := md_mode;
  dev_open := md_dev_open;
  dev_close := md_dev_close;
  dev_read := md_dev_read;
  dev_write := md_dev_write;
  dev_ungetChar := md_dev_ungetChar;
  dev_errorString := fun _ => "Unknown error"%string
|}.

(** The same device with a count of the calls it has received. *)
Definition counting_device : QIODevice (nat * MemDevice) := {|
  dev_isOpen := fun d => negb (md_mode (snd d) =? NotOpen);
  dev_openMode := fun d => md_mode (snd d);
  dev_open := fun mode d =>
    (fst (md_dev_open mode (snd d)), (S (fst d), snd (md_dev_open mode (snd d))));
  dev_close := fun d => (S (fst d), md_dev_close (snd d));
  dev_read := fun n d =>
    (fst (md_dev_read n (snd d)), (S (fst d), snd (md_dev_read n (snd d))));
  dev_write := fun mem n d =>
    (fst (md_dev_write mem n (snd d)), (S (fst d), snd (md_dev_write mem n (snd d))));
  dev_ungetChar := fun c d => (S (fst d), md_dev_ungetChar c (snd d));
  dev_errorString := fun _ => "Unknown error"%string
|}.

(** Decoding of the trivial format: status (0 more to do, 1 end of stream,
    -3 corrupt), input bytes taken, bytes produced. *)
Fixpoint toy_decode (input : list byte) (room : nat) : Z * nat * list byte :=
  match input with
  | [] => (0, O, [])
  | b :: rest =>
    if Byte.eqb b Byte.x00 then (1, 1%nat, [])
    else if Byte.eqb b Byte.xff then (-3, O, [])
    else
      match room with
      | O => (0, O, [])
      | S room' =>
        let '(s, c, p) := toy_decode rest room' in (s, S c, b :: p)
      end
  end.

(** The state of the trivial zlib is [last_flush], the flush mode of the
    previous call of deflate (-2 at the start, and -1 after a call that
    filled the output area, as zlib sets it). *)
Definition toy_inflate (st : Z) (input : list byte) (room flushMode : Z)
    : codec_step * Z :=
  let '(s, c, p) := toy_decode input (Z.to_nat room) in
  let s' := if (s =? 0) && (c =? 0)%nat then Z_BUF_ERROR else s in
  ({| status := s'; consumed := c; produced := p |}, st).

(** zlib's RANK of a flush mode. *)
Definition toy_rank (f : Z) : Z := 2 * f - (if f >? 4 then 9 else 0).

(** deflate without compression.  As in zlib, a call that has no input
    and whose flush mode does not rank above the one of the call before is
    answered with Z_BUF_ERROR, unless the mode is Z_FINISH. *)
Definition toy_deflate (last_flush : Z) (input : list byte) (room flushMode : Z)
    : codec_step * Z :=
  let n := Nat.min (List.length input) (Z.to_nat room) in
  let out := firstn n input in
  if (List.length input =? 0)%nat && (toy_rank flushMode <=? toy_rank last_flush)
     && negb (flushMode =? Z_FINISH)
  then ({| status := Z_BUF_ERROR; consumed := O; produced := [] |}, last_flush)
  else if flushMode =? Z_FINISH then
    if (n =? List.length input)%nat && (n <? Z.to_nat room)%nat then
      ({| status := Z_STREAM_END; consumed := n; produced := out ++ [Byte.x00] |},
       flushMode)
    else ({| status := Z_OK; consumed := n; produced := out |}, -1)
  else
    ({| status := Z_OK; consumed := n; produced := out |},
     if (Z.of_nat n =? room) then -1 else flushMode).

Definition toy_zlib : ZlibApi := {|
  internal_state := Z;
  Z_NULL := -2;
  ZLIB_VERSION := "1.3.1";
  zlibVersion := "1.3.1";
  inflateInit := (Z_OK, -2);
  inflateInit2 := fun _ => (Z_OK, -2);
  deflateInit := fun _ => (Z_OK, -2);
  deflateInit2 := fun _ _ _ _ _ => (Z_OK, -2);
  inflate := toy_inflate;
  deflate := toy_deflate;
  inflateEnd := fun st => st;
  deflateEnd := fun st => st;
  zError := fun code =>
    if code =? Z_DATA_ERROR then Some "data error"%string
    else if code =? Z_BUF_ERROR then Some "buffer error"%string
    else None
|}.

(** zstd error codes are the top values of [size_t]. *)
Definition toy_corruption : Z := 2 ^ 64 - 20.

Definition toy_decompressStream (st : unit) (input : list byte) (room : Z)
    : codec_step * unit :=
  let '(s, c, p) := toy_decode input (Z.to_nat room) in
  let s' := if s =? 1 then 0 else if s =? -3 then toy_corruption else 1 in
  ({| status := s'; consumed := c; produced := p |}, st).

Definition toy_compressStream2 (st : unit) (input : list byte) (room : Z)
    (flushMode : ZSTD_EndDirective) : codec_step * unit :=
  let n := Nat.min (List.length input) (Z.to_nat room) in
  let out := firstn n input in
  match flushMode with
  | ZSTD_e_end =>
    if (n =? List.length input)%nat && (n <? Z.to_nat room)%nat then
      ({| status := 0; consumed := n; produced := out ++ [Byte.x00] |}, st)
    else ({| status := 1; consumed := n; produced := out |}, st)
  | _ => ({| status := 0; consumed := n; produced := out |}, st)
  end.

Definition toy_zstd : ZstdApi := {|
  ZSTD_CStream := unit;
  ZSTD_DStream := unit;
  ZSTD_createCStream := Some tt;
  ZSTD_createDStream := Some tt;
  ZSTD_initCStream := fun st _ => (0, st);
  ZSTD_initDStream := fun st => (0, st);
  ZSTD_isError := fun code => code >? 2 ^ 64 - 120;
  ZSTD_DStreamInSize := 4;
  ZSTD_CStreamOutSize := 4;
  ZSTD_compressStream2 := toy_compressStream2;
  ZSTD_decompressStream := toy_decompressStream;
  ZSTD_getErrorName := fun _ => Some "Data corruption detected"%string
|}.

Definition with_zstd : BuildConfig := {| WITH_XC_ZSTD := true |}.
Definition without_zstd : BuildConfig := {| WITH_XC_ZSTD := false |}.

Definition mem (mode : Z) (input : list byte) : MemDevice :=
  {| md_mode := mode; md_in := input; md_out := [] |}.

(** ** The objects of the examples *)

Section Examples.
#[local] Existing Instance mem_device.
#[local] Existing Instance toy_zlib.
#[local] Existing Instance toy_zstd.

Definition zstd_on : Private.Backend MemDevice ZstdPrivate.Members :=
  ZstdPrivate.zstd_backend (build := with_zstd).
Definition zstd_off : Private.Backend MemDevice ZstdPrivate.Members :=
  ZstdPrivate.zstd_backend (build := without_zstd).

(** A compressor with a scratch buffer of [bufSize] bytes, opened for
    reading over a closed device that holds [input]. *)
Definition gzip_reader (bufSize : Z) (input : list byte)
    : QtIOCompressor MemDevice ZlibPrivate.Members :=
  snd (open ReadOnly (QtIOCompressor_Gzip (mem NotOpen input) 6 bufSize)).

Definition zstd_reader (bufSize : Z) (input : list byte)
    : QtIOCompressor MemDevice ZstdPrivate.Members :=
  snd (open (backend := zstd_on) ReadOnly
         (QtIOCompressor_Zstd (build := with_zstd) (mem NotOpen input) 3 bufSize)).

(** A compressor opened for writing over an empty closed device. *)
Definition gzip_writer (bufSize : Z) : QtIOCompressor MemDevice ZlibPrivate.Members :=
  snd (open WriteOnly (QtIOCompressor_Gzip (mem NotOpen []) 6 bufSize)).

Definition zstd_writer (bufSize : Z) : QtIOCompressor MemDevice ZstdPrivate.Members :=
  snd (open (backend := zstd_on) WriteOnly
         (QtIOCompressor_Zstd (build := with_zstd) (mem NotOpen []) 3 bufSize)).

(** The same over the device that counts its calls. *)
Definition counted_gzip_writer : QtIOCompressor (nat * MemDevice) ZlibPrivate.Members :=
  snd (open (dev_ops := counting_device)
            (backend := ZlibPrivate.zlib_backend (dev_ops := counting_device)) WriteOnly
            (QtIOCompressor_Gzip (O, mem NotOpen []) 6 8)).

(** The zstd compressor of a build without zstd, over the device [d]. *)
Definition zstd_stub (d : MemDevice) : QtIOCompressor MemDevice ZstdPrivate.Members :=
  QtIOCompressor_Zstd (build := without_zstd) d 3 8.

(** The object a call leaves, or [q] when the call does not return. *)
Definition after_write {D : Type} (q : QtIOCompressor MemDevice D)
    (r : run (Z * QtIOCompressor MemDevice D)) : QtIOCompressor MemDevice D :=
  match r with
  | Returns (_, q') => q'
  | _ => q
  end.

Definition after_read {D : Type} (q : QtIOCompressor MemDevice D)
    (r : run (Z * list byte * QtIOCompressor MemDevice D)) : QtIOCompressor MemDevice D :=
  match r with
  | Returns (_, _, q') => q'
  | _ => q
  end.

Definition after_session {D : Type} (q : QtIOCompressor MemDevice D)
    (r : run (list (option Z) * QtIOCompressor MemDevice D)) : QtIOCompressor MemDevice D :=
  match r with
  | Returns (_, q') => q'
  | _ => q
  end.

Definition after_close {D : Type} (q : QtIOCompressor MemDevice D)
    (r : run (QtIOCompressor MemDevice D)) : QtIOCompressor MemDevice D :=
  match r with
  | Returns q' => q'
  | _ => q
  end.

(** What a read shows from outside: the value returned, the bytes stored
    for the caller, the state, the bytes the device will give next and the
    error string. *)
Definition read_outcome {D : Type} (r : run (Z * list byte * QtIOCompressor MemDevice D))
    : run (Z * list byte * State * list byte * string) :=
  match r with
  | Returns (n, data, q) =>
    Returns (n, data, state (d_ptr q), md_in (device (d_ptr q)), errorString q)
  | OutOfFuel => OutOfFuel
  | Aborts => Aborts
  end.

(** "ABCD" and "E", each followed by its end mark. *)
Definition two_streams : list byte :=
  [Byte.x41; Byte.x42; Byte.x43; Byte.x44; Byte.x00; Byte.x45; Byte.x00].

(** A session of the gzip compressor over a device that was closed: "ABC"
    is written and flushed; then the compressor is closed. *)
Definition abc_session : list io_call :=
  [call_write [Byte.x41; Byte.x42; Byte.x43] 3; call_flush].

Definition abc_written : QtIOCompressor MemDevice ZlibPrivate.Members :=
  after_session (gzip_writer 8) (session 3 abc_session (gzip_writer 8)).

Definition abc_closed : QtIOCompressor MemDevice ZlibPrivate.Members :=
  after_close abc_written (close 3 abc_written).

(** A write session in the state Error: "ABC" is written and flush is
    called twice; the second flush finds nothing to do, deflate answers
    Z_BUF_ERROR and flushZlib sets the state Error. *)
Definition failed_writer : QtIOCompressor MemDevice ZlibPrivate.Members :=
  after_session (gzip_writer 8)
    (session 3 [call_write [Byte.x41; Byte.x42; Byte.x43] 3; call_flush; call_flush]
       (gzip_writer 8)).

(** What is on the device after writing [maxSize] bytes at [data] in one
    call and closing, and what one read of up to 64 bytes gets back from a
    stream. *)
Definition gzip_compress (fuel : nat) (data : list byte) (maxSize : Z) : run (list byte) :=
  bind (writeData fuel data maxSize (gzip_writer 8))
       (fun r => bind (close fuel (snd r))
                      (fun q => Returns (md_out (device (d_ptr q))))).

Definition gzip_decompress (fuel : nat) (stream : list byte) : run (Z * list byte) :=
  bind (readData fuel 64 (gzip_reader 8 stream)) (fun r => Returns (fst r)).

End Examples.

(** ** What the statements below observe *)

(** The part of the object that belongs to open and close: the open mode
    of the base class and whether the device is ours to close. *)
Definition base {Dev D : Type} (q : QtIOCompressor Dev D) : Z * bool :=
  (openMode q, manageDevice (d_ptr q)).

(** What a write leaves behind for everybody else: the value returned and
    the underlying device. *)
Definition written {Dev D : Type} (r : run (Z * QtIOCompressor Dev D)) : run (Z * Dev) :=
  match r with
  | Returns (n, q) => Returns (n, device (d_ptr q))
  | OutOfFuel => OutOfFuel
  | Aborts => Aborts
  end.

(** Two runs that end the same way, with results related by [R]. *)
Definition run_rel {A : Type} (R : A -> A -> Prop) (r1 r2 : run A) : Prop :=
  match r1, r2 with
  | Returns a, Returns b => R a b
  | OutOfFuel, OutOfFuel => True
  | Aborts, Aborts => True
  | _, _ => False
  end.

(** Two zlib compressors that agree on everything except the memory behind
    [next_in], where they agree on the [avail_in] bytes zlib may look at. *)
Definition forget_next_in {Dev : Type} {zlib : ZlibApi}
    (q : QtIOCompressor Dev ZlibPrivate.Members) : QtIOCompressor Dev ZlibPrivate.Members :=
  ZlibPrivate.set_strm
    {| ZlibPrivate.next_in := [];
       ZlibPrivate.avail_in := ZlibPrivate.avail_in (ZlibPrivate.strm q);
       ZlibPrivate.avail_out := ZlibPrivate.avail_out (ZlibPrivate.strm q);
       ZlibPrivate.strm_state := ZlibPrivate.strm_state (ZlibPrivate.strm q) |} q.

Definition same_input {Dev : Type} {zlib : ZlibApi}
    (q1 q2 : QtIOCompressor Dev ZlibPrivate.Members) : Prop :=
  forget_next_in q1 = forget_next_in q2
  /\ take (ZlibPrivate.avail_in (ZlibPrivate.strm q1)) (ZlibPrivate.next_in (ZlibPrivate.strm q1))
     = take (ZlibPrivate.avail_in (ZlibPrivate.strm q2)) (ZlibPrivate.next_in (ZlibPrivate.strm q2)).

(** Calling [ungetChar] on each byte of [bytes], the first one first. *)
Definition unget_all {Dev : Type} {dev_ops : QIODevice Dev} (bytes : list byte) (dev : Dev)
    : Dev :=
  fold_left (fun d c => dev_ungetChar c d) bytes dev.

(** What the loops of writeData need from the collaborators in order to
    end.  The device: a write returns -1 or takes some of the bytes offered
    (none only when none were offered). *)
Definition device_makes_progress {Dev : Type} {dev_ops : QIODevice Dev} : Prop :=
  forall (mem : list byte) (n : Z) (dev : Dev),
    fst (dev_write mem n dev) = -1
    \/ (0 <= fst (dev_write mem n dev)
        /\ (0 < n -> 0 < fst (dev_write mem n dev) <= n)).

(** zlib: deflate takes no more than it is given and produces no more than
    there is room for; and there is a count of the work it still holds,
    [pending], such that a call that fills the whole output area has taken
    input or emptied some of what it held. *)
Definition deflate_makes_progress {zlib : ZlibApi} : Prop :=
  exists pending : internal_state -> nat,
  forall (st : internal_state) (input : list byte) (room : Z),
    0 < room ->
    len (produced (fst (deflate st input room Z_NO_FLUSH))) <= room
    /\ (consumed (fst (deflate st input room Z_NO_FLUSH)) <= List.length input)%nat
    /\ (len (produced (fst (deflate st input room Z_NO_FLUSH))) = room ->
        (pending (snd (deflate st input room Z_NO_FLUSH))
         + (List.length input - consumed (fst (deflate st input room Z_NO_FLUSH)))
         < pending st + List.length input)%nat).

(** zstd: the same of ZSTD_compressStream2, for a call that leaves input
    behind. *)
Definition compress_makes_progress {zstd : ZstdApi} : Prop :=
  exists pending : ZSTD_CStream -> nat,
  forall (cs : ZSTD_CStream) (input : list byte) (room : Z),
    0 < room ->
    len (produced (fst (ZSTD_compressStream2 cs input room ZSTD_e_continue))) <= room
    /\ (consumed (fst (ZSTD_compressStream2 cs input room ZSTD_e_continue))
        <= List.length input)%nat
    /\ ((consumed (fst (ZSTD_compressStream2 cs input room ZSTD_e_continue))
         < List.length input)%nat ->
        (pending (snd (ZSTD_compressStream2 cs input room ZSTD_e_continue))
         + (List.length input
            - consumed (fst (ZSTD_compressStream2 cs input room ZSTD_e_continue)))
         < pending cs + List.length input)%nat).

(** The compressing stream of the backend exists: always for zlib, whose
    z_stream is a member; for zstd when [zstdCStream] is not null. *)
Definition write_stream_ready {Dev : Type} {zlib : ZlibApi} {zstd : ZstdApi}
    (Spec : FormatSpec) : QtIOCompressor Dev (Members_of Spec) -> Prop :=
  match Spec with
  | GzipFormatSpec _ => fun _ => True
  | ZstdFormatSpec _ => fun q => ZstdPrivate.zstdCStream (derived (d_ptr q)) <> None
  end.

(** ** The rest of the file: bytesAvailable, and what the statements about
    initialize, open, close, flush and the read and write paths need *)

Section BytesAvailable.
Context {Dev D : Type}.

(** QtIOCompressor::bytesAvailable.  [device_bytesAvailable] is
    [d->device->bytesAvailable()] and [QIODevice_bytesAvailable] is what
    the base class answers for the compressor itself; [numBytes] is an
    [int], the two counts are [qint64]. *)
Definition bytesAvailable (device_bytesAvailable : Dev -> Z) (QIODevice_bytesAvailable : Z)
    (q : QtIOCompressor Dev D) : Z :=
  if negb (has_flag (openMode q) ReadOnly) then 0
  else
    let numBytes :=
      match state (d_ptr q) with
      | NotReadFirstByte => to_int (device_bytesAvailable (device (d_ptr q)))
      | InStream => 1
      | _ => 0
      end in
    let numBytes := to_int (numBytes + QIODevice_bytesAvailable) in
    if numBytes >? 0 then 1 else 0.

End BytesAvailable.

(** The version string "major.minor.patch" of a zlib release. *)
Definition decimal (n : nat) : string := NilEmpty.string_of_uint (Nat.to_uint n).
Definition version (major minor patch : nat) : string :=
  (decimal major ++ "." ++ decimal minor ++ "." ++ decimal patch)%string.

(** A device whose writes append what they accept to [out dev] and whose
    failed writes leave it as it was. *)
Definition device_appends {Dev : Type} {dev_ops : QIODevice Dev} (out : Dev -> list byte)
    : Prop :=
  forall (mem : list byte) (n : Z) (dev : Dev),
    0 <= n ->
    (fst (dev_write mem n dev) = -1 /\ out (snd (dev_write mem n dev)) = out dev)
    \/ (0 <= fst (dev_write mem n dev) <= n
        /\ out (snd (dev_write mem n dev)) = out dev ++ take (fst (dev_write mem n dev)) mem).

(** The codecs keep to the output area they are given. *)
Definition inflate_stays_in_room {zlib : ZlibApi} : Prop :=
  forall (st : internal_state) (input : list byte) (room flushMode : Z),
    len (produced (fst (inflate st input room flushMode))) <= Z.max 0 room.

Definition decompress_stays_in_room {zstd : ZstdApi} : Prop :=
  forall (ds : ZSTD_DStream) (input : list byte) (room : Z),
    len (produced (fst (ZSTD_decompressStream ds input room))) <= Z.max 0 room.

(** Nothing is left of the input read earlier: [avail_in == 0] for zlib,
    [pos >= size] for zstd. *)
Definition input_exhausted {Dev : Type} {zlib : ZlibApi} {zstd : ZstdApi}
    (Spec : FormatSpec) : QtIOCompressor Dev (Members_of Spec) -> Prop :=
  match Spec with
  | GzipFormatSpec _ => fun q => ZlibPrivate.avail_in (ZlibPrivate.strm q) = 0
  | ZstdFormatSpec _ =>
    fun q => ZstdPrivate.size (ZstdPrivate.inbuf q) <= ZstdPrivate.pos (ZstdPrivate.inbuf q)
  end.

(** The device of the examples when it takes at most [k] bytes in one
    call of write. *)
Definition short_device (k : Z) : QIODevice MemDevice := {|
  dev_isOpen := fun d => negb (md_mode d =? NotOpen);
  dev_openMode := md_mode;
  dev_open := md_dev_open;
  dev_close := md_dev_close;
  dev_read := md_dev_read;
  dev_write := fun mem n d => md_dev_write mem (Z.min k n) d;
  dev_ungetChar := md_dev_ungetChar;
  dev_errorString := fun _ => "device error"%string
|}.

(** The zlib of the examples in a release that cannot read gzip. *)
Definition old_zlib : ZlibApi := {|
  internal_state := Z;
  Z_NULL := -2;
  ZLIB_VERSION := "1.1.4";
  zlibVersion := "1.1.4";
  inflateInit := (Z_OK, -2);
  inflateInit2 := fun _ => (Z_OK, -2);
  deflateInit := fun _ => (Z_OK, -2);
  deflateInit2 := fun _ _ _ _ _ => (Z_OK, -2);
  inflate := toy_inflate;
  deflate := toy_deflate;
  inflateEnd := fun st => st;
  deflateEnd := fun st => st;
  zError := fun _ => None
|}.

(** How a write or a flush that did not get through leaves the object: in
    the state Error, or with the error of the device it could not write
    to. *)
Definition after_write_or_flush {Dev D : Type} {dev_ops : QIODevice Dev}
    (q' : QtIOCompressor Dev D) : Prop :=
  state (d_ptr q') = Error
  \/ errorString q'
     = ("Error writing to underlying device: "
          ++ dev_errorString (device (d_ptr q')))%string.

(** zlib's deflate without flushing: it takes no more than it is given,
    produces no more than there is room for, and when it answers Z_OK with
    room left it has taken all its input. *)
Definition deflate_takes_all_when_room_left {zlib : ZlibApi} : Prop :=
  forall (st : internal_state) (input : list byte) (room : Z),
    0 < room ->
    (consumed (fst (deflate st input room Z_NO_FLUSH)) <= List.length input)%nat
    /\ len (produced (fst (deflate st input room Z_NO_FLUSH))) <= room
    /\ (status (fst (deflate st input room Z_NO_FLUSH)) = Z_OK ->
        len (produced (fst (deflate st input room Z_NO_FLUSH))) < room ->
        consumed (fst (deflate st input room Z_NO_FLUSH)) = List.length input).

(** The codecs when they are flushed with no input: they keep to the
    output area, and there is a count [pending] of what they still hold
    that goes down with every call after which the flush loop goes round
    again. *)
Definition deflate_flush_makes_progress {zlib : ZlibApi} : Prop :=
  exists pending : internal_state -> nat,
  forall (st : internal_state) (room flushMode : Z),
    0 < room ->
    len (produced (fst (deflate st [] room flushMode))) <= room
    /\ ((flushMode = Z_FINISH /\ status (fst (deflate st [] room flushMode)) <> Z_STREAM_END)
        \/ (flushMode <> Z_FINISH /\ len (produced (fst (deflate st [] room flushMode))) = room)
        -> (pending (snd (deflate st [] room flushMode)) < pending st)%nat).

Definition compress_flush_makes_progress {zstd : ZstdApi} : Prop :=
  exists pending : ZSTD_CStream -> nat,
  forall (cs : ZSTD_CStream) (room : Z) (flushMode : ZSTD_EndDirective),
    0 < room ->
    len (produced (fst (ZSTD_compressStream2 cs [] room flushMode))) <= room
    /\ (status (fst (ZSTD_compressStream2 cs [] room flushMode)) <> 0 ->
        (pending (snd (ZSTD_compressStream2 cs [] room flushMode)) < pending cs)%nat).
(** * Properties *)

Lemma State_eqb_refl (s : State) : State_eqb s s = true.
Proof. destruct s; reflexivity. Qed.

Lemma State_eqb_eq (a b : State) : State_eqb a b = true <-> a = b.
Proof. split; [destruct a, b; simpl; congruence | intros ->; apply State_eqb_refl]. Qed.

Lemma has_flag_both_or_neither (mode : Z) :
  has_flag mode ReadOnly = has_flag mode WriteOnly ->
  (has_flag mode ReadOnly && has_flag mode WriteOnly)
  || negb (has_flag mode ReadOnly || has_flag mode WriteOnly) = true.
Proof. intros ->; destruct (has_flag mode WriteOnly); reflexivity. Qed.

Lemma firstn_S_nth_error (view : list byte) : forall (i : nat) (c : byte),
  nth_error view i = Some c -> firstn (S i) view = firstn i view ++ [c].
Proof.
  induction view as [| b view IH]; intros [| i] c; simpl; try discriminate.
  - intros [= ->]; reflexivity.
  - intros E; f_equal; apply IH; exact E.
Qed.

Lemma unget_all_app {Dev : Type} {dev_ops : QIODevice Dev} (l1 l2 : list byte) (dev : Dev) :
  unget_all (l1 ++ l2) dev = unget_all l2 (unget_all l1 dev).
Proof. unfold unget_all; apply fold_left_app. Qed.

(** ** The compressor, whatever its backend *)

Section CompressorFacts.
Context {Dev D : Type} {dev_ops : QIODevice Dev} {backend : Private.Backend Dev D}.

Local Abbreviation Q := (QtIOCompressor Dev D).

Lemma readData_in_Error (fuel : nat) (maxSize : Z) (q : Q) :
  state (d_ptr q) = Error -> readData fuel maxSize q = Returns (-1, [], q).
Proof. intros E; unfold readData; rewrite E; reflexivity. Qed.

Lemma readData_at_EndOfStream (fuel : nat) (maxSize : Z) (q : Q) :
  state (d_ptr q) = EndOfStream -> readData fuel maxSize q = Returns (0, [], q).
Proof. intros E; unfold readData; rewrite E; reflexivity. Qed.

Lemma writeData_in_Error (fuel : nat) (data : list byte) (maxSize : Z) (q : Q) :
  state (d_ptr q) = Error -> 1 <= maxSize ->
  writeData fuel data maxSize q = Returns (-1, q).
Proof.
  intros E Hn; unfold writeData.
  destruct (maxSize <? 1) eqn:Hlt; [apply Z.ltb_lt in Hlt; lia |].
  rewrite E; reflexivity.
Qed.

Lemma close_when_closed (fuel : nat) (q : Q) :
  isOpen q = false -> close fuel q = Returns q.
Proof. intros E; unfold close; rewrite E; reflexivity. Qed.

Lemma close_closes (fuel : nat) (q q' : Q) :
  close fuel q = Returns q' -> isOpen q' = false.
Proof.
  unfold close; destruct (isOpen q) eqn:E; simpl.
  - destruct (Private.finalize fuel _ q) as [q1 | |]; simpl; [| discriminate | discriminate].
    intros [= <-]; reflexivity.
  - intros [= <-]; exact E.
Qed.

Lemma close_device (fuel : nat) (q q' : Q) :
  isOpen q = true -> close fuel q = Returns q' ->
  exists q1,
    Private.finalize fuel (has_flag (openMode q) ReadOnly) q = Returns q1
    /\ device (d_ptr q')
       = if manageDevice (d_ptr q1) then dev_close (device (d_ptr q1))
         else device (d_ptr q1).
Proof.
  intros E; unfold close; rewrite E; simpl.
  destruct (Private.finalize fuel _ q) as [q1 | |]; simpl; [| discriminate | discriminate].
  intros [= <-]; exists q1; split; [reflexivity |].
  destruct (manageDevice (d_ptr q1)); reflexivity.
Qed.



(** What open needs from initialize: it leaves the base class and the
    device alone. *)
Hypothesis initialize_frame : forall read (q : Q),
  openMode (snd (Private.initialize read q)) = openMode q
  /\ manageDevice (d_ptr (snd (Private.initialize read q))) = manageDevice (d_ptr q)
  /\ device (d_ptr (snd (Private.initialize read q))) = device (d_ptr q).


Lemma open_backend_manageDevice (mode : Z) (read : bool) (q : Q) :
  manageDevice (d_ptr (snd (open_backend mode read q))) = manageDevice (d_ptr q).
Proof.
  unfold open_backend.
  destruct (initialize_frame read q) as (_ & Hm & _).
  destruct (Private.initialize read q) as [ok q1]; simpl in *.
  destruct ok; simpl; auto.
Qed.


Lemma open_success_manageDevice (mode : Z) (q : Q) :
  fst (open mode q) = true ->
  manageDevice (d_ptr (snd (open mode q))) = negb (dev_isOpen (device (d_ptr q))).
Proof.
  unfold open.
  destruct (isOpen q); [discriminate |].
  destruct (_ || _); [discriminate |].
  destruct (dev_isOpen (device (d_ptr q))) eqn:Ed; simpl negb.
  - destruct (_ && _); [discriminate |].
    destruct (_ && _); [discriminate |].
    intros _; rewrite open_backend_manageDevice; reflexivity.
  - destruct (dev_open mode _) as [ok dev'].
    destruct ok; simpl; [| discriminate].
    intros _; rewrite open_backend_manageDevice; reflexivity.
Qed.

End CompressorFacts.

(** ** The base class *)

Section MembersFacts.
Context {Dev D : Type} {dev_ops : QIODevice Dev}.

Local Abbreviation Q := (QtIOCompressor Dev D).

Lemma writeBytes_base (fuel : nat) : forall (mem : list byte) (n : Z) (q q' : Q) (ok : bool),
  writeBytes fuel mem n q = Returns (ok, q') -> base q' = base q.
Proof.
  induction fuel as [| fuel IH]; intros mem n q q' ok; simpl; [discriminate |].
  destruct (dev_write mem n (device (d_ptr q))) as [w dev'].
  destruct (w =? -1).
  - intros [= _ <-]; reflexivity.
  - destruct (n - w >? 0).
    + intros E; apply IH in E; exact E.
    + intros [= _ <-]; reflexivity.
Qed.

Lemma writeBytes_derived (fuel : nat) : forall (mem : list byte) (n : Z) (q q' : Q) (ok : bool),
  writeBytes fuel mem n q = Returns (ok, q') ->
  derived (d_ptr q') = derived (d_ptr q) /\ buffer (d_ptr q') = buffer (d_ptr q)
  /\ bufferSize (d_ptr q') = bufferSize (d_ptr q).
Proof.
  induction fuel as [| fuel IH]; intros mem n q q' ok; simpl; [discriminate |].
  destruct (dev_write mem n (device (d_ptr q))) as [w dev'].
  destruct (w =? -1).
  - intros [= _ <-]; auto.
  - destruct (n - w >? 0).
    + intros E; apply IH in E; exact E.
    + intros [= _ <-]; auto.
Qed.

(** More fuel does not change what a call does once it has returned or
    aborted. *)
Lemma writeBytes_more_fuel (fuel : nat) : forall (mem : list byte) (n : Z) (q : Q),
  writeBytes fuel mem n q <> OutOfFuel ->
  writeBytes (S fuel) mem n q = writeBytes fuel mem n q.
Proof.
  induction fuel as [| fuel IH]; intros mem n q Hr; [exfalso; apply Hr; reflexivity |].
  revert Hr. simpl.
  destruct (dev_write mem n (device (d_ptr q))) as [w dev'].
  destruct (w =? -1); [reflexivity |].
  destruct (n - w >? 0); [| reflexivity].
  intros Hr. apply IH in Hr. exact Hr.
Qed.

(** Over a device that makes progress, writeBytes returns when it has one
    unit of fuel more than there are bytes to write. *)
Lemma writeBytes_returns (Hdev : device_makes_progress) (fuel : nat) :
  forall (mem : list byte) (n : Z) (q : Q),
    (Z.to_nat n < fuel)%nat ->
    exists ok q', writeBytes fuel mem n q = Returns (ok, q').
Proof.
  induction fuel as [| fuel IH]; intros mem n q Hf; [lia |].
  simpl.
  pose proof (Hdev mem n (device (d_ptr q))) as Hw.
  destruct (dev_write mem n (device (d_ptr q))) as [w dev']; simpl in Hw.
  destruct (w =? -1) eqn:E1; [eauto |].
  apply Z.eqb_neq in E1.
  destruct Hw as [Hw | [Hw0 Hw1]]; [contradiction |].
  destruct (n - w >? 0) eqn:E2; [| eauto].
  apply IH.
  assert (0 < n) by (rewrite Z.gtb_ltb in E2; apply Z.ltb_lt in E2; lia).
  specialize (Hw1 H). lia.
Qed.

End MembersFacts.

(** ** The zlib backend *)

Section ZlibFacts.
Context {Dev : Type} {dev_ops : QIODevice Dev} {zlib : ZlibApi}.

Local Abbreviation Q := (QtIOCompressor Dev ZlibPrivate.Members).

Lemma zlib_setZlibError_frame (msg : string) (code : Z) (q : Q) :
  d_ptr (ZlibPrivate.setZlibError msg code q) = d_ptr q
  /\ openMode (ZlibPrivate.setZlibError msg code q) = openMode q.
Proof. unfold ZlibPrivate.setZlibError; destruct (zError code); auto. Qed.

Lemma zlib_initialize_frame (read : bool) (q : Q) :
  openMode (snd (ZlibPrivate.initialize read q)) = openMode q
  /\ manageDevice (d_ptr (snd (ZlibPrivate.initialize read q))) = manageDevice (d_ptr q)
  /\ device (d_ptr (snd (ZlibPrivate.initialize read q))) = device (d_ptr q).
Proof.
  unfold ZlibPrivate.initialize.
  destruct read, (ZlibPrivate.streamFormat (derived (d_ptr q)));
    repeat match goal with
           | |- context [if ?c then _ else _] => destruct c
           end;
    cbn;
    repeat match goal with
           | |- context [ZlibPrivate.setZlibError ?m ?c ?x] =>
             destruct (zlib_setZlibError_frame m c x) as [-> ->]
           end;
    auto.
Qed.

Lemma zlib_fill_base (data : list byte) (q : Q) :
  match ZlibPrivate.fill data q with
  | inl (_, _, q') => base q' = base q
  | inr q' => base q' = base q
  end.
Proof.
  unfold ZlibPrivate.fill.
  destruct (_ =? 0); [| reflexivity].
  destruct (dev_read _ _) as [[bs |] dev']; [| reflexivity].
  cbn.
  repeat match goal with
         | |- context [if ?c then _ else _] => destruct c
         end; reflexivity.
Qed.

Lemma zlib_inflate_call_base (flushMode : Z) (data : list byte) (q : Q) :
  base (snd (ZlibPrivate.inflate_call flushMode data q)) = base q.
Proof.
  unfold ZlibPrivate.inflate_call.
  destruct (inflate _ _ _ _) as [r st']; reflexivity.
Qed.

Lemma zlib_readEnd_base (status maxSize : Z) (data : list byte) (q : Q) n d q' :
  ZlibPrivate.readEnd status maxSize data q = Returns (n, d, q') -> base q' = base q.
Proof.
  unfold ZlibPrivate.readEnd.
  destruct (status =? Z_STREAM_END).
  - destruct (_ >=? 0).
    + destruct (ZlibPrivate.ungetLoop _ _ _); [| discriminate].
      intros [= _ _ <-]; reflexivity.
    + intros [= _ _ <-]; reflexivity.
  - intros [= _ _ <-]; reflexivity.
Qed.

Lemma zlib_readLoop_base (fuel : nat) : forall maxSize data (q : Q) n d q',
  ZlibPrivate.readLoop fuel maxSize data q = Returns (n, d, q') -> base q' = base q.
Proof.
  induction fuel as [| fuel IH]; intros maxSize data q n d q'; simpl; [discriminate |].
  pose proof (zlib_fill_base data q) as Hf.
  destruct (ZlibPrivate.fill data q) as [[[n0 d0] q0] | q1].
  - intros [= _ _ <-]; exact Hf.
  - pose proof (zlib_inflate_call_base Z_SYNC_FLUSH data q1) as Hi.
    destruct (ZlibPrivate.inflate_call Z_SYNC_FLUSH data q1) as [[st data'] q2].
    simpl in Hi.
    destruct (_ || _).
    + intros [= _ _ <-].
      unfold base. destruct (zlib_setZlibError_frame
        "Internal zlib error when decompressing: " st (set_state Error q2)) as [-> ->].
      cbn. unfold base in *. congruence.
    + destruct (st =? Z_BUF_ERROR).
      * intros [= _ _ <-]; congruence.
      * destruct (_ && _).
        -- intros E; apply IH in E; congruence.
        -- intros E; apply zlib_readEnd_base in E; congruence.
Qed.

Lemma zlib_readData_base (fuel : nat) (maxSize : Z) (q : Q) n d q' :
  ZlibPrivate.readData fuel maxSize q = Returns (n, d, q') -> base q' = base q.
Proof. unfold ZlibPrivate.readData; intros E; apply zlib_readLoop_base in E; exact E. Qed.

Lemma zlib_deflate_call_base (flushMode : Z) (q : Q) :
  base (snd (ZlibPrivate.deflate_call flushMode q)) = base q.
Proof.
  unfold ZlibPrivate.deflate_call.
  destruct (deflate _ _ _ _) as [r st']; reflexivity.
Qed.

Lemma zlib_writeLoop_base (fuel : nat) : forall maxSize (q : Q) n q',
  ZlibPrivate.writeLoop fuel maxSize q = Returns (n, q') -> base q' = base q.
Proof.
  induction fuel as [| fuel IH]; intros maxSize q n q'; simpl; [discriminate |].
  pose proof (zlib_deflate_call_base Z_NO_FLUSH q) as Hd.
  destruct (ZlibPrivate.deflate_call Z_NO_FLUSH q) as [st q1]; simpl in Hd.
  destruct (negb _).
  - intros [= _ <-].
    unfold base. destruct (zlib_setZlibError_frame
      "Internal zlib error when compressing: " st (set_state Error q1)) as [-> ->].
    cbn. unfold base in *. congruence.
  - destruct (writeBytes fuel _ _ q1) as [[[|] q2] | |] eqn:Ew; try discriminate;
      apply writeBytes_base in Ew.
    + destruct (_ =? 0).
      * intros E; apply IH in E; congruence.
      * intros [= _ <-]; congruence.
    + intros [= _ <-]; congruence.
Qed.

Lemma zlib_flushLoop_base (fuel : nat) : forall flushMode (q q' : Q),
  ZlibPrivate.flushLoop fuel flushMode q = Returns q' -> base q' = base q.
Proof.
  induction fuel as [| fuel IH]; intros flushMode q q'; simpl; [discriminate |].
  pose proof (zlib_deflate_call_base flushMode q) as Hd.
  destruct (ZlibPrivate.deflate_call flushMode q) as [st q1]; simpl in Hd.
  destruct (negb _ && negb _).
  - intros [= <-].
    unfold base. destruct (zlib_setZlibError_frame
      "Internal zlib error when compressing: " st (set_state Error q1)) as [-> ->].
    cbn. unfold base in *. congruence.
  - destruct (writeBytes fuel _ _ q1) as [[[|] q2] | |] eqn:Ew; try discriminate;
      apply writeBytes_base in Ew.
    + destruct (_ || _).
      * intros E; apply IH in E; congruence.
      * intros [= <-]; congruence.
    + intros [= <-]; congruence.
Qed.

Lemma zlib_finalize_base (fuel : nat) (read : bool) (q q' : Q) :
  ZlibPrivate.finalize fuel read q = Returns q' -> base q' = base q.
Proof.
  unfold ZlibPrivate.finalize, ZlibPrivate.flushZlib.
  destruct read; [intros [= <-]; reflexivity |].
  destruct (State_eqb _ _).
  - destruct (ZlibPrivate.flushLoop _ _ _) as [q1 | |] eqn:E; simpl; try discriminate.
    apply zlib_flushLoop_base in E. intros [= <-].
    transitivity (base q1); [reflexivity | exact E].
  - intros [= <-]; reflexivity.
Qed.

(** Every way out of the write loop gives -1 or [maxSize]. *)
Lemma zlib_writeLoop_result (fuel : nat) : forall maxSize (q : Q) n q',
  ZlibPrivate.writeLoop fuel maxSize q = Returns (n, q') -> n = -1 \/ n = maxSize.
Proof.
  induction fuel as [| fuel IH]; intros maxSize q n q'; simpl; [discriminate |].
  destruct (ZlibPrivate.deflate_call Z_NO_FLUSH q) as [st q1].
  destruct (negb _); [intros [= <- _]; auto |].
  destruct (writeBytes fuel _ _ q1) as [[[|] q2] | |]; try discriminate.
  - destruct (_ =? 0); [apply IH | intros [= <- _]; auto].
  - intros [= <- _]; auto.
Qed.

(** The refill block leaves readData only with 0, or with -1 and the state
    Error. *)
Lemma zlib_fill_return (data : list byte) (q : Q) n d q' :
  ZlibPrivate.fill data q = inl (n, d, q') ->
  d = data /\ (n = 0 /\ state (d_ptr q') = state (d_ptr q)
              \/ n = -1 /\ state (d_ptr q') = Error).
Proof.
  unfold ZlibPrivate.fill.
  destruct (_ =? 0); [| discriminate].
  destruct (dev_read _ _) as [[bs |] dev'].
  - cbn. destruct (negb _); [| discriminate].
    destruct (len bs =? 0).
    + intros [= <- <- <-]; auto.
    + destruct (len bs >? 0); discriminate.
  - intros [= <- <- <-]; auto.
Qed.

Lemma to_uInt_not_minus_one (x : Z) : to_uInt x <> -1.
Proof. unfold to_uInt; pose proof (Z.mod_pos_bound x (2 ^ 32)); lia. Qed.

Lemma zlib_readEnd_not_minus_one (st maxSize : Z) (data : list byte) (q : Q) d q' :
  ZlibPrivate.readEnd st maxSize data q <> Returns (-1, d, q').
Proof.
  unfold ZlibPrivate.readEnd.
  destruct (st =? Z_STREAM_END); [destruct (_ >=? 0);
    [destruct (ZlibPrivate.ungetLoop _ _ _); [| discriminate] |] |];
    intros [= E _ _]; exact (to_uInt_not_minus_one _ E).
Qed.

(** Every way out of readData with -1 has set the state to Error. *)
Lemma zlib_readLoop_minus_one (fuel : nat) : forall maxSize data (q : Q) d q',
  ZlibPrivate.readLoop fuel maxSize data q = Returns (-1, d, q') ->
  state (d_ptr q') = Error.
Proof.
  induction fuel as [| fuel IH]; intros maxSize data q d q'; simpl; [discriminate |].
  destruct (ZlibPrivate.fill data q) as [[[n0 d0] q0] | q1] eqn:Ef.
  - intros [= -> -> ->].
    apply zlib_fill_return in Ef. destruct Ef as [_ [[E _] | [_ E]]]; [discriminate | exact E].
  - destruct (ZlibPrivate.inflate_call Z_SYNC_FLUSH data q1) as [[st data'] q2].
    destruct (_ || _).
    + intros [= _ <-].
      destruct (zlib_setZlibError_frame
        "Internal zlib error when decompressing: " st (set_state Error q2)) as [-> _].
      reflexivity.
    + destruct (st =? Z_BUF_ERROR); [discriminate |].
      destruct (_ && _); [apply IH |].
      intros E; exfalso; exact (zlib_readEnd_not_minus_one _ _ _ _ _ _ E).
Qed.

(** The other way round, for one turn of the loop: when inflate answers
    Z_NEED_DICT, Z_DATA_ERROR or Z_MEM_ERROR, readData returns -1 and the
    state is Error. *)
Lemma zlib_fatal_status (fuel : nat) (maxSize : Z) (data : list byte) (q q1 q2 : Q)
    (st : Z) (data' : list byte) :
  ZlibPrivate.fill data q = inr q1 ->
  ZlibPrivate.inflate_call Z_SYNC_FLUSH data q1 = (st, data', q2) ->
  st = Z_NEED_DICT \/ st = Z_DATA_ERROR \/ st = Z_MEM_ERROR ->
  exists q', ZlibPrivate.readLoop (S fuel) maxSize data q = Returns (-1, data', q')
             /\ state (d_ptr q') = Error.
Proof.
  intros Ef Ei Hst; simpl; rewrite Ef, Ei.
  assert (Hb : (st =? Z_NEED_DICT) || (st =? Z_DATA_ERROR) || (st =? Z_MEM_ERROR) = true).
  { destruct Hst as [-> | [-> | ->]]; reflexivity. }
  rewrite Hb. eexists; split; [reflexivity |].
  destruct (zlib_setZlibError_frame
    "Internal zlib error when decompressing: " st (set_state Error q2)) as [-> _].
  reflexivity.
Qed.

(** One turn of the loop when nothing can be done: in the state InStream
    with an empty input area, the device gives 0 bytes and inflate answers
    Z_BUF_ERROR; readData returns 0 and the state is still InStream. *)
Lemma zlib_benign_exhaustion (fuel : nat) (maxSize : Z) (data : list byte) (q q1 q2 : Q)
    (data' : list byte) :
  state (d_ptr q) = InStream ->
  ZlibPrivate.fill data q = inr q1 ->
  ZlibPrivate.inflate_call Z_SYNC_FLUSH data q1 = (Z_BUF_ERROR, data', q2) ->
  ZlibPrivate.readLoop (S fuel) maxSize data q = Returns (0, data', q2)
  /\ state (d_ptr q2) = InStream.
Proof.
  intros Es Ef Ei; simpl; rewrite Ef, Ei; split; [reflexivity |].
  assert (E1 : state (d_ptr q1) = InStream).
  { revert Ef; unfold ZlibPrivate.fill.
    destruct (_ =? 0); [| intros [= <-]; exact Es].
    destruct (dev_read _ _) as [[bs |] dev']; [| discriminate].
    cbn. rewrite Es; cbn. intros [= <-]; exact Es. }
  revert Ei; unfold ZlibPrivate.inflate_call.
  destruct (inflate _ _ _ _) as [r st']; intros [= _ _ <-]; exact E1.
Qed.

(** *** Fuel *)

Lemma zlib_readLoop_more_fuel (fuel : nat) : forall maxSize data (q : Q),
  ZlibPrivate.readLoop fuel maxSize data q <> OutOfFuel ->
  ZlibPrivate.readLoop (S fuel) maxSize data q = ZlibPrivate.readLoop fuel maxSize data q.
Proof.
  induction fuel as [| fuel IH]; intros maxSize data q Hr; [exfalso; apply Hr; reflexivity |].
  revert Hr.
  cbn [ZlibPrivate.readLoop].
  destruct (ZlibPrivate.fill data q) as [early | q1]; [reflexivity |].
  destruct (ZlibPrivate.inflate_call Z_SYNC_FLUSH data q1) as [[st data'] q2].
  destruct (_ || _); [reflexivity |].
  destruct (st =? Z_BUF_ERROR); [reflexivity |].
  destruct (_ && _); [| reflexivity].
  intros Hr. apply IH in Hr. exact Hr.
Qed.

Lemma zlib_writeLoop_more_fuel (fuel : nat) : forall maxSize (q : Q),
  ZlibPrivate.writeLoop fuel maxSize q <> OutOfFuel ->
  ZlibPrivate.writeLoop (S fuel) maxSize q = ZlibPrivate.writeLoop fuel maxSize q.
Proof.
  induction fuel as [| fuel IH]; intros maxSize q Hr; [exfalso; apply Hr; reflexivity |].
  revert Hr.
  cbn [ZlibPrivate.writeLoop].
  destruct (ZlibPrivate.deflate_call Z_NO_FLUSH q) as [st q1].
  destruct (negb _); [reflexivity |].
  destruct (writeBytes fuel _ _ q1) as [[[|] q2] | |] eqn:Ew;
    try (intros Hr; exfalso; apply Hr; reflexivity);
    (rewrite writeBytes_more_fuel by (rewrite Ew; discriminate)); rewrite Ew;
    try reflexivity.
  destruct (_ =? 0); [| reflexivity].
  intros Hr. apply IH in Hr. exact Hr.
Qed.

Lemma zlib_flushLoop_more_fuel (fuel : nat) : forall flushMode (q : Q),
  ZlibPrivate.flushLoop fuel flushMode q <> OutOfFuel ->
  ZlibPrivate.flushLoop (S fuel) flushMode q = ZlibPrivate.flushLoop fuel flushMode q.
Proof.
  induction fuel as [| fuel IH]; intros flushMode q Hr; [exfalso; apply Hr; reflexivity |].
  revert Hr.
  cbn [ZlibPrivate.flushLoop].
  destruct (ZlibPrivate.deflate_call flushMode q) as [st q1].
  destruct (negb _ && negb _); [reflexivity |].
  destruct (writeBytes fuel _ _ q1) as [[[|] q2] | |] eqn:Ew;
    try (intros Hr; exfalso; apply Hr; reflexivity);
    (rewrite writeBytes_more_fuel by (rewrite Ew; discriminate)); rewrite Ew;
    try reflexivity.
  destruct (_ || _); [| reflexivity].
  intros Hr. apply IH in Hr. exact Hr.
Qed.

(** The write loop returns: every turn that goes round again has taken
    input or emptied some of what deflate held. *)
Lemma zlib_writeLoop_ends (Hdev : device_makes_progress)
    (pending : internal_state -> nat)
    (Hzlib : forall (st : internal_state) (input : list byte) (room : Z),
        0 < room ->
        len (produced (fst (deflate st input room Z_NO_FLUSH))) <= room
        /\ (consumed (fst (deflate st input room Z_NO_FLUSH)) <= List.length input)%nat
        /\ (len (produced (fst (deflate st input room Z_NO_FLUSH))) = room ->
            (pending (snd (deflate st input room Z_NO_FLUSH))
             + (List.length input - consumed (fst (deflate st input room Z_NO_FLUSH)))
             < pending st + List.length input)%nat))
    (k : nat) : forall (fuel : nat) (maxSize : Z) (q : Q),
  0 < bufferSize (d_ptr q) < 2 ^ 31 ->
  (pending (ZlibPrivate.strm_state (ZlibPrivate.strm q))
   + List.length (take (ZlibPrivate.avail_in (ZlibPrivate.strm q))
                       (ZlibPrivate.next_in (ZlibPrivate.strm q))) <= k)%nat ->
  (k + Z.to_nat (bufferSize (d_ptr q)) + 2 <= fuel)%nat ->
  exists r q', ZlibPrivate.writeLoop fuel maxSize q = Returns (r, q').
Proof.
  induction k as [| k IH]; intros fuel maxSize q Hb Ha Hf;
    (destruct fuel as [| fuel]; [lia |]); cbn [ZlibPrivate.writeLoop];
    unfold ZlibPrivate.deflate_call;
    (assert (Er : to_uInt (bufferSize (d_ptr q)) = bufferSize (d_ptr q))
      by (unfold to_uInt; apply Z.mod_small; lia)); rewrite Er;
    pose proof (Hzlib (ZlibPrivate.strm_state (ZlibPrivate.strm q))
                  (take (ZlibPrivate.avail_in (ZlibPrivate.strm q))
                        (ZlibPrivate.next_in (ZlibPrivate.strm q)))
                  (bufferSize (d_ptr q)) (proj1 Hb)) as (Hp & Hc & Hfull);
    destruct (deflate _ _ _ _) as [r st']; simpl in Hp, Hc, Hfull; cbn;
    (destruct (negb (status r =? Z_OK)); [eauto |]);
    (assert (Eo : to_uInt (bufferSize (d_ptr q) - (bufferSize (d_ptr q) - len (produced r)))
                  = len (produced r))
      by (unfold to_uInt, len in *; rewrite Z.mod_small; lia)); rewrite Eo;
    match goal with
    | |- context [writeBytes fuel ?mem ?n ?q1] =>
      destruct (writeBytes_returns Hdev fuel mem n q1) as (ok & q2 & Ew);
        [unfold len in *; lia |];
        pose proof (writeBytes_derived fuel mem n q1 q2 ok Ew) as (Hd & _ & Hbs);
        rewrite Ew
    end;
    (destruct ok; [| eauto]);
    unfold ZlibPrivate.strm; rewrite Hd; cbn;
    (destruct (bufferSize (d_ptr q) - len (produced r) =? 0) eqn:E0; [| eauto]);
    apply Z.eqb_eq in E0;
    (assert (Hless : (pending st'
                      + (List.length (take (ZlibPrivate.avail_in (ZlibPrivate.strm q))
                                           (ZlibPrivate.next_in (ZlibPrivate.strm q)))
                         - consumed r)
                      < pending (ZlibPrivate.strm_state (ZlibPrivate.strm q))
                        + List.length (take (ZlibPrivate.avail_in (ZlibPrivate.strm q))
                                            (ZlibPrivate.next_in (ZlibPrivate.strm q))))%nat)
      by (apply Hfull; lia)).
  - exfalso. lia.
  - apply IH.
    + rewrite Hbs; cbn; exact Hb.
    + unfold ZlibPrivate.strm; rewrite Hd; cbn.
      unfold take in *. rewrite length_firstn, length_skipn.
      rewrite length_firstn in Hless, Hc, Ha. lia.
    + rewrite Hbs; cbn. lia.
Qed.

(** *** The unget loop of readData *)

(** Started at [i] inside the view, the loop calls ungetChar [i + 1]
    times: on [view[i]] first and on [view[0]] last. *)
Lemma zlib_ungetLoop_spec (view : list byte) : forall (i : nat) (dev : Dev),
  (i < List.length view)%nat ->
  ZlibPrivate.ungetLoop i view dev = Some (unget_all (rev (firstn (S i) view)) dev).
Proof.
  induction i as [| j IH]; intros dev Hi.
  - destruct view as [| c view]; [simpl in Hi; lia |]. reflexivity.
  - destruct (nth_error view (S j)) as [c |] eqn:E;
      [| apply nth_error_None in E; lia].
    change (ZlibPrivate.ungetLoop (S j) view dev)
      with (match nth_error view (S j) with
            | None => None
            | Some c => ZlibPrivate.ungetLoop j view (dev_ungetChar c dev)
            end).
    rewrite E, IH by lia.
    rewrite (firstn_S_nth_error view (S j) c E), rev_app_distr.
    reflexivity.
Qed.

Lemma zlib_ungetLoop_outside (view : list byte) (i : nat) (dev : Dev) :
  (List.length view <= i)%nat -> ZlibPrivate.ungetLoop i view dev = None.
Proof.
  intros Hi.
  assert (E : nth_error view i = None) by (apply nth_error_None; lia).
  destruct i as [| j].
  - change (ZlibPrivate.ungetLoop 0 view dev)
      with (match nth_error view 0 with
            | None => None
            | Some c => Some (dev_ungetChar c dev)
            end).
    rewrite E; reflexivity.
  - change (ZlibPrivate.ungetLoop (S j) view dev)
      with (match nth_error view (S j) with
            | None => None
            | Some c => ZlibPrivate.ungetLoop j view (dev_ungetChar c dev)
            end).
    rewrite E; reflexivity.
Qed.

Lemma to_int_small (a : Z) : 0 <= a < 2 ^ 31 -> to_int a = a.
Proof. intros Ha; unfold to_int; rewrite Z.mod_small; lia. Qed.

(** At the end of a stream, with [avail_in] unconsumed bytes at [next_in]
    and at least one more byte of buffer behind them, readData ungets
    [avail_in + 1] bytes: the unconsumed ones and the byte after them. *)
Lemma zlib_readEnd_ungets_one_more (maxSize : Z) (data : list byte) (q : Q) :
  0 <= ZlibPrivate.avail_in (ZlibPrivate.strm q) < 2 ^ 31 ->
  ZlibPrivate.avail_in (ZlibPrivate.strm q) < len (ZlibPrivate.next_in (ZlibPrivate.strm q)) ->
  exists q',
    ZlibPrivate.readEnd Z_STREAM_END maxSize data q
    = Returns (to_uInt (maxSize - ZlibPrivate.avail_out (ZlibPrivate.strm q)), data, q')
    /\ state (d_ptr q') = EndOfStream
    /\ device (d_ptr q')
       = unget_all (rev (take (ZlibPrivate.avail_in (ZlibPrivate.strm q) + 1)
                             (ZlibPrivate.next_in (ZlibPrivate.strm q))))
                   (device (d_ptr q)).
Proof.
  intros Ha Hl; unfold ZlibPrivate.readEnd; cbn.
  change (ZlibPrivate.strm (set_state EndOfStream q)) with (ZlibPrivate.strm q).
  rewrite (to_int_small _ Ha).
  assert (Eg : (ZlibPrivate.avail_in (ZlibPrivate.strm q) >=? 0) = true)
    by (rewrite Z.geb_leb; apply Z.leb_le; lia).
  rewrite Eg.
  rewrite zlib_ungetLoop_spec by (unfold len in Hl; lia).
  eexists; split; [reflexivity |]. split; [reflexivity |].
  cbn. unfold take.
  replace (Z.to_nat (ZlibPrivate.avail_in (ZlibPrivate.strm q) + 1))
    with (S (Z.to_nat (ZlibPrivate.avail_in (ZlibPrivate.strm q)))) by lia.
  reflexivity.
Qed.

(** *** Writing looks at [avail_in] bytes only *)

Ltac open_zlib q :=
  destruct q as [[? ? ? ? ? [[? ? ? ?] ? ?]] ? ?].

Lemma same_input_refl_on (q : Q) (d1 d2 : list byte) (n : Z) :
  take n d1 = take n d2 ->
  same_input
    (ZlibPrivate.set_strm {| ZlibPrivate.next_in := d1; ZlibPrivate.avail_in := n;
        ZlibPrivate.avail_out := ZlibPrivate.avail_out (ZlibPrivate.strm q);
        ZlibPrivate.strm_state := ZlibPrivate.strm_state (ZlibPrivate.strm q) |} q)
    (ZlibPrivate.set_strm {| ZlibPrivate.next_in := d2; ZlibPrivate.avail_in := n;
        ZlibPrivate.avail_out := ZlibPrivate.avail_out (ZlibPrivate.strm q);
        ZlibPrivate.strm_state := ZlibPrivate.strm_state (ZlibPrivate.strm q) |} q).
Proof. intros E; open_zlib q; split; [reflexivity | exact E]. Qed.

Lemma same_input_device (q1 q2 : Q) :
  same_input q1 q2 ->
  device (d_ptr q1) = device (d_ptr q2) /\ state (d_ptr q1) = state (d_ptr q2).
Proof.
  intros [Hf _]; open_zlib q1; open_zlib q2; cbn in Hf.
  injection Hf; intros; subst; auto.
Qed.

Lemma same_input_set_device (q1 q2 : Q) (dev : Dev) :
  same_input q1 q2 -> same_input (set_device dev q1) (set_device dev q2).
Proof.
  intros [Hf Ht]; open_zlib q1; open_zlib q2; cbn in *.
  injection Hf; intros; subst; split; [reflexivity | assumption].
Qed.

Lemma same_input_set_state (q1 q2 : Q) (s : State) :
  same_input q1 q2 -> same_input (set_state s q1) (set_state s q2).
Proof.
  intros [Hf Ht]; open_zlib q1; open_zlib q2; cbn in *.
  injection Hf; intros; subst; split; [reflexivity | assumption].
Qed.

Lemma same_input_setErrorString (q1 q2 : Q) (msg : string) :
  same_input q1 q2 -> same_input (setErrorString msg q1) (setErrorString msg q2).
Proof.
  intros [Hf Ht]; open_zlib q1; open_zlib q2; cbn in *.
  injection Hf; intros; subst; split; [reflexivity | assumption].
Qed.

Lemma same_input_setZlibError (q1 q2 : Q) (msg : string) (code : Z) :
  same_input q1 q2 ->
  same_input (ZlibPrivate.setZlibError msg code q1) (ZlibPrivate.setZlibError msg code q2).
Proof.
  intros H; unfold ZlibPrivate.setZlibError.
  destruct (zError code); apply same_input_setErrorString; exact H.
Qed.

Lemma take_after_skip (a : Z) (c : nat) (v1 v2 : list byte) :
  take a v1 = take a v2 ->
  take (a - Z.of_nat c) (skipn c v1) = take (a - Z.of_nat c) (skipn c v2).
Proof.
  unfold take; intros E.
  rewrite Z2Nat.inj_sub, Nat2Z.id by lia.
  rewrite <- !skipn_firstn_comm, E; reflexivity.
Qed.

Lemma zlib_deflate_call_sim (flushMode : Z) (q1 q2 : Q) :
  same_input q1 q2 ->
  fst (ZlibPrivate.deflate_call flushMode q1) = fst (ZlibPrivate.deflate_call flushMode q2)
  /\ same_input (snd (ZlibPrivate.deflate_call flushMode q1))
                (snd (ZlibPrivate.deflate_call flushMode q2)).
Proof.
  intros [Hf Ht]; open_zlib q1; open_zlib q2; cbn in *.
  injection Hf; intros; subst.
  unfold ZlibPrivate.deflate_call; cbn; rewrite Ht.
  destruct (deflate _ _ _ _) as [r st']; cbn.
  split; [reflexivity |]. split; [reflexivity |]. cbn.
  apply take_after_skip; exact Ht.
Qed.

Lemma zlib_writeBytes_sim (fuel : nat) : forall (mem : list byte) (n : Z) (q1 q2 : Q),
  same_input q1 q2 ->
  run_rel (fun r1 r2 => fst r1 = fst r2 /\ same_input (snd r1) (snd r2))
          (writeBytes fuel mem n q1) (writeBytes fuel mem n q2).
Proof.
  induction fuel as [| fuel IH]; intros mem n q1 q2 H; simpl; [exact I |].
  destruct (same_input_device _ _ H) as [<- _].
  destruct (dev_write mem n (device (d_ptr q1))) as [w dev'].
  pose proof (same_input_set_device _ _ dev' H) as Hd.
  destruct (w =? -1).
  - split; [reflexivity |]. apply same_input_setErrorString; exact Hd.
  - destruct (n - w >? 0); [apply IH; exact Hd |].
    split; [reflexivity |]. apply same_input_set_state; exact Hd.
Qed.

Lemma zlib_writeLoop_sim (fuel : nat) : forall (maxSize : Z) (q1 q2 : Q),
  same_input q1 q2 ->
  run_rel (fun r1 r2 => fst r1 = fst r2 /\ same_input (snd r1) (snd r2))
          (ZlibPrivate.writeLoop fuel maxSize q1) (ZlibPrivate.writeLoop fuel maxSize q2).
Proof.
  induction fuel as [| fuel IH]; intros maxSize q1 q2 H; simpl; [exact I |].
  destruct (zlib_deflate_call_sim Z_NO_FLUSH q1 q2 H) as [Hs Hq].
  destruct (ZlibPrivate.deflate_call Z_NO_FLUSH q1) as [st p1].
  destruct (ZlibPrivate.deflate_call Z_NO_FLUSH q2) as [st2 p2].
  simpl in Hs, Hq; subst st2.
  destruct (negb _).
  - split; [reflexivity |].
    apply same_input_setZlibError, same_input_set_state; exact Hq.
  - assert (Eb : buffer (d_ptr p1) = buffer (d_ptr p2)
                 /\ bufferSize (d_ptr p1) = bufferSize (d_ptr p2)
                 /\ ZlibPrivate.avail_out (ZlibPrivate.strm p1)
                    = ZlibPrivate.avail_out (ZlibPrivate.strm p2)).
    { destruct Hq as [Hf _]; open_zlib p1; open_zlib p2; cbn in *.
      injection Hf; intros; subst; auto. }
    destruct Eb as (-> & -> & ->).
    pose proof (zlib_writeBytes_sim fuel (buffer (d_ptr p2))
      (to_uInt (bufferSize (d_ptr p2) - ZlibPrivate.avail_out (ZlibPrivate.strm p2)))
      p1 p2 Hq) as Hw.
    destruct (writeBytes fuel _ _ p1) as [[ok1 r1] | |];
      destruct (writeBytes fuel _ _ p2) as [[ok2 r2] | |]; simpl in Hw; try contradiction;
      try exact I.
    destruct Hw as [<- Hr].
    destruct ok1; [| split; [reflexivity | exact Hr]].
    assert (Eo : ZlibPrivate.avail_out (ZlibPrivate.strm r1)
                 = ZlibPrivate.avail_out (ZlibPrivate.strm r2)).
    { destruct Hr as [Hf _]; open_zlib r1; open_zlib r2; cbn in *.
      injection Hf; intros; subst; auto. }
    rewrite Eo.
    destruct (_ =? 0); [apply IH; exact Hr | split; [reflexivity | exact Hr]].
Qed.

(** writeData gives zlib the first [maxSize mod 2^32] bytes of the data:
    two calls whose data agree on these bytes return the same value and
    leave the same device. *)
Lemma zlib_writeData_sees_uInt (fuel : nat) (maxSize : Z) (d1 d2 : list byte) (q : Q) :
  take (to_uInt maxSize) d1 = take (to_uInt maxSize) d2 ->
  written (writeData fuel d1 maxSize q) = written (writeData fuel d2 maxSize q).
Proof.
  intros E; unfold writeData.
  destruct (maxSize <? 1); [reflexivity |].
  destruct (State_eqb _ _); [reflexivity |].
  cbn; unfold ZlibPrivate.writeData.
  pose proof (zlib_writeLoop_sim fuel maxSize _ _
                (same_input_refl_on q d1 d2 (to_uInt maxSize) E)) as H.
  destruct (ZlibPrivate.writeLoop fuel maxSize _) as [[n1 r1] | |];
    destruct (ZlibPrivate.writeLoop fuel maxSize _) as [[n2 r2] | |];
    simpl in H; try contradiction; try reflexivity.
  destruct H as [<- Hr]; simpl.
  destruct (same_input_device _ _ Hr) as [-> _]; reflexivity.
Qed.

End ZlibFacts.

(** ** The zstd backend *)

Section ZstdFacts.
Context {Dev : Type} {dev_ops : QIODevice Dev} {zstd : ZstdApi} {build : BuildConfig}.

Local Abbreviation Q := (QtIOCompressor Dev ZstdPrivate.Members).

Lemma zstd_setZstdError_frame (msg : string) (code : Z) (q : Q) :
  d_ptr (ZstdPrivate.setZstdError msg code q) = d_ptr q
  /\ openMode (ZstdPrivate.setZstdError msg code q) = openMode q.
Proof.
  unfold ZstdPrivate.setZstdError.
  destruct WITH_XC_ZSTD; [destruct (ZSTD_getErrorName code) |]; auto.
Qed.

Lemma zstd_initialize_frame (read : bool) (q : Q) :
  openMode (snd (ZstdPrivate.initialize read q)) = openMode q
  /\ manageDevice (d_ptr (snd (ZstdPrivate.initialize read q))) = manageDevice (d_ptr q)
  /\ device (d_ptr (snd (ZstdPrivate.initialize read q))) = device (d_ptr q).
Proof.
  unfold ZstdPrivate.initialize.
  destruct WITH_XC_ZSTD; [| auto].
  destruct read.
  - destruct ZSTD_createDStream as [ds |]; [| auto].
    destruct (ZSTD_initDStream ds) as [st ds'].
    destruct (ZSTD_isError st); [| auto].
    cbn. destruct (zstd_setZstdError_frame "Internal zstd error: " st
                     (ZstdPrivate.set_zstdDStream (Some ds') q)) as [-> ->]; auto.
  - destruct ZSTD_createCStream as [cs |]; [| auto].
    destruct (ZSTD_initCStream cs _) as [st cs'].
    destruct (ZSTD_isError st); [| auto].
    cbn. destruct (zstd_setZstdError_frame "Internal zstd error: " st
                     (ZstdPrivate.set_zstdCStream (Some cs') q)) as [-> ->]; auto.
Qed.

(** *** Without zstd in the build *)

Lemma zstd_stub_initialize (read : bool) (q : Q) :
  WITH_XC_ZSTD = false ->
  ZstdPrivate.initialize read q
  = (false, setErrorString "this build doesn't ship zstd support" q).
Proof. intros E; unfold ZstdPrivate.initialize; rewrite E; reflexivity. Qed.

Lemma zstd_stub_readData (fuel : nat) (maxSize : Z) (q : Q) :
  WITH_XC_ZSTD = false -> ZstdPrivate.readData fuel maxSize q = Returns (-1, [], q).
Proof. intros E; unfold ZstdPrivate.readData; rewrite E; reflexivity. Qed.

Lemma zstd_stub_writeData (fuel : nat) (data : list byte) (maxSize : Z) (q : Q) :
  WITH_XC_ZSTD = false -> ZstdPrivate.writeData fuel data maxSize q = Returns (-1, q).
Proof. intros E; unfold ZstdPrivate.writeData; rewrite E; reflexivity. Qed.

Lemma zstd_stub_finalize (fuel : nat) (read : bool) (q : Q) :
  WITH_XC_ZSTD = false -> ZstdPrivate.finalize fuel read q = Returns q.
Proof. intros E; unfold ZstdPrivate.finalize; rewrite E; reflexivity. Qed.

(** *** What the calls leave of the base class *)

Lemma zstd_fill_base (data : list byte) (q : Q) :
  match ZstdPrivate.fill data q with
  | inl (_, _, q') => base q' = base q
  | inr q' => base q' = base q
  end.
Proof.
  unfold ZstdPrivate.fill.
  destruct (_ >=? _); [| reflexivity].
  destruct (dev_read _ _) as [[bs |] dev']; [| reflexivity].
  cbn.
  repeat match goal with
         | |- context [if ?c then _ else _] => destruct c
         end; reflexivity.
Qed.

Lemma zstd_decompress_call_base (outSize : Z) (data : list byte) (q : Q) st d q' :
  ZstdPrivate.decompress_call outSize data q = Returns (st, d, q') ->
  base q' = base q /\ state (d_ptr q') = state (d_ptr q).
Proof.
  unfold ZstdPrivate.decompress_call.
  destruct (ZstdPrivate.zstdDStream _) as [ds |]; [| discriminate].
  destruct (ZstdPrivate.window q) as [input |]; [| discriminate].
  destruct (ZSTD_decompressStream _ _ _) as [r ds'].
  intros [= _ _ <-]; split; reflexivity.
Qed.

Lemma zstd_ungetLoop_base (fuel : nat) : forall (q q' : Q),
  ZstdPrivate.ungetLoop fuel q = Returns q' -> base q' = base q.
Proof.
  induction fuel as [| fuel IH]; intros q q'; simpl.
  - destruct (_ <? _); [discriminate | intros [= <-]; reflexivity].
  - destruct (_ <? _); [| intros [= <-]; reflexivity].
    destruct (ZstdPrivate.src _); [discriminate |].
    destruct (nth_error _ _); [| discriminate].
    intros E; apply IH in E; exact E.
Qed.

Lemma zstd_readEnd_base (st : Z) (data : list byte) (q : Q) n d q' :
  ZstdPrivate.readEnd st data q = Returns (n, d, q') -> base q' = base q.
Proof.
  unfold ZstdPrivate.readEnd.
  destruct (st =? 0); [| intros [= _ _ <-]; reflexivity].
  destruct (ZstdPrivate.ungetLoop _ _) as [q2 | |] eqn:E; simpl; try discriminate.
  apply zstd_ungetLoop_base in E. intros [= _ _ <-]; exact E.
Qed.

Lemma zstd_readLoop_base (fuel : nat) : forall outSize data (q : Q) n d q',
  ZstdPrivate.readLoop fuel outSize data q = Returns (n, d, q') -> base q' = base q.
Proof.
  induction fuel as [| fuel IH]; intros outSize data q n d q'; simpl; [discriminate |].
  pose proof (zstd_fill_base data q) as Hf.
  destruct (ZstdPrivate.fill data q) as [[[n0 d0] q0] | q1].
  - intros [= _ _ <-]; exact Hf.
  - destruct (ZstdPrivate.decompress_call outSize data q1) as [[[st data'] q2] | |] eqn:Ed;
      try discriminate.
    apply zstd_decompress_call_base in Ed; destruct Ed as [Ed _].
    destruct (st =? 0).
    + intros E; apply zstd_readEnd_base in E; congruence.
    + destruct (ZSTD_isError st).
      * intros [= _ _ <-].
        unfold base. destruct (zstd_setZstdError_frame
          "Internal zstd error when decompressing: " st q2) as [-> ->].
        unfold base in *; congruence.
      * destruct (_ && _).
        -- intros E; apply IH in E; congruence.
        -- intros E; apply zstd_readEnd_base in E; congruence.
Qed.

Lemma zstd_compress_call_base (flushMode : ZSTD_EndDirective) (input : list byte) (q : Q)
    r q' :
  ZstdPrivate.compress_call flushMode input q = Returns (r, q') -> base q' = base q.
Proof.
  unfold ZstdPrivate.compress_call.
  destruct (ZstdPrivate.zstdCStream _) as [cs |]; [| discriminate].
  destruct (ZSTD_compressStream2 _ _ _ _) as [r0 cs'].
  intros [= _ <-]; reflexivity.
Qed.

Lemma zstd_writeLoop_base (fuel : nat) : forall data inSize inPos maxSize (q : Q) n q',
  ZstdPrivate.writeLoop fuel data inSize inPos maxSize q = Returns (n, q') ->
  base q' = base q.
Proof.
  induction fuel as [| fuel IH]; intros data inSize inPos maxSize q n q'; simpl;
    [discriminate |].
  destruct (ZstdPrivate.compress_call _ _ q) as [[r q1] | |] eqn:Ec; try discriminate.
  apply zstd_compress_call_base in Ec.
  destruct (ZSTD_isError _).
  - intros [= _ <-].
    unfold base. destruct (zstd_setZstdError_frame
      "Internal zstd error when compressing: " (status r) (set_state Error q1)) as [-> ->].
    cbn. unfold base in *; congruence.
  - destruct (writeBytes fuel _ _ q1) as [[[|] q2] | |] eqn:Ew; try discriminate;
      apply writeBytes_base in Ew.
    + destruct (_ <? _).
      * intros E; apply IH in E; congruence.
      * intros [= _ <-]. transitivity (base q2); [reflexivity | congruence].
    + intros [= _ <-]; congruence.
Qed.

Lemma zstd_flushLoop_base (fuel : nat) : forall flushMode (q q' : Q),
  ZstdPrivate.flushLoop fuel flushMode q = Returns q' -> base q' = base q.
Proof.
  induction fuel as [| fuel IH]; intros flushMode q q'; simpl; [discriminate |].
  destruct (ZstdPrivate.compress_call _ _ q) as [[r q1] | |] eqn:Ec; try discriminate.
  apply zstd_compress_call_base in Ec.
  destruct (ZSTD_isError _).
  - intros [= <-].
    unfold base. destruct (zstd_setZstdError_frame
      "Internal zstd error when compressing: " (status r) (set_state Error q1)) as [-> ->].
    cbn. unfold base in *; congruence.
  - destruct (writeBytes fuel _ _ q1) as [[[|] q2] | |] eqn:Ew; try discriminate;
      apply writeBytes_base in Ew.
    + destruct (negb _).
      * intros E; apply IH in E; congruence.
      * intros [= <-]; congruence.
    + intros [= <-]; congruence.
Qed.

Lemma zstd_finalize_base (fuel : nat) (read : bool) (q q' : Q) :
  ZstdPrivate.finalize fuel read q = Returns q' -> base q' = base q.
Proof.
  unfold ZstdPrivate.finalize, ZstdPrivate.flushZstd.
  destruct WITH_XC_ZSTD; [| intros [= <-]; reflexivity].
  destruct read; [intros [= <-]; reflexivity |].
  destruct (State_eqb _ _).
  - destruct (ZstdPrivate.flushLoop _ _ _) as [q1 | |] eqn:E; simpl; try discriminate.
    apply zstd_flushLoop_base in E. intros [= <-].
    transitivity (base q1); [reflexivity | exact E].
  - intros [= <-]; reflexivity.
Qed.

(** Every way out of the write loop gives -1 or [maxSize]. *)
Lemma zstd_writeLoop_result (fuel : nat) : forall data inSize inPos maxSize (q : Q) n q',
  ZstdPrivate.writeLoop fuel data inSize inPos maxSize q = Returns (n, q') ->
  n = -1 \/ n = maxSize.
Proof.
  induction fuel as [| fuel IH]; intros data inSize inPos maxSize q n q'; simpl;
    [discriminate |].
  destruct (ZstdPrivate.compress_call _ _ q) as [[r q1] | |]; try discriminate.
  destruct (ZSTD_isError _); [intros [= <- _]; auto |].
  destruct (writeBytes fuel _ _ q1) as [[[|] q2] | |]; try discriminate.
  - destruct (_ <? _); [apply IH | intros [= <- _]; auto].
  - intros [= <- _]; auto.
Qed.

(** *** Fuel *)

Lemma zstd_readLoop_more_fuel (fuel : nat) : forall outSize data (q : Q),
  ZstdPrivate.readLoop fuel outSize data q <> OutOfFuel ->
  ZstdPrivate.readLoop (S fuel) outSize data q = ZstdPrivate.readLoop fuel outSize data q.
Proof.
  induction fuel as [| fuel IH]; intros outSize data q Hr; [exfalso; apply Hr; reflexivity |].
  revert Hr. cbn [ZstdPrivate.readLoop].
  destruct (ZstdPrivate.fill data q) as [early | q1]; [reflexivity |].
  destruct (ZstdPrivate.decompress_call outSize data q1) as [[[st data'] q2] | |];
    try reflexivity.
  destruct (st =? 0); [reflexivity |].
  destruct (ZSTD_isError st); [reflexivity |].
  destruct (_ && _); [| reflexivity].
  intros Hr. apply IH in Hr. exact Hr.
Qed.

Lemma zstd_writeLoop_more_fuel (fuel : nat) : forall data inSize inPos maxSize (q : Q),
  ZstdPrivate.writeLoop fuel data inSize inPos maxSize q <> OutOfFuel ->
  ZstdPrivate.writeLoop (S fuel) data inSize inPos maxSize q
  = ZstdPrivate.writeLoop fuel data inSize inPos maxSize q.
Proof.
  induction fuel as [| fuel IH]; intros data inSize inPos maxSize q Hr;
    [exfalso; apply Hr; reflexivity |].
  revert Hr. cbn [ZstdPrivate.writeLoop].
  destruct (ZstdPrivate.compress_call _ _ q) as [[r q1] | |]; try reflexivity.
  destruct (ZSTD_isError _); [reflexivity |].
  destruct (writeBytes fuel _ _ q1) as [[[|] q2] | |] eqn:Ew;
    try (intros Hr; exfalso; apply Hr; reflexivity);
    (rewrite writeBytes_more_fuel by (rewrite Ew; discriminate)); rewrite Ew;
    try reflexivity.
  destruct (_ <? _); [| reflexivity].
  intros Hr. apply IH in Hr. exact Hr.
Qed.

Lemma zstd_flushLoop_more_fuel (fuel : nat) : forall flushMode (q : Q),
  ZstdPrivate.flushLoop fuel flushMode q <> OutOfFuel ->
  ZstdPrivate.flushLoop (S fuel) flushMode q = ZstdPrivate.flushLoop fuel flushMode q.
Proof.
  induction fuel as [| fuel IH]; intros flushMode q Hr; [exfalso; apply Hr; reflexivity |].
  revert Hr. cbn [ZstdPrivate.flushLoop].
  destruct (ZstdPrivate.compress_call _ _ q) as [[r q1] | |]; try reflexivity.
  destruct (ZSTD_isError _); [reflexivity |].
  destruct (writeBytes fuel _ _ q1) as [[[|] q2] | |] eqn:Ew;
    try (intros Hr; exfalso; apply Hr; reflexivity);
    (rewrite writeBytes_more_fuel by (rewrite Ew; discriminate)); rewrite Ew;
    try reflexivity.
  destruct (negb _); [| reflexivity].
  intros Hr. apply IH in Hr. exact Hr.
Qed.

(** The write loop returns when the stream has been created: every turn
    that goes round again has taken input or emptied some of what the
    stream held. *)
Lemma zstd_writeLoop_ends (Hdev : device_makes_progress)
    (pending : ZSTD_CStream -> nat)
    (Hzstd : forall (cs : ZSTD_CStream) (input : list byte) (room : Z),
        0 < room ->
        len (produced (fst (ZSTD_compressStream2 cs input room ZSTD_e_continue))) <= room
        /\ (consumed (fst (ZSTD_compressStream2 cs input room ZSTD_e_continue))
            <= List.length input)%nat
        /\ ((consumed (fst (ZSTD_compressStream2 cs input room ZSTD_e_continue))
             < List.length input)%nat ->
            (pending (snd (ZSTD_compressStream2 cs input room ZSTD_e_continue))
             + (List.length input
                - consumed (fst (ZSTD_compressStream2 cs input room ZSTD_e_continue)))
             < pending cs + List.length input)%nat))
    (k : nat) : forall (fuel : nat) (data : list byte) (inSize inPos maxSize : Z) (q : Q)
                       (cs : ZSTD_CStream),
  0 < bufferSize (d_ptr q) < 2 ^ 31 ->
  ZstdPrivate.zstdCStream (derived (d_ptr q)) = Some cs ->
  0 <= inPos -> inSize <= len data ->
  (pending cs + Z.to_nat (inSize - inPos) <= k)%nat ->
  (k + Z.to_nat (bufferSize (d_ptr q)) + 2 <= fuel)%nat ->
  exists r q', ZstdPrivate.writeLoop fuel data inSize inPos maxSize q = Returns (r, q').
Proof.
  induction k as [| k IH]; intros fuel data inSize inPos maxSize q cs Hb Hcs Hpos Hsize Hk Hf;
    (destruct fuel as [| fuel]; [lia |]); cbn [ZstdPrivate.writeLoop];
    unfold ZstdPrivate.compress_call; rewrite Hcs;
    (assert (Er : to_size_t (bufferSize (d_ptr q)) = bufferSize (d_ptr q))
      by (unfold to_size_t; apply Z.mod_small; lia)); rewrite Er;
    pose proof (Hzstd cs (take (inSize - inPos) (advance inPos data))
                  (bufferSize (d_ptr q)) (proj1 Hb)) as (Hp & Hc & Hless);
    destruct (ZSTD_compressStream2 _ _ _ _) as [r cs']; simpl in Hp, Hc, Hless; cbn;
    (destruct (ZSTD_isError (status r)); [eauto |]);
    match goal with
    | |- context [writeBytes fuel ?mem ?n ?q1] =>
      destruct (writeBytes_returns Hdev fuel mem n q1) as (ok & q2 & Ew);
        [unfold len in *; lia |];
        pose proof (writeBytes_derived fuel mem n q1 q2 ok Ew) as (Hd & _ & Hbs);
        rewrite Ew
    end;
    (destruct ok; [| eauto]);
    (destruct (inPos + Z.of_nat (consumed r) <? inSize) eqn:E0; [| eauto]);
    apply Z.ltb_lt in E0;
    (assert (Hin : List.length (take (inSize - inPos) (advance inPos data))
                   = Z.to_nat (inSize - inPos))
      by (unfold take, advance, len in *;
          rewrite length_firstn, length_skipn; lia));
    rewrite Hin in Hless, Hc;
    (assert (Hlt : (consumed r < Z.to_nat (inSize - inPos))%nat) by lia);
    specialize (Hless Hlt).
  - exfalso. lia.
  - apply (IH fuel data inSize (inPos + Z.of_nat (consumed r)) maxSize q2 cs'); try lia.
    + rewrite Hbs; cbn; exact Hb.
    + rewrite Hd; reflexivity.
    + rewrite Hbs; cbn. lia.
Qed.

(** *** A decoding error in readData *)

(** One turn of the loop in which ZSTD_decompressStream answers with an
    error code: readData returns -1 and the state is the one it was in
    before the call of the codec. *)
Lemma zstd_error_keeps_state (fuel : nat) (outSize : Z) (data : list byte) (q q1 q2 : Q)
    (st : Z) (data' : list byte) :
  ZstdPrivate.fill data q = inr q1 ->
  ZstdPrivate.decompress_call outSize data q1 = Returns (st, data', q2) ->
  st <> 0 -> ZSTD_isError st = true ->
  exists q', ZstdPrivate.readLoop (S fuel) outSize data q = Returns (-1, data', q')
             /\ state (d_ptr q') = state (d_ptr q1).
Proof.
  intros Ef Ed Hst He; simpl; rewrite Ef, Ed.
  apply Z.eqb_neq in Hst; rewrite Hst, He.
  eexists; split; [reflexivity |].
  destruct (zstd_setZstdError_frame
    "Internal zstd error when decompressing: " st q2) as [-> _].
  apply zstd_decompress_call_base in Ed; apply Ed.
Qed.

(** *** Running out of input in the middle of a stream *)

(** In the state InStream with an empty input area, over a device that has
    no bytes and keeps having none, and with a codec that on no input
    produces nothing and answers that it wants more (neither 0 nor an error
    code): the loop of readData asks the device and the codec again and
    again, and no amount of fuel makes it return. *)
Lemma zstd_readLoop_spins (outSize : Z) (data : list byte) :
  (forall ds room,
      status (fst (ZSTD_decompressStream ds [] room)) <> 0
      /\ ZSTD_isError (status (fst (ZSTD_decompressStream ds [] room))) = false
      /\ produced (fst (ZSTD_decompressStream ds [] room)) = []) ->
  len data < outSize ->
  forall (fuel : nat) (q : Q),
    state (d_ptr q) = InStream ->
    ZstdPrivate.size (ZstdPrivate.inbuf q) <= ZstdPrivate.pos (ZstdPrivate.inbuf q) ->
    ZstdPrivate.src (ZstdPrivate.inbuf q) = ZstdPrivate.to_buffer ->
    ZstdPrivate.zstdDStream (derived (d_ptr q)) <> None ->
    (forall n, dev_read n (device (d_ptr q)) = (Some [], device (d_ptr q))) ->
    ZstdPrivate.readLoop fuel outSize data q = OutOfFuel.
Proof.
  intros Hcodec Hroom.
  induction fuel as [| fuel IH]; intros q Hst Hpos Hsrc Hds Hdev; [reflexivity |].
  unfold ZstdPrivate.inbuf in *.
  simpl. unfold ZstdPrivate.fill, ZstdPrivate.inbuf.
  assert (E : (ZstdPrivate.pos (ZstdPrivate.zstdInBuffer (derived (d_ptr q)))
               >=? ZstdPrivate.size (ZstdPrivate.zstdInBuffer (derived (d_ptr q)))) = true)
    by (rewrite Z.geb_leb; apply Z.leb_le; exact Hpos).
  rewrite E, Hdev. cbn. rewrite Hst. cbn.
  unfold ZstdPrivate.decompress_call, ZstdPrivate.window. cbn.
  rewrite Hsrc.
  destruct (ZstdPrivate.zstdDStream (derived (d_ptr q))) as [ds |]; [| congruence].
  cbn.
  destruct (Hcodec ds (outSize - len data)) as (H0 & He & Hp).
  destruct (ZSTD_decompressStream ds [] (outSize - len data)) as [r ds']; simpl in *.
  apply Z.eqb_neq in H0. rewrite H0, He, Hp, app_nil_r.
  assert (El : (len data <? outSize) = true) by (apply Z.ltb_lt; exact Hroom).
  rewrite El. cbn.
  apply IH; unfold ZstdPrivate.inbuf; cbn;
    try assumption; try reflexivity; try discriminate; try lia.
Qed.

(** The same with a codec that may also answer with an error code: the
    only way out of the loop is that error, with -1 and the state still
    InStream; 0 is never returned. *)
Lemma zstd_readLoop_without_input (outSize : Z) (data : list byte) :
  (forall ds room,
      status (fst (ZSTD_decompressStream ds [] room)) <> 0
      /\ produced (fst (ZSTD_decompressStream ds [] room)) = []) ->
  len data < outSize ->
  forall (fuel : nat) (q : Q) n d q',
    state (d_ptr q) = InStream ->
    ZstdPrivate.size (ZstdPrivate.inbuf q) <= ZstdPrivate.pos (ZstdPrivate.inbuf q) ->
    ZstdPrivate.src (ZstdPrivate.inbuf q) = ZstdPrivate.to_buffer ->
    (forall m, dev_read m (device (d_ptr q)) = (Some [], device (d_ptr q))) ->
    ZstdPrivate.readLoop fuel outSize data q = Returns (n, d, q') ->
    n = -1 /\ state (d_ptr q') = InStream.
Proof.
  intros Hcodec Hroom.
  induction fuel as [| fuel IH]; intros q n d q' Hst Hpos Hsrc Hdev; [discriminate |].
  unfold ZstdPrivate.inbuf in *.
  simpl. unfold ZstdPrivate.fill, ZstdPrivate.inbuf.
  assert (E : (ZstdPrivate.pos (ZstdPrivate.zstdInBuffer (derived (d_ptr q)))
               >=? ZstdPrivate.size (ZstdPrivate.zstdInBuffer (derived (d_ptr q)))) = true)
    by (rewrite Z.geb_leb; apply Z.leb_le; exact Hpos).
  rewrite E, Hdev. cbn. rewrite Hst. cbn.
  unfold ZstdPrivate.decompress_call, ZstdPrivate.window. cbn.
  rewrite Hsrc.
  destruct (ZstdPrivate.zstdDStream (derived (d_ptr q))) as [ds |]; [| discriminate].
  cbn.
  destruct (Hcodec ds (outSize - len data)) as (H0 & Hp).
  destruct (ZSTD_decompressStream ds [] (outSize - len data)) as [r ds']; simpl in *.
  apply Z.eqb_neq in H0. rewrite H0, Hp, app_nil_r.
  destruct (ZSTD_isError (status r)).
  - intros [= <- _ <-]. split; [reflexivity |].
    match goal with
    | |- state (d_ptr (ZstdPrivate.setZstdError ?m ?c ?x)) = _ =>
      destruct (zstd_setZstdError_frame m c x) as [-> _]
    end.
    exact Hst.
  - assert (El : (len data <? outSize) = true) by (apply Z.ltb_lt; exact Hroom).
    rewrite El. cbn.
    apply IH; unfold ZstdPrivate.inbuf; cbn;
      try assumption; try reflexivity; try discriminate; try lia.
Qed.

(** *** The unget loop of readData *)

(** With [n] unconsumed bytes [src[pos .. size)] inside the buffer, the loop
    calls ungetChar [n] times, on [src[size - 1]] first and on [src[pos]]
    last, and touches nothing else but [size]. *)
Lemma zstd_ungetLoop_spec : forall (n : nat) (q : Q),
  ZstdPrivate.src (ZstdPrivate.inbuf q) = ZstdPrivate.to_buffer ->
  0 <= ZstdPrivate.pos (ZstdPrivate.inbuf q) ->
  ZstdPrivate.size (ZstdPrivate.inbuf q)
  = ZstdPrivate.pos (ZstdPrivate.inbuf q) + Z.of_nat n ->
  ZstdPrivate.size (ZstdPrivate.inbuf q) <= len (buffer (d_ptr q)) ->
  exists q',
    ZstdPrivate.ungetLoop n q = Returns q'
    /\ device (d_ptr q')
       = unget_all (rev (firstn n
                             (advance (ZstdPrivate.pos (ZstdPrivate.inbuf q))
                                      (buffer (d_ptr q)))))
                   (device (d_ptr q))
    /\ ZstdPrivate.size (ZstdPrivate.inbuf q') = ZstdPrivate.pos (ZstdPrivate.inbuf q)
    /\ ZstdPrivate.pos (ZstdPrivate.inbuf q') = ZstdPrivate.pos (ZstdPrivate.inbuf q)
    /\ state (d_ptr q') = state (d_ptr q)
    /\ buffer (d_ptr q') = buffer (d_ptr q).
Proof.
  induction n as [| m IH]; intros q Hsrc Hpos Hsize Hlen.
  - exists q. simpl.
    assert (E : (ZstdPrivate.pos (ZstdPrivate.inbuf q)
                 <? ZstdPrivate.size (ZstdPrivate.inbuf q)) = false)
      by (apply Z.ltb_ge; lia).
    rewrite E. repeat split; try reflexivity. lia.
  - simpl ZstdPrivate.ungetLoop.
    assert (E : (ZstdPrivate.pos (ZstdPrivate.inbuf q)
                 <? ZstdPrivate.size (ZstdPrivate.inbuf q)) = true)
      by (apply Z.ltb_lt; lia).
    rewrite E, Hsrc.
    set (size' := ZstdPrivate.size (ZstdPrivate.inbuf q) - 1).
    destruct (nth_error (buffer (d_ptr q)) (Z.to_nat size')) as [c |] eqn:Ec;
      [| apply nth_error_None in Ec; unfold len in Hlen; lia].
    set (q1 := set_device _ _).
    destruct (IH q1) as (q' & Eu & Hd & Hs & Hp & Hst & Hb);
      try (subst q1; cbn; auto; lia).
    exists q'. split; [exact Eu |].
    split; [| repeat split; assumption].
    assert (Ed1 : device (d_ptr q1) = dev_ungetChar c (device (d_ptr q))) by reflexivity.
    assert (Eb1 : buffer (d_ptr q1) = buffer (d_ptr q)) by reflexivity.
    assert (Ep1 : ZstdPrivate.pos (ZstdPrivate.inbuf q1)
                  = ZstdPrivate.pos (ZstdPrivate.inbuf q)) by reflexivity.
    rewrite Hd, Ed1, Eb1, Ep1. clearbody q1.
    unfold advance.
    assert (En : nth_error (skipn (Z.to_nat (ZstdPrivate.pos (ZstdPrivate.inbuf q)))
                              (buffer (d_ptr q))) m = Some c).
    { rewrite nth_error_skipn, <- Ec. f_equal. subst size'. lia. }
    rewrite (firstn_S_nth_error _ m c En), rev_app_distr.
    reflexivity.
Qed.

(** The end of readData at the end of a frame: the state becomes
    EndOfStream and the device gets back exactly the unconsumed bytes. *)
Lemma zstd_readEnd_ungets_the_rest (data : list byte) (q : Q) :
  ZstdPrivate.src (ZstdPrivate.inbuf q) = ZstdPrivate.to_buffer ->
  0 <= ZstdPrivate.pos (ZstdPrivate.inbuf q) <= ZstdPrivate.size (ZstdPrivate.inbuf q) ->
  ZstdPrivate.size (ZstdPrivate.inbuf q) <= len (buffer (d_ptr q)) ->
  exists q',
    ZstdPrivate.readEnd 0 data q = Returns (len data, data, q')
    /\ state (d_ptr q') = EndOfStream
    /\ device (d_ptr q')
       = unget_all (rev (take (ZstdPrivate.size (ZstdPrivate.inbuf q)
                              - ZstdPrivate.pos (ZstdPrivate.inbuf q))
                             (advance (ZstdPrivate.pos (ZstdPrivate.inbuf q))
                                      (buffer (d_ptr q)))))
                   (device (d_ptr q)).
Proof.
  intros Hsrc Hpos Hlen; unfold ZstdPrivate.readEnd.
  rewrite Z.eqb_refl.
  set (q1 := set_state EndOfStream q).
  assert (H1 : ZstdPrivate.src (ZstdPrivate.inbuf q1) = ZstdPrivate.to_buffer)
    by exact Hsrc.
  assert (H2 : 0 <= ZstdPrivate.pos (ZstdPrivate.inbuf q1)) by exact (proj1 Hpos).
  assert (H3 : ZstdPrivate.size (ZstdPrivate.inbuf q1)
               = ZstdPrivate.pos (ZstdPrivate.inbuf q1)
                 + Z.of_nat (Z.to_nat (ZstdPrivate.size (ZstdPrivate.inbuf q1)
                                       - ZstdPrivate.pos (ZstdPrivate.inbuf q1)))).
  { change (ZstdPrivate.inbuf q1) with (ZstdPrivate.inbuf q). lia. }
  assert (H4 : ZstdPrivate.size (ZstdPrivate.inbuf q1) <= len (buffer (d_ptr q1)))
    by exact Hlen.
  destruct (zstd_ungetLoop_spec _ q1 H1 H2 H3 H4) as (q' & Eu & Hd & _ & _ & Hst & _).
  exists q'. rewrite Eu. split; [reflexivity |]. split; [exact Hst |].
  exact Hd.
Qed.

End ZstdFacts.

(** * The claims *)

(** ** Claims about the compressor, whatever lies behind [d_ptr] *)

Section AnyBackend.
Context {Dev D : Type} {dev_ops : QIODevice Dev} {backend : Private.Backend Dev D}.

Local Abbreviation Q := (QtIOCompressor Dev D).

(** C9: a write of less than one byte is a pure no-op.  For every
    [maxSize < 1] (zero and negative values) and every object, writeData
    returns 0 and the object that comes back is the one that went in:
    neither the underlying device nor the state nor anything else has
    changed, and no fuel is needed. *)
Theorem write_of_nothing_is_noop (fuel : nat) (data : list byte) (maxSize : Z) (q : Q) :
  maxSize < 1 -> writeData fuel data maxSize q = Returns (0, q).
Proof.
  intros Hn; unfold writeData.
  destruct (maxSize <? 1) eqn:E; [reflexivity | apply Z.ltb_ge in E; lia].
Qed.


End AnyBackend.

(** ** Claims about the compressor over one of its two backends *)

Section EitherBackend.
Context {Dev : Type} {dev_ops : QIODevice Dev} {zlib : ZlibApi} {zstd : ZstdApi}
        {build : BuildConfig}.

Lemma backend_initialize_frame (Spec : FormatSpec) :
  forall read (q : QtIOCompressor Dev (Members_of Spec)),
    openMode (snd (Private.initialize read q)) = openMode q
    /\ manageDevice (d_ptr (snd (Private.initialize read q))) = manageDevice (d_ptr q)
    /\ device (d_ptr (snd (Private.initialize read q))) = device (d_ptr q).
Proof.
  destruct Spec; intros read q;
    [apply zlib_initialize_frame | apply zstd_initialize_frame].
Qed.

Lemma backend_readData_base (Spec : FormatSpec) :
  forall fuel maxSize (q : QtIOCompressor Dev (Members_of Spec)) n d q',
    readData fuel maxSize q = Returns (n, d, q') -> base q' = base q.
Proof.
  destruct Spec; intros fuel maxSize q n d q'; unfold readData;
    (destruct (State_eqb _ EndOfStream); [intros [= _ _ <-]; reflexivity |]);
    (destruct (State_eqb _ Error); [intros [= _ _ <-]; reflexivity |]); cbn.
  - apply zlib_readData_base.
  - unfold ZstdPrivate.readData.
    destruct WITH_XC_ZSTD; [apply zstd_readLoop_base | intros [= _ _ <-]; reflexivity].
Qed.

Lemma backend_writeData_base (Spec : FormatSpec) :
  forall fuel data maxSize (q : QtIOCompressor Dev (Members_of Spec)) n q',
    writeData fuel data maxSize q = Returns (n, q') -> base q' = base q.
Proof.
  destruct Spec; intros fuel data maxSize q n q'; unfold writeData;
    (destruct (maxSize <? 1); [intros [= _ <-]; reflexivity |]);
    (destruct (State_eqb _ Error); [intros [= _ <-]; reflexivity |]); cbn.
  - unfold ZlibPrivate.writeData. intros E; apply zlib_writeLoop_base in E; exact E.
  - unfold ZstdPrivate.writeData.
    destruct WITH_XC_ZSTD; [apply zstd_writeLoop_base | intros [= _ <-]; reflexivity].
Qed.

Lemma backend_flush_base (Spec : FormatSpec) :
  forall fuel (q q' : QtIOCompressor Dev (Members_of Spec)),
    flush fuel q = Returns q' -> base q' = base q.
Proof.
  destruct Spec; intros fuel q q'; unfold flush;
    (destruct (negb (isOpen q) || _); [intros [= <-]; reflexivity |]); cbn.
  - unfold ZlibPrivate.flush, ZlibPrivate.flushZlib.
    intros E; apply zlib_flushLoop_base in E; exact E.
  - unfold ZstdPrivate.flush, ZstdPrivate.flushZstd.
    destruct WITH_XC_ZSTD; [apply zstd_flushLoop_base | intros [= <-]; reflexivity].
Qed.

Lemma backend_finalize_base (Spec : FormatSpec) :
  forall fuel read (q q' : QtIOCompressor Dev (Members_of Spec)),
    Private.finalize fuel read q = Returns q' -> base q' = base q.
Proof.
  destruct Spec; intros fuel read q q'; cbn;
    [apply zlib_finalize_base | apply zstd_finalize_base].
Qed.

Lemma backend_writeData_result (Spec : FormatSpec) :
  forall fuel data maxSize (q : QtIOCompressor Dev (Members_of Spec)) n q',
    Private.writeData fuel data maxSize q = Returns (n, q') -> n = -1 \/ n = maxSize.
Proof.
  destruct Spec; intros fuel data maxSize q n q'; cbn.
  - unfold ZlibPrivate.writeData; apply zlib_writeLoop_result.
  - unfold ZstdPrivate.writeData.
    destruct WITH_XC_ZSTD; [apply zstd_writeLoop_result | intros [= <- _]; auto].
Qed.

(** What a call of the compressor does when it does not run out of fuel
    does not depend on the fuel. *)
Lemma readData_more_fuel (Spec : FormatSpec) :
  forall fuel maxSize (q : QtIOCompressor Dev (Members_of Spec)),
    readData fuel maxSize q <> OutOfFuel ->
    readData (S fuel) maxSize q = readData fuel maxSize q.
Proof.
  destruct Spec; intros fuel maxSize q; unfold readData;
    (destruct (State_eqb _ EndOfStream); [reflexivity |]);
    (destruct (State_eqb _ Error); [reflexivity |]); cbn.
  - apply zlib_readLoop_more_fuel.
  - unfold ZstdPrivate.readData.
    destruct WITH_XC_ZSTD; [apply zstd_readLoop_more_fuel | reflexivity].
Qed.

Lemma writeData_more_fuel (Spec : FormatSpec) :
  forall fuel data maxSize (q : QtIOCompressor Dev (Members_of Spec)),
    writeData fuel data maxSize q <> OutOfFuel ->
    writeData (S fuel) data maxSize q = writeData fuel data maxSize q.
Proof.
  destruct Spec; intros fuel data maxSize q; unfold writeData;
    (destruct (maxSize <? 1); [reflexivity |]);
    (destruct (State_eqb _ Error); [reflexivity |]); cbn.
  - apply zlib_writeLoop_more_fuel.
  - unfold ZstdPrivate.writeData.
    destruct WITH_XC_ZSTD; [apply zstd_writeLoop_more_fuel | reflexivity].
Qed.

Lemma close_more_fuel (Spec : FormatSpec) :
  forall fuel (q : QtIOCompressor Dev (Members_of Spec)),
    close fuel q <> OutOfFuel -> close (S fuel) q = close fuel q.
Proof.
  destruct Spec; intros fuel q; unfold close;
    (destruct (negb (isOpen q)); [reflexivity |]); cbn.
  - unfold ZlibPrivate.finalize, ZlibPrivate.flushZlib.
    destruct (has_flag _ _); [reflexivity |].
    destruct (State_eqb _ _); [| reflexivity].
    destruct (ZlibPrivate.flushLoop fuel _ _) as [q1 | |] eqn:E;
      try (intros Hr; exfalso; apply Hr; reflexivity);
      (rewrite zlib_flushLoop_more_fuel by (rewrite E; discriminate)); rewrite E;
      reflexivity.
  - unfold ZstdPrivate.finalize, ZstdPrivate.flushZstd.
    destruct WITH_XC_ZSTD; [| reflexivity].
    destruct (has_flag _ _); [reflexivity |].
    destruct (State_eqb _ _); [| reflexivity].
    destruct (ZstdPrivate.flushLoop fuel _ _) as [q1 | |] eqn:E;
      try (intros Hr; exfalso; apply Hr; reflexivity);
      (rewrite zstd_flushLoop_more_fuel by (rewrite E; discriminate)); rewrite E;
      reflexivity.
Qed.

Lemma session_base (Spec : FormatSpec) (fuel : nat) (calls : list io_call) :
  forall (q : QtIOCompressor Dev (Members_of Spec)) rs q',
    session fuel calls q = Returns (rs, q') -> base q' = base q.
Proof.
  induction calls as [| c calls IH]; intros q rs q'; simpl.
  - intros [= _ <-]; reflexivity.
  - destruct (perform fuel c q) as [[n q1] | |] eqn:Ep; simpl; try discriminate.
    destruct (session fuel calls q1) as [[rs1 q2] | |] eqn:Es; simpl; try discriminate.
    intros [= _ <-]. apply IH in Es.
    assert (E1 : base q1 = base q).
    { destruct c as [maxSize | data maxSize |]; simpl in Ep.
      - destruct (readData fuel maxSize q) as [[[n0 d0] q0] | |] eqn:Er; simpl in Ep;
          try discriminate.
        injection Ep as _ <-. exact (backend_readData_base Spec _ _ _ _ _ _ Er).
      - destruct (writeData fuel data maxSize q) as [[n0 q0] | |] eqn:Ew; simpl in Ep;
          try discriminate.
        injection Ep as _ <-. exact (backend_writeData_base Spec _ _ _ _ _ _ Ew).
      - destruct (flush fuel q) as [q0 | |] eqn:Ef; simpl in Ep; try discriminate.
        injection Ep as _ <-. exact (backend_flush_base Spec _ _ _ Ef). }
    congruence.
Qed.

Lemma open_success_openMode {D : Type} {backend : Private.Backend Dev D} (mode : Z)
    (q : QtIOCompressor Dev D) :
  fst (open mode q) = true ->
  openMode (snd (open mode q)) = mode /\ isOpen (snd (open mode q)) = true.
Proof.
  unfold open.
  destruct (isOpen q); [discriminate |].
  destruct (_ || _) eqn:Eb; [discriminate |].
  assert (Hm : (mode =? NotOpen) = false).
  { destruct (mode =? NotOpen) eqn:E0; [| reflexivity].
    apply Z.eqb_eq in E0; subst mode. discriminate Eb. }
  assert (Hob : forall read (q1 : QtIOCompressor Dev D),
            fst (open_backend mode read q1) = true ->
            openMode (snd (open_backend mode read q1)) = mode
            /\ isOpen (snd (open_backend mode read q1)) = true).
  { intros read q1; unfold open_backend.
    destruct (Private.initialize read q1) as [[|] q2]; simpl; [| discriminate].
    intros _; split; [reflexivity |]. unfold isOpen; simpl. rewrite Hm; reflexivity. }
  destruct (dev_isOpen (device (d_ptr q))).
  - destruct (has_flag mode ReadOnly && negb _); [discriminate |].
    destruct (has_flag mode WriteOnly && negb _); [discriminate |]. apply Hob.
  - destruct (dev_open mode _) as [[|] dev']; simpl; [apply Hob | discriminate].
Qed.

(** C7: close is idempotent and closes only a device it opened.  On an
    object that is not open close returns at once with the object
    unchanged, for any fuel.  After a close that returned, the object is
    closed and any further close is that no-op.  And in every session -- an
    open that succeeded, then any reads, writes and flushes, then close -- close
    leaves the underlying device as finalize left it when the device was
    already open at the time of open, and calls the device's close exactly
    when open found the device closed and opened it itself. *)
Theorem close_is_idempotent (Spec : FormatSpec) :
  (forall (fuel : nat) (q : QtIOCompressor Dev (Members_of Spec)),
      isOpen q = false -> close fuel q = Returns q)
  /\ (forall (fuel fuel' : nat) (q q' : QtIOCompressor Dev (Members_of Spec)),
         close fuel q = Returns q' ->
         isOpen q' = false /\ close fuel' q' = Returns q')
  /\ (forall (mode : Z) (fuel : nat) (calls : list io_call)
             (q q1 q2 q3 : QtIOCompressor Dev (Members_of Spec)) (rs : list (option Z)),
         open mode q = (true, q1) ->
         session fuel calls q1 = Returns (rs, q2) ->
         close fuel q2 = Returns q3 ->
         exists qf,
           Private.finalize fuel (has_flag mode ReadOnly) q2 = Returns qf
           /\ device (d_ptr q3)
              = if dev_isOpen (device (d_ptr q)) then device (d_ptr qf)
                else dev_close (device (d_ptr qf))).
Proof.
  split; [| split].
  - intros fuel q; apply close_when_closed.
  - intros fuel fuel' q q' Hc.
    pose proof (close_closes fuel q q' Hc) as Hq.
    split; [exact Hq | apply close_when_closed; exact Hq].
  - intros mode fuel calls q q1 q2 q3 rs Ho Hs Hc.
    assert (Hfst : fst (open mode q) = true) by (rewrite Ho; reflexivity).
    pose proof (open_success_manageDevice (backend_initialize_frame Spec) mode q Hfst) as Hm.
    pose proof (open_success_openMode mode q Hfst) as [Hmode Hopen].
    rewrite Ho in Hm, Hmode, Hopen; simpl in Hm, Hmode, Hopen.
    pose proof (session_base Spec fuel calls q1 rs q2 Hs) as Hb.
    unfold base in Hb; injection Hb as Hb1 Hb2.
    assert (Hopen2 : isOpen q2 = true) by (unfold isOpen in *; rewrite Hb1; exact Hopen).
    destruct (close_device fuel q2 q3 Hopen2 Hc) as (qf & Hf & Hd).
    exists qf. rewrite Hb1, Hmode in Hf. split; [exact Hf |].
    pose proof (backend_finalize_base Spec _ _ _ _ Hf) as Hbf.
    unfold base in Hbf; injection Hbf as _ Hbf.
    rewrite Hd, Hbf, Hb2, Hm.
    destruct (dev_isOpen (device (d_ptr q))); reflexivity.
Qed.


(** writeData returns when given enough fuel, over a device and codecs
    that make progress. *)
Lemma writeData_returns (Spec : FormatSpec) (data : list byte) (maxSize : Z)
    (q : QtIOCompressor Dev (Members_of Spec)) :
  device_makes_progress -> deflate_makes_progress -> compress_makes_progress ->
  0 < bufferSize (d_ptr q) < 2 ^ 31 ->
  write_stream_ready Spec q ->
  maxSize <= len data ->
  exists fuel r q', writeData fuel data maxSize q = Returns (r, q').
Proof.
  intros Hdev [pz Hz] [ps Hs] Hb Hready Hlen. unfold writeData.
  destruct (maxSize <? 1) eqn:E; [exists O; eauto |].
  apply Z.ltb_ge in E.
  destruct (State_eqb _ _); [exists O; eauto |].
  destruct Spec as [level | level]; cbn in *.
  - unfold ZlibPrivate.writeData.
    match goal with
    | |- exists fuel r q', ZlibPrivate.writeLoop fuel _ ?q1 = _ =>
      set (k := (pz (ZlibPrivate.strm_state (ZlibPrivate.strm q1))
                 + List.length (take (ZlibPrivate.avail_in (ZlibPrivate.strm q1))
                                     (ZlibPrivate.next_in (ZlibPrivate.strm q1))))%nat);
        destruct (zlib_writeLoop_ends Hdev pz Hz k
                    (k + Z.to_nat (bufferSize (d_ptr q1)) + 2) maxSize q1)
          as (r & q' & Er)
    end; [exact Hb | subst k; lia | lia |].
    eauto.
  - unfold ZstdPrivate.writeData.
    destruct WITH_XC_ZSTD; [| exists O; eauto].
    destruct (ZstdPrivate.zstdCStream (derived (d_ptr q))) as [cs |] eqn:Ecs;
      [| contradiction].
    assert (Hs64 : to_size_t maxSize <= len data)
      by (unfold to_size_t; pose proof (Z.mod_le maxSize (2 ^ 64)); lia).
    set (k := (ps cs + Z.to_nat (to_size_t maxSize - 0))%nat).
    destruct (zstd_writeLoop_ends Hdev ps Hs k
                (k + Z.to_nat (bufferSize (d_ptr q)) + 2) data (to_size_t maxSize) 0
                maxSize q cs) as (r & q' & Er); try lia; try assumption.
    eauto.
Qed.

(** What a write reports is all or nothing, for every size.  For every
    object and every [maxSize >= 1], a writeData that returns and does not return
    -1 returns exactly [maxSize], whatever the fuel.  And over a device and
    codecs that make progress, with a buffer of positive [int] size, the
    compressing stream created and [maxSize] bytes at [data], writeData does
    return when given enough fuel, and returns -1 or [maxSize]. *)
Theorem write_is_all_or_nothing (Spec : FormatSpec) (data : list byte) (maxSize : Z)
    (q : QtIOCompressor Dev (Members_of Spec)) :
  1 <= maxSize ->
  (forall (fuel : nat) (r : Z) (q' : QtIOCompressor Dev (Members_of Spec)),
      writeData fuel data maxSize q = Returns (r, q') -> r <> -1 -> r = maxSize)
  /\ (device_makes_progress -> deflate_makes_progress -> compress_makes_progress ->
      0 < bufferSize (d_ptr q) < 2 ^ 31 ->
      write_stream_ready Spec q ->
      maxSize <= len data ->
      exists (fuel : nat) (r : Z) (q' : QtIOCompressor Dev (Members_of Spec)),
        writeData fuel data maxSize q = Returns (r, q') /\ (r = -1 \/ r = maxSize)).
Proof.
  intros Hn.
  assert (Hall : forall fuel r q',
             writeData fuel data maxSize q = Returns (r, q') -> r = -1 \/ r = maxSize).
  { intros fuel r q'. unfold writeData.
    destruct (maxSize <? 1) eqn:E; [apply Z.ltb_lt in E; lia |].
    destruct (State_eqb _ _); [intros [= <- _]; auto |].
    apply backend_writeData_result. }
  split.
  - intros fuel r q' Hw Hr. destruct (Hall fuel r q' Hw); congruence.
  - intros Hdev Hz Hs Hb Hready Hlen.
    destruct (writeData_returns Spec data maxSize q Hdev Hz Hs Hb Hready Hlen)
      as (fuel & r & q' & Hw).
    exists fuel, r, q'. split; [exact Hw | exact (Hall fuel r q' Hw)].
Qed.

Lemma zstd_stub_open (mode : Z) (q : QtIOCompressor Dev ZstdPrivate.Members) :
  WITH_XC_ZSTD = false ->
  isOpen q = false ->
  fst (open mode q) = false
  /\ state (d_ptr (snd (open mode q))) = state (d_ptr q)
  /\ isOpen (snd (open mode q)) = false
  /\ (device (d_ptr (snd (open mode q))) = device (d_ptr q)
      \/ (dev_isOpen (device (d_ptr q)) = false
          /\ device (d_ptr (snd (open mode q))) = snd (dev_open mode (device (d_ptr q))))).
Proof.
  intros Hb Hc.
  assert (Hfail : forall read (q1 : QtIOCompressor Dev ZstdPrivate.Members),
            open_backend mode read q1
            = (false, setErrorString "this build doesn't ship zstd support" q1)).
  { intros read q1; unfold open_backend; cbn.
    rewrite (zstd_stub_initialize read q1 Hb); reflexivity. }
  unfold open. rewrite Hc.
  destruct (_ || _); [repeat split; auto |].
  destruct (dev_isOpen (device (d_ptr q))) eqn:Ed.
  - destruct (has_flag mode ReadOnly && negb _); [repeat split; auto |].
    destruct (has_flag mode WriteOnly && negb _); [repeat split; auto |].
    rewrite Hfail. repeat split; auto.
  - destruct (dev_open mode (device (d_ptr (set_manageDevice true q)))) as [[|] dev'] eqn:Eo;
      cbn [negb].
    + rewrite Hfail. repeat split; auto.
      right. split; [reflexivity |].
      change (device (d_ptr (set_manageDevice true q))) with (device (d_ptr q)) in Eo.
      rewrite Eo. reflexivity.
    + repeat split; auto.
      right. split; [reflexivity |].
      change (device (d_ptr (set_manageDevice true q))) with (device (d_ptr q)) in Eo.
      rewrite Eo. reflexivity.
Qed.

(** C6, as amended: the zstd compressor of a build without zstd.  open
    returns false for every mode and every device and leaves the object
    closed.  When the mode selects exactly one of ReadOnly and WriteOnly and
    the device is closed or open in a mode that has this direction, open
    leaves a descriptive error string: that this build does not ship zstd
    support or, if the device could not be opened, the error of the device.
    On a precondition failure (the mode selects both directions or neither,
    or the device is open in a mode without the direction) open records no
    error string and leaves the device alone.  readData and writeData of the
    backend return -1 and leave the object, and with it the device,
    untouched; so do readData of the compressor and its writeData of at
    least one byte.  And no operation crashes or corrupts data: the
    compressor is constructed in the state Error and closed, and on every
    compressor in the state Error that is closed each of open, close, flush,
    readData, writeData and bytesAvailable returns, whatever the fuel,
    leaves the compressor closed and in the state Error, and leaves the
    device as it is -- except that open opens a device it finds closed. *)
Theorem zstd_stub_fails_cleanly (dev : Dev) (level bufSize mode : Z) :
  WITH_XC_ZSTD = false ->
  fst (open mode (QtIOCompressor_Zstd dev level bufSize)) = false
  /\ isOpen (snd (open mode (QtIOCompressor_Zstd dev level bufSize))) = false
  /\ (has_flag mode ReadOnly <> has_flag mode WriteOnly ->
      (dev_isOpen dev = true ->
       has_flag (dev_openMode dev)
                (if has_flag mode ReadOnly then ReadOnly else WriteOnly) = true) ->
      errorString (snd (open mode (QtIOCompressor_Zstd dev level bufSize))) <> ""%string
      /\ (errorString (snd (open mode (QtIOCompressor_Zstd dev level bufSize)))
          = "this build doesn't ship zstd support"%string
          \/ errorString (snd (open mode (QtIOCompressor_Zstd dev level bufSize)))
             = ("Error opening underlying device: "
                  ++ dev_errorString (snd (dev_open mode dev)))%string))
  /\ (forall fuel maxSize (q : QtIOCompressor Dev ZstdPrivate.Members),
         ZstdPrivate.readData fuel maxSize q = Returns (-1, [], q))
  /\ (forall fuel data maxSize (q : QtIOCompressor Dev ZstdPrivate.Members),
         ZstdPrivate.writeData fuel data maxSize q = Returns (-1, q))
  /\ (forall fuel maxSize,
         readData fuel maxSize (snd (open mode (QtIOCompressor_Zstd dev level bufSize)))
         = Returns (-1, [], snd (open mode (QtIOCompressor_Zstd dev level bufSize))))
  /\ (forall fuel data maxSize,
         1 <= maxSize ->
         writeData fuel data maxSize (snd (open mode (QtIOCompressor_Zstd dev level bufSize)))
         = Returns (-1, snd (open mode (QtIOCompressor_Zstd dev level bufSize))))
  /\ (has_flag mode ReadOnly = has_flag mode WriteOnly
      \/ (dev_isOpen dev = true
          /\ has_flag (dev_openMode dev)
                      (if has_flag mode ReadOnly then ReadOnly else WriteOnly) = false) ->
      errorString (snd (open mode (QtIOCompressor_Zstd dev level bufSize))) = ""%string
      /\ device (d_ptr (snd (open mode (QtIOCompressor_Zstd dev level bufSize)))) = dev)
  /\ (state (d_ptr (QtIOCompressor_Zstd dev level bufSize)) = Error
      /\ isOpen (QtIOCompressor_Zstd dev level bufSize) = false)
  /\ (forall q : QtIOCompressor Dev ZstdPrivate.Members,
         state (d_ptr q) = Error ->
         isOpen q = false ->
         (forall mode' : Z,
             fst (open mode' q) = false
             /\ state (d_ptr (snd (open mode' q))) = Error
             /\ isOpen (snd (open mode' q)) = false
             /\ (device (d_ptr (snd (open mode' q))) = device (d_ptr q)
                 \/ (dev_isOpen (device (d_ptr q)) = false
                     /\ device (d_ptr (snd (open mode' q)))
                        = snd (dev_open mode' (device (d_ptr q))))))
         /\ (forall fuel : nat, close fuel q = Returns q)
         /\ (forall fuel : nat, flush fuel q = Returns q)
         /\ (forall (fuel : nat) (maxSize : Z),
                readData fuel maxSize q = Returns (-1, [], q))
         /\ (forall (fuel : nat) (data : list byte) (maxSize : Z),
                writeData fuel data maxSize q
                = Returns (if maxSize <? 1 then 0 else -1, q))
         /\ (forall (device_bytesAvailable : Dev -> Z) (buffered : Z),
                bytesAvailable device_bytesAvailable buffered q = 0)).
Proof.
  intros Hb.
  set (q0 := QtIOCompressor_Zstd dev level bufSize).
  assert (Hfail : forall read (q : QtIOCompressor Dev ZstdPrivate.Members),
            open_backend mode read q
            = (false, setErrorString "this build doesn't ship zstd support" q)).
  { intros read q; unfold open_backend; cbn.
    rewrite (zstd_stub_initialize read q Hb); reflexivity. }
  assert (Hq0 : state (d_ptr q0) = Error /\ isOpen q0 = false).
  { unfold q0, QtIOCompressor_Zstd; cbn. rewrite Hb. split; reflexivity. }
  destruct (zstd_stub_open mode q0 Hb (proj2 Hq0)) as (Hfst & Hst & Hclosed & _).
  assert (Hstate : state (d_ptr (snd (open mode q0))) = Error)
    by (rewrite Hst; exact (proj1 Hq0)).
  split; [exact Hfst |]. split; [exact Hclosed |].
  split.
  { intros Hdir Hcompat. unfold open.
    change (isOpen q0) with false. cbv iota.
    assert (Hbn : (has_flag mode ReadOnly && has_flag mode WriteOnly)
                  || negb (has_flag mode ReadOnly || has_flag mode WriteOnly) = false).
    { destruct (has_flag mode ReadOnly), (has_flag mode WriteOnly);
        try reflexivity; exfalso; apply Hdir; reflexivity. }
    rewrite Hbn.
    change (device (d_ptr q0)) with dev.
    change (device (d_ptr (set_manageDevice false q0))) with dev.
    change (device (d_ptr (set_manageDevice true q0))) with dev.
    destruct (dev_isOpen dev) eqn:Ed.
    - specialize (Hcompat eq_refl).
      assert (E1 : has_flag mode ReadOnly && negb (has_flag (dev_openMode dev) ReadOnly)
                   = false).
      { destruct (has_flag mode ReadOnly); [rewrite Hcompat |]; reflexivity. }
      assert (E2 : has_flag mode WriteOnly && negb (has_flag (dev_openMode dev) WriteOnly)
                   = false).
      { destruct (has_flag mode ReadOnly) eqn:Er, (has_flag mode WriteOnly) eqn:Ew;
          try reflexivity; try (exfalso; apply Hdir; reflexivity).
        rewrite Hcompat; reflexivity. }
      rewrite E1, E2, Hfail. split; [discriminate | left; reflexivity].
    - destruct (dev_open mode dev) as [[|] dev']; simpl.
      + rewrite Hfail. split; [discriminate | left; reflexivity].
      + split; [discriminate | right; reflexivity]. }
  split; [intros; apply zstd_stub_readData; exact Hb |].
  split; [intros; apply zstd_stub_writeData; exact Hb |].
  split; [intros fuel maxSize; apply readData_in_Error; exact Hstate |].
  split; [intros fuel data maxSize Hn; apply writeData_in_Error;
          [exact Hstate | exact Hn] |].
  split.
  { intros Hpre. unfold open.
    change (isOpen q0) with false. cbv iota.
    destruct Hpre as [Hdir | [Ed Hinc]].
    - rewrite (has_flag_both_or_neither mode Hdir). split; reflexivity.
    - destruct ((has_flag mode ReadOnly && has_flag mode WriteOnly)
                || negb (has_flag mode ReadOnly || has_flag mode WriteOnly)) eqn:Hbn;
        [split; reflexivity |].
      change (device (d_ptr q0)) with dev.
      change (device (d_ptr (set_manageDevice false q0))) with dev.
      rewrite Ed.
      destruct (has_flag mode ReadOnly) eqn:Er.
      + rewrite Hinc. cbn. split; reflexivity.
      + destruct (has_flag mode WriteOnly) eqn:Ew; [| discriminate Hbn].
        rewrite Hinc. cbn. split; reflexivity. }
  split; [exact Hq0 |].
  intros q Es Ec.
  split.
  { intros mode'.
    destruct (zstd_stub_open mode' q Hb Ec) as (H1 & H2 & H3 & H4).
    rewrite H2. repeat split; assumption. }
  split; [intros fuel; apply close_when_closed; exact Ec |].
  split; [intros fuel; unfold flush; rewrite Ec; reflexivity |].
  split; [intros fuel maxSize; apply readData_in_Error; exact Es |].
  split.
  { intros fuel data maxSize. unfold writeData.
    destruct (maxSize <? 1); [reflexivity |]. rewrite Es. reflexivity. }
  intros f b. unfold bytesAvailable.
  assert (Em : openMode q = NotOpen).
  { unfold isOpen in Ec. apply negb_false_iff in Ec. apply Z.eqb_eq in Ec. exact Ec. }
  rewrite Em. reflexivity.
Qed.

End EitherBackend.

(** ** The zlib backend takes the size of a write modulo 2^32 *)

(** writeData stores [maxSize], a qint64, into [avail_in], a uInt: of a write
    of 2^32 + 1 bytes zlib is given one byte.  Two such writes that agree
    on their first byte return the same value and leave the same bytes on
    the device, whatever the zlib and the device are. *)
Lemma zlib_write_of_4GiB_and_one {Dev : Type} {dev_ops : QIODevice Dev} {zlib : ZlibApi}
    (fuel : nat) (b : byte) (t1 t2 : list byte)
    (q : QtIOCompressor Dev ZlibPrivate.Members) :
  written (writeData fuel (b :: t1) (2 ^ 32 + 1) q)
  = written (writeData fuel (b :: t2) (2 ^ 32 + 1) q).
Proof. apply zlib_writeData_sees_uInt; reflexivity. Qed.

(** ** The claims on the objects of the examples *)

Section Evaluations.
#[local] Existing Instance mem_device.
#[local] Existing Instance toy_zlib.
#[local] Existing Instance toy_zstd.

(** C1, where the code breaks it: a round trip through the gzip
    compressor.  One write of 2^32 + 1 bytes that start with "A", then
    close, leaves on the device the stream of the single byte "A"; reading
    that stream back gives "A": one byte of the 2^32 + 1 written. *)
Theorem gzip_round_trip_of_4GiB_and_one (tail : list byte) :
  gzip_compress 3 (Byte.x41 :: tail) (2 ^ 32 + 1) = Returns [Byte.x41; Byte.x00]
  /\ gzip_decompress 3 [Byte.x41; Byte.x00] = Returns (1, [Byte.x41]).
Proof. split; vm_compute; reflexivity. Qed.

(** C2, where the code breaks it: the bytes pushed back at the end of a
    stream.  The device holds the stream of "ABCD" followed by the stream of
    "E"; the scratch buffer has 4 bytes.  Reading the first stream to its
    end through the gzip compressor leaves on the device the second stream
    and then one more byte, the "D" that was still in the scratch buffer;
    through the zstd compressor it leaves the second stream and nothing
    else. *)
Theorem gzip_ungets_one_byte_too_many :
  read_outcome (readData 3 64 (gzip_reader 4 two_streams))
  = Returns (4, [Byte.x41; Byte.x42; Byte.x43; Byte.x44], EndOfStream,
             [Byte.x45; Byte.x00; Byte.x44], ""%string)
  /\ read_outcome (readData (backend := zstd_on) 3 64 (zstd_reader 4 two_streams))
     = Returns (4, [Byte.x41; Byte.x42; Byte.x43; Byte.x44], EndOfStream,
                [Byte.x45; Byte.x00], ""%string).
Proof. split; vm_compute; reflexivity. Qed.

(** When the unconsumed bytes reach the end of the scratch buffer, the
    first byte the gzip compressor ungets lies behind the buffer. *)
Lemma gzip_unget_reads_behind_the_buffer :
  readData 3 64 (gzip_reader 4 [Byte.x41; Byte.x00; Byte.x42; Byte.x43; Byte.x00])
  = Aborts.
Proof. vm_compute; reflexivity. Qed.

(** C3, where the code breaks it: a decoding error in the zstd backend.
    On the corrupt stream "A", ff the zstd compressor returns -1 with an
    error string, but its state is InStream, not Error; the gzip compressor
    on the same bytes returns -1 and is in the state Error. *)
Theorem zstd_decode_error_leaves_state :
  read_outcome (readData (backend := zstd_on) 3 64 (zstd_reader 4 [Byte.x41; Byte.xff]))
  = Returns (-1, [Byte.x41], InStream, [],
             "Internal zstd error when decompressing: Data corruption detected"%string)
  /\ read_outcome (readData 3 64 (gzip_reader 4 [Byte.x41; Byte.xff]))
     = Returns (-1, [Byte.x41], Error, [],
                "Internal zlib error when decompressing: data error"%string).
Proof. split; vm_compute; reflexivity. Qed.

(** C4, where the code breaks it: no input left in the middle of a
    stream.  The device holds "A" and not yet the end of the stream.  The
    zstd compressor does not return from a read of 64 bytes, whatever the
    fuel: it asks the empty device and the codec over and over.  The gzip
    compressor returns 0 and stays in the state InStream. *)
Theorem zstd_read_spins_without_input :
  (forall fuel : nat,
      readData (backend := zstd_on) fuel 64 (zstd_reader 4 [Byte.x41]) = OutOfFuel)
  /\ read_outcome (readData 3 64 (gzip_reader 4 [Byte.x41]))
     = Returns (0, [Byte.x41], InStream, [], ""%string).
Proof.
  split; [| vm_compute; reflexivity].
  intros [| fuel]; [reflexivity |].
  (* after the first turn of the loop *)
  change (readData (backend := zstd_on) (S fuel) 64 (zstd_reader 4 [Byte.x41]))
    with (ZstdPrivate.readLoop (build := with_zstd) fuel 64 [Byte.x41]
            (ZstdPrivate.set_zstdDStream (Some tt)
               (ZstdPrivate.set_inbuf
                  {| ZstdPrivate.src := ZstdPrivate.to_buffer;
                     ZstdPrivate.size := 1; ZstdPrivate.pos := 1 |}
                  (set_state InStream
                     (set_buffer [Byte.x41; Byte.x00; Byte.x00; Byte.x00]
                        (set_device (mem ReadOnly []) (zstd_reader 4 [Byte.x41]))))))).
  apply zstd_readLoop_spins; try reflexivity; try discriminate; cbn; try lia.
  - intros ds room; repeat split; discriminate.
  - intros n; unfold md_dev_read, take, advance; cbn.
    rewrite firstn_nil, skipn_nil; reflexivity.
Qed.

(** C10, where the code breaks it: the count a write of the gzip
    compressor reports.  One write of 2^32 + 1 bytes that start with "A"
    returns 2^32 + 1, but zlib was handed one byte: the device has received
    "A" and nothing else, and [next_in] stands at the second byte, with all
    the rest of the caller's data behind it untaken.  A write of the three
    bytes "ABC" takes them all. *)
Theorem zlib_write_reports_bytes_it_never_took (tail : list byte) :
  writeData 3 (Byte.x41 :: tail) (2 ^ 32 + 1) (gzip_writer 8)
  = Returns (2 ^ 32 + 1,
             after_write (gzip_writer 8)
               (writeData 3 (Byte.x41 :: tail) (2 ^ 32 + 1) (gzip_writer 8)))
  /\ md_out (device (d_ptr (after_write (gzip_writer 8)
                              (writeData 3 (Byte.x41 :: tail) (2 ^ 32 + 1)
                                 (gzip_writer 8)))))
     = [Byte.x41]
  /\ ZlibPrivate.next_in
       (ZlibPrivate.strm (after_write (gzip_writer 8)
                            (writeData 3 (Byte.x41 :: tail) (2 ^ 32 + 1) (gzip_writer 8))))
     = tail
  /\ state (d_ptr (after_write (gzip_writer 8)
                     (writeData 3 (Byte.x41 :: tail) (2 ^ 32 + 1) (gzip_writer 8))))
     = BytesWritten
  /\ md_out (device (d_ptr (after_write (gzip_writer 8)
                              (writeData 3 [Byte.x41; Byte.x42; Byte.x43] 3
                                 (gzip_writer 8)))))
     = [Byte.x41; Byte.x42; Byte.x43]
  /\ ZlibPrivate.next_in
       (ZlibPrivate.strm (after_write (gzip_writer 8)
                            (writeData 3 [Byte.x41; Byte.x42; Byte.x43] 3 (gzip_writer 8))))
     = [].
Proof.
  split; [vm_compute; reflexivity |].
  split; [vm_compute; reflexivity |].
  split; [vm_compute; reflexivity |].
  split; [vm_compute; reflexivity |].
  split; vm_compute; reflexivity.
Qed.



(** C6, where it fails as stated: the zstd compressor of a build without
    zstd over a device that is open for writing only.  open for reading
    returns false and no error string has been set. *)
Lemma zstd_stub_open_without_error_string :
  open (backend := zstd_off) ReadOnly (zstd_stub (mem WriteOnly []))
  = (false, zstd_stub (mem WriteOnly []))
  /\ errorString (zstd_stub (mem WriteOnly [])) = ""%string.
Proof. split; reflexivity. Qed.

(** C6, as amended, over a closed device, and over a device that is open
    for writing only, where open for reading fails on its precondition. *)
Lemma zstd_stub_fails_cleanly_witness :
  WITH_XC_ZSTD (BuildConfig := without_zstd) = false
  /\ fst (open (backend := zstd_off) ReadOnly (zstd_stub (mem NotOpen []))) = false
  /\ errorString (snd (open (backend := zstd_off) ReadOnly (zstd_stub (mem NotOpen []))))
     <> ""%string
  /\ errorString (snd (open (backend := zstd_off) ReadOnly (zstd_stub (mem NotOpen []))))
     = "this build doesn't ship zstd support"%string
  /\ (forall fuel maxSize,
         readData (backend := zstd_off) fuel maxSize
           (snd (open (backend := zstd_off) ReadOnly (zstd_stub (mem NotOpen []))))
         = Returns (-1, [],
                    snd (open (backend := zstd_off) ReadOnly (zstd_stub (mem NotOpen [])))))
  /\ errorString (snd (open (backend := zstd_off) ReadOnly (zstd_stub (mem WriteOnly []))))
     = ""%string
  /\ (forall fuel : nat,
         close (backend := zstd_off) fuel (zstd_stub (mem NotOpen []))
         = Returns (zstd_stub (mem NotOpen []))).
Proof.
  pose proof (zstd_stub_fails_cleanly (build := without_zstd) (mem NotOpen []) 3 8 ReadOnly
                eq_refl) as (H1 & _ & H3 & _ & _ & H6 & _ & _ & Hq0 & Hinv).
  pose proof (zstd_stub_fails_cleanly (build := without_zstd) (mem WriteOnly []) 3 8 ReadOnly
                eq_refl) as (_ & _ & _ & _ & _ & _ & _ & Hpre & _).
  split; [reflexivity |]. split; [exact H1 |].
  split; [apply H3; [vm_compute; discriminate | vm_compute; discriminate] |].
  split; [reflexivity |]. split; [exact H6 |].
  split.
  - apply Hpre. right. split; vm_compute; reflexivity.
  - destruct (Hinv (zstd_stub (mem NotOpen [])) (proj1 Hq0) (proj2 Hq0)) as (_ & Hc & _).
    exact Hc.
Defined.

(** C7 on the gzip compressor: close on the compressor that was never
    opened; and the session [abc_session] over a device that open found
    closed, at the end of which close closes the device and a second close
    does nothing. *)
Lemma close_is_idempotent_witness :
  close 3 (QtIOCompressor_Gzip (mem NotOpen []) 6 8)
  = Returns (QtIOCompressor_Gzip (mem NotOpen []) 6 8)
  /\ close 3 abc_written = Returns abc_closed
  /\ isOpen abc_closed = false
  /\ close 0 abc_closed = Returns abc_closed
  /\ (exists qf,
         Private.finalize 3 (has_flag WriteOnly ReadOnly) abc_written = Returns qf
         /\ device (d_ptr abc_closed) = dev_close (device (d_ptr qf))).
Proof.
  destruct (close_is_idempotent (build := with_zstd) (GzipFormatSpec 6)) as (H1 & H2 & H3).
  assert (Ec : close 3 abc_written = Returns abc_closed) by (vm_compute; reflexivity).
  split; [exact (H1 3%nat (QtIOCompressor_Gzip (mem NotOpen []) 6 8) eq_refl) |].
  split; [exact Ec |].
  split; [exact (proj1 (H2 3%nat 0%nat abc_written abc_closed Ec)) |].
  split; [exact (proj2 (H2 3%nat 0%nat abc_written abc_closed Ec)) |].
  apply (H3 WriteOnly 3%nat abc_session (QtIOCompressor_Gzip (mem NotOpen []) 6 8)
            (gzip_writer 8) abc_written abc_closed
            [Some 3; None]).
  - vm_compute; reflexivity.
  - vm_compute; reflexivity.
  - exact Ec.
Defined.



(** C9 on the gzip compressor opened for writing, and over the device
    that counts its calls: the count after the write is the count before
    it. *)
Lemma write_of_nothing_is_noop_witness :
  writeData 0 [Byte.x41] 0 (gzip_writer 8) = Returns (0, gzip_writer 8)
  /\ writeData 0 [] (-5) (gzip_writer 8) = Returns (0, gzip_writer 8)
  /\ writeData (backend := ZlibPrivate.zlib_backend (dev_ops := counting_device))
       3 [Byte.x41] 0 counted_gzip_writer
     = Returns (0, counted_gzip_writer)
  /\ fst (device (d_ptr counted_gzip_writer)) = 1%nat.
Proof.
  split; [apply write_of_nothing_is_noop; lia |].
  split; [apply write_of_nothing_is_noop; lia |].
  split; [apply (write_of_nothing_is_noop
                   (backend := ZlibPrivate.zlib_backend (dev_ops := counting_device)));
          lia |].
  reflexivity.
Defined.

(** The device and the codecs of the examples make progress. *)
Lemma mem_device_makes_progress : device_makes_progress (dev_ops := mem_device).
Proof.
  intros m n dev; cbn; unfold md_dev_write.
  destruct (has_flag (md_mode dev) WriteOnly); cbn; [| auto].
  destruct (0 <=? n) eqn:E; cbn; [| auto].
  apply Z.leb_le in E. right. lia.
Qed.

Lemma toy_zlib_makes_progress : deflate_makes_progress (zlib := toy_zlib).
Proof.
  exists (fun _ => O). intros st input room Hroom; cbn; unfold toy_deflate.
  destruct ((List.length input =? 0)%nat && _ && _); cbn.
  - unfold len; cbn. repeat split; lia.
  - unfold len; cbn. rewrite length_firstn. repeat split; lia.
Qed.

Lemma toy_zstd_makes_progress : compress_makes_progress (zstd := toy_zstd).
Proof.
  exists (fun _ => O). intros cs input room Hroom; cbn.
  unfold len; cbn. rewrite length_firstn. repeat split; lia.
Qed.

(** The same on a write of three bytes through the gzip compressor. *)
Lemma write_is_all_or_nothing_witness :
  writeData 3 [Byte.x41; Byte.x42; Byte.x43] 3 (gzip_writer 8)
  = Returns (3, after_write (gzip_writer 8)
                  (writeData 3 [Byte.x41; Byte.x42; Byte.x43] 3 (gzip_writer 8)))
  /\ 3 = 3
  /\ exists (fuel : nat) (r : Z) (q' : QtIOCompressor MemDevice ZlibPrivate.Members),
      writeData fuel [Byte.x41; Byte.x42; Byte.x43] 3 (gzip_writer 8) = Returns (r, q')
      /\ (r = -1 \/ r = 3).
Proof.
  assert (E : writeData 3 [Byte.x41; Byte.x42; Byte.x43] 3 (gzip_writer 8)
              = Returns (3, after_write (gzip_writer 8)
                              (writeData 3 [Byte.x41; Byte.x42; Byte.x43] 3 (gzip_writer 8))))
    by (vm_compute; reflexivity).
  assert (H1 : 1 <= 3) by lia.
  pose proof (write_is_all_or_nothing (build := with_zstd) (GzipFormatSpec 6)
                [Byte.x41; Byte.x42; Byte.x43] 3 (gzip_writer 8) H1) as [Hall Hret].
  split; [exact E |]. split.
  - apply (Hall 3%nat 3 _ E). discriminate.
  - apply Hret.
    + exact mem_device_makes_progress.
    + exact toy_zlib_makes_progress.
    + exact toy_zstd_makes_progress.
    + vm_compute; split; reflexivity.
    + exact I.
    + vm_compute; discriminate.
Defined.

End Evaluations.

(** * Further properties of the file *)

(** ** checkGzipSupport *)

(** X1: checkGzipSupport on the version string of a release with one-digit
    major and minor numbers: it answers true exactly from 1.2 on. *)
Theorem checkGzipSupport_from_1_2_on (major minor patch : nat) :
  (major < 10)%nat -> (minor < 10)%nat ->
  ZlibPrivate.checkGzipSupport (version major minor patch)
  = ((1 <? major)%nat || ((major =? 1)%nat && (2 <=? minor)%nat)).
Proof.
  intros HM Hm.
  destruct major as [| [| [| [| [| [| [| [| [| [| major]]]]]]]]]]; [.. | lia];
    (destruct minor as [| [| [| [| [| [| [| [| [| [| minor]]]]]]]]]]; [.. | lia]);
    reflexivity.
Qed.

Lemma checkGzipSupport_from_1_2_on_witness :
  ZlibPrivate.checkGzipSupport (version 1 3 1) = true
  /\ ZlibPrivate.checkGzipSupport (version 1 1 4) = false.
Proof.
  split.
  - rewrite (checkGzipSupport_from_1_2_on 1 3 1); [reflexivity | lia | lia].
  - rewrite (checkGzipSupport_from_1_2_on 1 1 4); [reflexivity | lia | lia].
Defined.

(** X2: checkGzipSupport looks at the characters 0 and 2 only: it refuses every
    string of fewer than three characters, and the releases 1.10 to 1.19,
    whose third character is the 1 of the minor number. *)
Theorem checkGzipSupport_refuses_1_10_to_1_19 (s : string) (minor patch : nat) :
  ((String.length s < 3)%nat -> ZlibPrivate.checkGzipSupport s = false)
  /\ ((10 <= minor < 20)%nat -> ZlibPrivate.checkGzipSupport (version 1 minor patch) = false).
Proof.
  split.
  - intros Hs. unfold ZlibPrivate.checkGzipSupport.
    destruct (String.length s <? 3)%nat eqn:E; [reflexivity |].
    apply Nat.ltb_ge in E. lia.
  - intros Hm.
    do 10 (destruct minor as [| minor]; [lia |]).
    destruct minor as [| [| [| [| [| [| [| [| [| [| minor]]]]]]]]]]; [.. | lia];
      reflexivity.
Qed.

Lemma checkGzipSupport_refuses_1_10_to_1_19_witness :
  ZlibPrivate.checkGzipSupport "1." = false
  /\ ZlibPrivate.checkGzipSupport (version 1 12 0) = false.
Proof.
  split.
  - apply (proj1 (checkGzipSupport_refuses_1_10_to_1_19 "1." 12 0)). simpl. lia.
  - apply (proj2 (checkGzipSupport_refuses_1_10_to_1_19 "1." 12 0)). lia.
Defined.

(** ** open, initialize and close *)

Section OpenAndClose.
Context {Dev : Type} {dev_ops : QIODevice Dev} {zlib : ZlibApi} {zstd : ZstdApi}
        {build : BuildConfig}.

Lemma open_backend_device (Spec : FormatSpec) (mode : Z) (read : bool)
    (q : QtIOCompressor Dev (Members_of Spec)) :
  device (d_ptr (snd (open_backend mode read q))) = device (d_ptr q)
  /\ manageDevice (d_ptr (snd (open_backend mode read q))) = manageDevice (d_ptr q)
  /\ (fst (open_backend mode read q) = false ->
      openMode (snd (open_backend mode read q)) = openMode q)
  /\ fst (open_backend mode read q) = fst (Private.initialize read q).
Proof.
  unfold open_backend.
  destruct (backend_initialize_frame Spec read q) as (Hm & Hmd & Hd).
  destruct (Private.initialize read q) as [[|] q1]; simpl in *; auto.
  repeat split; auto. discriminate.
Qed.

(** X3: What a successful open establishes: the compressor was closed, the mode
    selects exactly one direction and is now the open mode; the device is
    the compressor's to close exactly when open found it closed and opened
    it; a device found open is left as it is and has the direction asked
    for. *)
Theorem open_success_postcondition (Spec : FormatSpec) (mode : Z)
    (q : QtIOCompressor Dev (Members_of Spec)) :
  fst (open mode q) = true ->
  isOpen q = false
  /\ has_flag mode ReadOnly = negb (has_flag mode WriteOnly)
  /\ openMode (snd (open mode q)) = mode
  /\ isOpen (snd (open mode q)) = true
  /\ manageDevice (d_ptr (snd (open mode q))) = negb (dev_isOpen (device (d_ptr q)))
  /\ (if dev_isOpen (device (d_ptr q))
      then device (d_ptr (snd (open mode q))) = device (d_ptr q)
           /\ has_flag (dev_openMode (device (d_ptr q)))
                       (if has_flag mode ReadOnly then ReadOnly else WriteOnly) = true
      else dev_open mode (device (d_ptr q))
           = (true, device (d_ptr (snd (open mode q))))).
Proof.
  intros Hs.
  pose proof (open_success_openMode mode q Hs) as [Hmode Hopen].
  pose proof (open_success_manageDevice (backend_initialize_frame Spec) mode q Hs) as Hman.
  revert Hs Hmode Hopen Hman. unfold open.
  destruct (isOpen q); [discriminate |].
  destruct (has_flag mode ReadOnly) eqn:Er, (has_flag mode WriteOnly) eqn:Ew; simpl;
    try discriminate;
    (destruct (dev_isOpen (device (d_ptr q))) eqn:Ed; simpl;
     [ destruct (has_flag (dev_openMode (device (d_ptr q))) _) eqn:Em; simpl;
       [| discriminate]
     | destruct (dev_open mode (device (d_ptr q))) as [[|] dev']; simpl;
       [| discriminate] ]);
    intros Hs Hmode Hopen Hman; repeat split; auto;
    match goal with
    | |- context [open_backend mode ?r ?q1] =>
      destruct (open_backend_device Spec mode r q1) as (Hd & _)
    end; try (rewrite Hd; reflexivity).
Qed.

(** X4: When open has opened the device itself and initialize then fails, open
    returns false and the compressor stays closed, but the device stays
    open: close, which does nothing on a compressor that is not open, never
    closes it. *)
Theorem failed_initialize_leaves_device_open (Spec : FormatSpec) (mode : Z)
    (q : QtIOCompressor Dev (Members_of Spec)) :
  isOpen q = false ->
  has_flag mode ReadOnly = negb (has_flag mode WriteOnly) ->
  dev_isOpen (device (d_ptr q)) = false ->
  fst (dev_open mode (device (d_ptr q))) = true ->
  fst (Private.initialize (has_flag mode ReadOnly)
         (set_device (snd (dev_open mode (device (d_ptr q)))) (set_manageDevice true q)))
  = false ->
  fst (open mode q) = false
  /\ isOpen (snd (open mode q)) = false
  /\ device (d_ptr (snd (open mode q))) = snd (dev_open mode (device (d_ptr q)))
  /\ manageDevice (d_ptr (snd (open mode q))) = true
  /\ forall fuel : nat, close fuel (snd (open mode q)) = Returns (snd (open mode q)).
Proof.
  intros Hc Hdir Hd Ho Hi.
  assert (Hstep : open mode q
                  = open_backend mode (has_flag mode ReadOnly)
                      (set_device (snd (dev_open mode (device (d_ptr q))))
                         (set_manageDevice true q))).
  { unfold open. rewrite Hc, Hdir.
    destruct (has_flag mode WriteOnly); simpl; rewrite Hd;
      change (device (d_ptr (set_manageDevice true q))) with (device (d_ptr q));
      destruct (dev_open mode (device (d_ptr q))) as [ok dev']; simpl in *; subst ok;
      reflexivity. }
  rewrite Hstep.
  match goal with
  | |- context [open_backend mode ?r ?q1] =>
    destruct (open_backend_device Spec mode r q1) as (Hdev & Hman & Hmode & Hfst)
  end.
  rewrite Hi in Hfst. specialize (Hmode Hfst).
  assert (Hclosed : isOpen (snd (open_backend mode (has_flag mode ReadOnly)
                                   (set_device (snd (dev_open mode (device (d_ptr q))))
                                      (set_manageDevice true q)))) = false)
    by (unfold isOpen in *; rewrite Hmode; exact Hc).
  repeat split; auto.
  intros fuel. apply close_when_closed. exact Hclosed.
Qed.

End OpenAndClose.

(** ** The lifecycle state across open and close *)

Section ZlibLifecycle.
Context {Dev : Type} {dev_ops : QIODevice Dev} {zlib : ZlibApi}.

Local Abbreviation Q := (QtIOCompressor Dev ZlibPrivate.Members).

Lemma zlib_initialize_state (read : bool) (q : Q) :
  state (d_ptr (snd (ZlibPrivate.initialize read q)))
  = (if read then NotReadFirstByte else NoBytesWritten)
  /\ (read = true -> fst (ZlibPrivate.initialize read q) = true ->
      ZlibPrivate.avail_in (ZlibPrivate.strm (snd (ZlibPrivate.initialize read q))) = 0
      /\ ZlibPrivate.next_in (ZlibPrivate.strm (snd (ZlibPrivate.initialize read q))) = []).
Proof.
  unfold ZlibPrivate.initialize.
  destruct read, (ZlibPrivate.streamFormat (derived (d_ptr q)));
    repeat match goal with
           | |- context [if ?c then _ else _] => destruct c
           end;
    cbn [fst snd];
    (split; [| intros; try discriminate; split; reflexivity]);
    repeat match goal with
           | |- context [ZlibPrivate.setZlibError ?m ?c ?x] =>
             destruct (zlib_setZlibError_frame m c x) as [-> _]
           end;
    reflexivity.
Qed.

(** X5: A zlib compressor that open has opened starts from a fresh state,
    whatever state an earlier session left: NotReadFirstByte with no input
    pending when opened for reading, NoBytesWritten when opened for
    writing. *)
Theorem zlib_open_resets_state (mode : Z) (q : Q) :
  fst (open mode q) = true ->
  state (d_ptr (snd (open mode q)))
  = (if has_flag mode ReadOnly then NotReadFirstByte else NoBytesWritten)
  /\ (has_flag mode ReadOnly = true ->
      ZlibPrivate.avail_in (ZlibPrivate.strm (snd (open mode q))) = 0
      /\ ZlibPrivate.next_in (ZlibPrivate.strm (snd (open mode q))) = []).
Proof.
  assert (Hob : forall (q1 : Q),
             fst (open_backend mode (has_flag mode ReadOnly) q1) = true ->
             state (d_ptr (snd (open_backend mode (has_flag mode ReadOnly) q1)))
             = (if has_flag mode ReadOnly then NotReadFirstByte else NoBytesWritten)
             /\ (has_flag mode ReadOnly = true ->
                 ZlibPrivate.avail_in
                   (ZlibPrivate.strm (snd (open_backend mode (has_flag mode ReadOnly) q1))) = 0
                 /\ ZlibPrivate.next_in
                      (ZlibPrivate.strm (snd (open_backend mode (has_flag mode ReadOnly) q1)))
                    = [])).
  { intros q1. unfold open_backend. cbn [Private.initialize ZlibPrivate.zlib_backend].
    destruct (zlib_initialize_state (has_flag mode ReadOnly) q1) as [Hst Hin].
    destruct (ZlibPrivate.initialize (has_flag mode ReadOnly) q1) as [[|] q2];
      cbn [fst snd negb] in *; [| discriminate].
    intros _. split; [exact Hst |]. intros Hr. apply Hin; [exact Hr | reflexivity]. }
  unfold open.
  destruct (isOpen q); [discriminate |].
  destruct (_ || _); [discriminate |].
  destruct (dev_isOpen (device (d_ptr q))).
  - destruct (has_flag mode ReadOnly && negb _); [discriminate |].
    destruct (has_flag mode WriteOnly && negb _); [discriminate |]. apply Hob.
  - destruct (dev_open mode _) as [[|] dev']; cbn [negb]; [apply Hob | discriminate].
Qed.

End ZlibLifecycle.

Section ZstdLifecycle.
Context {Dev : Type} {dev_ops : QIODevice Dev} {zstd : ZstdApi} {build : BuildConfig}.

Local Abbreviation Q := (QtIOCompressor Dev ZstdPrivate.Members).




(** X7: A zstd open that succeeds has created the stream of its direction and
    a scratch buffer that is at least as large as zstd recommends, with an
    empty in-buffer pointing at it. *)
Theorem zstd_open_prepares_stream (mode : Z) (q : Q) :
  fst (open mode q) = true ->
  WITH_XC_ZSTD = true
  /\ (if has_flag mode ReadOnly
      then ZstdPrivate.zstdDStream (derived (d_ptr (snd (open mode q)))) <> None
      else ZstdPrivate.zstdCStream (derived (d_ptr (snd (open mode q)))) <> None)
  /\ ZstdPrivate.inbuf (snd (open mode q))
     = {| ZstdPrivate.src := ZstdPrivate.to_buffer;
          ZstdPrivate.size := 0; ZstdPrivate.pos := 0 |}
  /\ bufferSize (d_ptr (snd (open mode q)))
     = Z.max (if has_flag mode ReadOnly then ZSTD_DStreamInSize else ZSTD_CStreamOutSize)
             (bufferSize (d_ptr q))
  /\ len (buffer (d_ptr (snd (open mode q))))
     = Z.max 0 (bufferSize (d_ptr (snd (open mode q)))).
Proof.
  assert (Hlen : forall b : Z, len (repeat Byte.x00 (Z.to_nat b)) = Z.max 0 b)
    by (intros b; unfold len; rewrite repeat_length; lia).
  assert (Hob : forall (q1 : Q),
             bufferSize (d_ptr q1) = bufferSize (d_ptr q) ->
             fst (open_backend mode (has_flag mode ReadOnly) q1) = true ->
             let q' := snd (open_backend mode (has_flag mode ReadOnly) q1) in
             WITH_XC_ZSTD = true
             /\ (if has_flag mode ReadOnly
                 then ZstdPrivate.zstdDStream (derived (d_ptr q')) <> None
                 else ZstdPrivate.zstdCStream (derived (d_ptr q')) <> None)
             /\ ZstdPrivate.inbuf q'
                = {| ZstdPrivate.src := ZstdPrivate.to_buffer;
                     ZstdPrivate.size := 0; ZstdPrivate.pos := 0 |}
             /\ bufferSize (d_ptr q')
                = Z.max (if has_flag mode ReadOnly then ZSTD_DStreamInSize
                         else ZSTD_CStreamOutSize)
                        (bufferSize (d_ptr q))
             /\ len (buffer (d_ptr q')) = Z.max 0 (bufferSize (d_ptr q'))).
  { intros q1 Hb. unfold open_backend.
    cbn [Private.initialize ZstdPrivate.zstd_backend].
    unfold ZstdPrivate.initialize, ZstdPrivate.allocate.
    destruct WITH_XC_ZSTD; [| discriminate].
    destruct (has_flag mode ReadOnly).
    - destruct ZSTD_createDStream as [ds |]; [| discriminate].
      destruct (ZSTD_initDStream ds) as [st ds'].
      destruct (ZSTD_isError st); [discriminate |].
      intros _; cbn. rewrite Hlen, Hb. repeat split; discriminate.
    - destruct ZSTD_createCStream as [cs |]; [| discriminate].
      destruct (ZSTD_initCStream cs _) as [st cs'].
      destruct (ZSTD_isError st); [discriminate |].
      intros _; cbn. rewrite Hlen, Hb. repeat split; discriminate. }
  unfold open.
  destruct (isOpen q); [discriminate |].
  destruct (_ || _); [discriminate |].
  destruct (dev_isOpen (device (d_ptr q))).
  - destruct (has_flag mode ReadOnly && negb _); [discriminate |].
    destruct (has_flag mode WriteOnly && negb _); [discriminate |].
    apply Hob; reflexivity.
  - destruct (dev_open mode _) as [[|] dev']; cbn [negb]; [| discriminate].
    apply Hob; reflexivity.
Qed.

End ZstdLifecycle.

(** ** close and finalize *)

Section CloseFacts.
Context {Dev : Type} {dev_ops : QIODevice Dev} {zlib : ZlibApi} {zstd : ZstdApi}
        {build : BuildConfig}.

Lemma State_eqb_neq (a b : State) : a <> b -> State_eqb a b = false.
Proof.
  intros H; destruct (State_eqb a b) eqn:E; [| reflexivity].
  apply State_eqb_eq in E; contradiction.
Qed.

(** X8: Closing a write session in which no write or flush got through to the
    device writes nothing: close returns whatever the fuel, the codec is
    not asked for a stream end, the device sees no call except the close
    of a device the compressor opened itself, and the state stays as it
    was.  The device is left without any compressed stream. *)
Theorem close_after_no_write_writes_nothing (Spec : FormatSpec) (fuel : nat)
    (q : QtIOCompressor Dev (Members_of Spec)) :
  isOpen q = true ->
  has_flag (openMode q) ReadOnly = false ->
  state (d_ptr q) <> BytesWritten ->
  exists q' : QtIOCompressor Dev (Members_of Spec),
    close fuel q = Returns q'
    /\ isOpen q' = false
    /\ device (d_ptr q')
       = (if manageDevice (d_ptr q) then dev_close (device (d_ptr q))
          else device (d_ptr q))
    /\ state (d_ptr q') = state (d_ptr q).
Proof.
  intros Ho Hw Hs. unfold close. rewrite Ho, Hw. cbn [negb].
  pose proof (State_eqb_neq _ _ Hs) as E.
  destruct Spec as [level | level]; cbn [Members_of] in *;
    cbn [Private.finalize backend_of ZlibPrivate.zlib_backend ZstdPrivate.zstd_backend].
  - unfold ZlibPrivate.finalize. rewrite E. cbn [bind].
    destruct (manageDevice (d_ptr q)) eqn:Em; cbn; rewrite Em;
      eexists; repeat split; reflexivity.
  - unfold ZstdPrivate.finalize. rewrite E.
    destruct WITH_XC_ZSTD; cbn [bind];
      destruct (manageDevice (d_ptr q)) eqn:Em; cbn; rewrite ?Em;
      eexists; repeat split; reflexivity.
Qed.

(** X9: Closing a read session needs no loop: close returns whatever the fuel,
    the device is not read or written, and the state afterwards is
    NotReadFirstByte, also when the session had ended in EndOfStream or in
    Error. *)
Theorem close_of_read_session (Spec : FormatSpec) (fuel : nat)
    (q : QtIOCompressor Dev (Members_of Spec)) :
  WITH_XC_ZSTD = true ->
  isOpen q = true ->
  has_flag (openMode q) ReadOnly = true ->
  exists q' : QtIOCompressor Dev (Members_of Spec),
    close fuel q = Returns q'
    /\ isOpen q' = false
    /\ device (d_ptr q')
       = (if manageDevice (d_ptr q) then dev_close (device (d_ptr q))
          else device (d_ptr q))
    /\ state (d_ptr q') = NotReadFirstByte.
Proof.
  intros Hz Ho Hr. unfold close. rewrite Ho, Hr. cbn [negb].
  destruct Spec as [level | level]; cbn [Members_of] in *;
    cbn [Private.finalize backend_of ZlibPrivate.zlib_backend ZstdPrivate.zstd_backend].
  - unfold ZlibPrivate.finalize. cbn [bind].
    eexists; split; [reflexivity |]. cbn.
    destruct (manageDevice (d_ptr q)); repeat split; reflexivity.
  - unfold ZstdPrivate.finalize. rewrite Hz. cbn [bind].
    eexists; split; [reflexivity |]. cbn.
    destruct (manageDevice (d_ptr q)); repeat split; reflexivity.
Qed.

End CloseFacts.

(** ** writeBytes, and what write and flush leave behind *)

Section WriteBytesFacts.
Context {Dev D : Type} {dev_ops : QIODevice Dev}.

Local Abbreviation Q := (QtIOCompressor Dev D).

Lemma take_split (mem : list byte) (w n : Z) :
  0 <= w <= n -> take n mem = take w mem ++ take (n - w) (advance w mem).
Proof.
  intros H; unfold take, advance.
  rewrite firstn_skipn_comm.
  replace (Z.to_nat w + Z.to_nat (n - w))%nat with (Z.to_nat n) by lia.
  rewrite <- (firstn_skipn (Z.to_nat w) (firstn (Z.to_nat n) mem)) at 1.
  rewrite firstn_firstn.
  replace (Nat.min (Z.to_nat w) (Z.to_nat n)) with (Z.to_nat w) by lia.
  reflexivity.
Qed.

Lemma writeBytes_outcome (fuel : nat) : forall (mem : list byte) (n : Z) (q q' : Q) (ok : bool),
  writeBytes fuel mem n q = Returns (ok, q') ->
  if ok then state (d_ptr q') = BytesWritten
  else errorString q'
       = ("Error writing to underlying device: "
            ++ dev_errorString (device (d_ptr q')))%string.
Proof.
  induction fuel as [| fuel IH]; intros mem n q q' ok; simpl; [discriminate |].
  destruct (dev_write mem n (device (d_ptr q))) as [w dev'].
  destruct (w =? -1).
  - intros [= <- <-]; reflexivity.
  - destruct (n - w >? 0); [apply IH |].
    intros [= <- <-]; reflexivity.
Qed.

Lemma writeBytes_refusal_keeps_state (fuel : nat) :
  forall (mem : list byte) (n : Z) (q q' : Q) (ok : bool),
    writeBytes fuel mem n q = Returns (ok, q') -> ok = false ->
    state (d_ptr q') = state (d_ptr q).
Proof.
  induction fuel as [| fuel IH]; intros mem n q q' ok; simpl; [discriminate |].
  destruct (dev_write mem n (device (d_ptr q))) as [w dev'].
  destruct (w =? -1).
  - intros [= <- <-] _; reflexivity.
  - destruct (n - w >? 0).
    + intros Hw Hok. rewrite (IH _ _ _ _ _ Hw Hok). reflexivity.
    + intros [= <- <-]; discriminate.
Qed.

(** X10: writeBytes over a device that appends what it accepts and accepts
    something of every request: with more fuel than bytes it returns; when
    it returns true the device has received exactly the first [outputSize]
    bytes of the buffer, in order, however the device split them, and the
    state is BytesWritten; when it returns false the device has received
    the first [k] of them for some [k], and the error string is that of the
    device behind the fixed prefix. *)
Theorem writeBytes_delivers_in_order (out : Dev -> list byte) (fuel : nat)
    (mem : list byte) (n : Z) (q : Q) :
  device_appends out ->
  device_makes_progress ->
  0 <= n ->
  (Z.to_nat n < fuel)%nat ->
  exists (ok : bool) (q' : Q),
    writeBytes fuel mem n q = Returns (ok, q')
    /\ if ok
       then out (device (d_ptr q')) = out (device (d_ptr q)) ++ take n mem
            /\ state (d_ptr q') = BytesWritten
       else (exists k : Z,
                0 <= k <= n
                /\ out (device (d_ptr q')) = out (device (d_ptr q)) ++ take k mem)
            /\ errorString q'
               = ("Error writing to underlying device: "
                    ++ dev_errorString (device (d_ptr q')))%string.
Proof.
  intros Happ Hdev Hn Hf.
  destruct (writeBytes_returns Hdev fuel mem n q Hf) as (ok & q' & Ew).
  exists ok, q'. split; [exact Ew |].
  pose proof (writeBytes_outcome fuel mem n q q' ok Ew) as Hout.
  assert (Hdel : exists k : Z,
             0 <= k <= n
             /\ (ok = true -> k = n)
             /\ out (device (d_ptr q')) = out (device (d_ptr q)) ++ take k mem).
  { clear Hout Hf. revert mem n q Hn Ew.
    induction fuel as [| fuel IH]; intros mem n q Hn; simpl; [discriminate |].
    pose proof (Happ mem n (device (d_ptr q)) Hn) as Ha.
    destruct (dev_write mem n (device (d_ptr q))) as [w dev']; simpl in Ha.
    destruct (w =? -1) eqn:E1.
    - apply Z.eqb_eq in E1. intros [= <- <-].
      exists 0. split; [lia |]. split; [discriminate |].
      destruct Ha as [[_ Ho] | [Hw _]]; [| lia].
      cbn. rewrite Ho. unfold take; simpl. rewrite app_nil_r. reflexivity.
    - apply Z.eqb_neq in E1.
      destruct Ha as [[Hw _] | [Hw Ho]]; [contradiction |].
      destruct (n - w >? 0) eqn:E2.
      + intros Ew.
        destruct (IH (advance w mem) (n - w) (set_device dev' q)) as (k & Hk & Hok & Hk2);
          [lia | exact Ew |].
        exists (w + k). split; [lia |]. split; [intros Ht; specialize (Hok Ht); lia |].
        rewrite Hk2. cbn. rewrite Ho, <- app_assoc. f_equal.
        rewrite (take_split mem w (w + k)) by lia.
        replace (w + k - w) with k by lia. reflexivity.
      + intros [= <- <-].
        assert (w = n) by (rewrite Z.gtb_ltb in E2; apply Z.ltb_ge in E2; lia).
        subst w. exists n. split; [lia |]. split; [reflexivity |].
        cbn. exact Ho. }
  destruct Hdel as (k & Hk & Hok & Hk2).
  destruct ok.
  - split; [| exact Hout]. rewrite Hk2, (Hok eq_refl). reflexivity.
  - split; [exists k; split; assumption | exact Hout].
Qed.

End WriteBytesFacts.

Section WriteAndFlushFacts.
Context {Dev : Type} {dev_ops : QIODevice Dev} {zlib : ZlibApi} {zstd : ZstdApi}
        {build : BuildConfig}.

Lemma zlib_writeLoop_outcome (fuel : nat) :
  forall maxSize (q : QtIOCompressor Dev ZlibPrivate.Members) r q',
    ZlibPrivate.writeLoop fuel maxSize q = Returns (r, q') ->
    (r = maxSize /\ state (d_ptr q') = BytesWritten)
    \/ (r = -1 /\ state (d_ptr q') = Error)
    \/ (r = -1
        /\ errorString q'
           = ("Error writing to underlying device: "
                ++ dev_errorString (device (d_ptr q')))%string
        /\ (state (d_ptr q') = state (d_ptr q) \/ state (d_ptr q') = BytesWritten)).
Proof.
  induction fuel as [| fuel IH]; intros maxSize q r q'; [discriminate |].
  cbn [ZlibPrivate.writeLoop].
  assert (Hs1 : state (d_ptr (snd (ZlibPrivate.deflate_call Z_NO_FLUSH q))) = state (d_ptr q))
    by (unfold ZlibPrivate.deflate_call; destruct (deflate _ _ _ _); reflexivity).
  destruct (ZlibPrivate.deflate_call Z_NO_FLUSH q) as [st q1]. cbn [snd] in Hs1.
  destruct (negb (st =? Z_OK)).
  - intros [= <- <-]. right. left. split; [reflexivity |].
    destruct (zlib_setZlibError_frame "Internal zlib error when compressing: " st
                (set_state Error q1)) as [-> _]. reflexivity.
  - destruct (writeBytes fuel _ _ q1) as [[[|] q2] | |] eqn:Ew; try discriminate.
    + pose proof (writeBytes_outcome _ _ _ _ _ _ Ew) as Ho. cbn in Ho.
      destruct (ZlibPrivate.avail_out (ZlibPrivate.strm q2) =? 0).
      * intros Hw. destruct (IH _ _ _ _ Hw) as [H | [H | (Hr & He & Hst)]]; auto.
        right. right. repeat split; auto.
        right. destruct Hst as [Hst | Hst]; [rewrite Hst; exact Ho | exact Hst].
      * intros [= <- <-]. left. split; [reflexivity | exact Ho].
    + pose proof (writeBytes_outcome _ _ _ _ _ _ Ew) as Ho. cbn in Ho.
      pose proof (writeBytes_refusal_keeps_state _ _ _ _ _ _ Ew eq_refl) as Hk.
      intros [= <- <-]. right. right. repeat split; [exact Ho |].
      left. rewrite Hk. exact Hs1.
Qed.

Lemma zstd_writeLoop_outcome (fuel : nat) :
  forall data inSize inPos maxSize (q : QtIOCompressor Dev ZstdPrivate.Members) r q',
    ZstdPrivate.writeLoop fuel data inSize inPos maxSize q = Returns (r, q') ->
    (r = maxSize /\ state (d_ptr q') = BytesWritten)
    \/ (r = -1 /\ state (d_ptr q') = Error)
    \/ (r = -1
        /\ errorString q'
           = ("Error writing to underlying device: "
                ++ dev_errorString (device (d_ptr q')))%string
        /\ (state (d_ptr q') = state (d_ptr q) \/ state (d_ptr q') = BytesWritten)).
Proof.
  induction fuel as [| fuel IH]; intros data inSize inPos maxSize q r q'; [discriminate |].
  cbn [ZstdPrivate.writeLoop].
  assert (Hs1 : forall st q1,
             ZstdPrivate.compress_call ZSTD_e_continue
               (take (inSize - inPos) (advance inPos data)) q = Returns (st, q1) ->
             state (d_ptr q1) = state (d_ptr q)).
  { intros st q1. unfold ZstdPrivate.compress_call.
    destruct (ZstdPrivate.zstdCStream (derived (d_ptr q))); [| discriminate].
    destruct (ZSTD_compressStream2 _ _ _ _). intros [= _ <-]. reflexivity. }
  destruct (ZstdPrivate.compress_call _ _ q) as [[st q1] | |]; try discriminate.
  specialize (Hs1 st q1 eq_refl).
  destruct (ZSTD_isError (status st)).
  - intros [= <- <-]. right. left. split; [reflexivity |].
    destruct (zstd_setZstdError_frame "Internal zstd error when compressing: " (status st)
                (set_state Error q1)) as [-> _]. reflexivity.
  - destruct (writeBytes fuel _ _ q1) as [[[|] q2] | |] eqn:Ew; try discriminate.
    + pose proof (writeBytes_outcome _ _ _ _ _ _ Ew) as Ho. cbn in Ho.
      destruct (_ <? inSize).
      * intros Hw. destruct (IH _ _ _ _ _ _ _ Hw) as [H | [H | (Hr & He & Hst)]]; auto.
        right. right. repeat split; auto.
        right. destruct Hst as [Hst | Hst]; [rewrite Hst; exact Ho | exact Hst].
      * intros [= <- <-]. left. split; reflexivity.
    + pose proof (writeBytes_outcome _ _ _ _ _ _ Ew) as Ho. cbn in Ho.
      pose proof (writeBytes_refusal_keeps_state _ _ _ _ _ _ Ew eq_refl) as Hk.
      intros [= <- <-]. right. right. repeat split; [exact Ho |].
      left. rewrite Hk. exact Hs1.
Qed.

Lemma zlib_flushLoop_outcome (fuel : nat) :
  forall flushMode (q q' : QtIOCompressor Dev ZlibPrivate.Members),
    ZlibPrivate.flushLoop fuel flushMode q = Returns q' ->
    state (d_ptr q') = BytesWritten \/ after_write_or_flush q'.
Proof.
  induction fuel as [| fuel IH]; intros flushMode q q'; [discriminate |].
  cbn [ZlibPrivate.flushLoop].
  destruct (ZlibPrivate.deflate_call flushMode q) as [st q1].
  destruct (negb (st =? Z_OK) && negb (st =? Z_STREAM_END)).
  - intros [= <-]. right. left.
    destruct (zlib_setZlibError_frame "Internal zlib error when compressing: " st
                (set_state Error q1)) as [-> _]. reflexivity.
  - destruct (writeBytes fuel _ _ q1) as [[[|] q2] | |] eqn:Ew; try discriminate.
    + pose proof (writeBytes_outcome _ _ _ _ _ _ Ew) as Ho. cbn in Ho.
      destruct (_ || _); [apply IH |].
      intros [= <-]. left. exact Ho.
    + pose proof (writeBytes_outcome _ _ _ _ _ _ Ew) as Ho. cbn in Ho.
      intros [= <-]. right. right. exact Ho.
Qed.

Lemma zstd_flushLoop_outcome (fuel : nat) :
  forall flushMode (q q' : QtIOCompressor Dev ZstdPrivate.Members),
    ZstdPrivate.flushLoop fuel flushMode q = Returns q' ->
    state (d_ptr q') = BytesWritten \/ after_write_or_flush q'.
Proof.
  induction fuel as [| fuel IH]; intros flushMode q q'; [discriminate |].
  cbn [ZstdPrivate.flushLoop].
  destruct (ZstdPrivate.compress_call _ _ q) as [[st q1] | |]; try discriminate.
  destruct (ZSTD_isError (status st)).
  - intros [= <-]. right. left.
    destruct (zstd_setZstdError_frame "Internal zstd error when compressing: " (status st)
                (set_state Error q1)) as [-> _]. reflexivity.
  - destruct (writeBytes fuel _ _ q1) as [[[|] q2] | |] eqn:Ew; try discriminate.
    + pose proof (writeBytes_outcome _ _ _ _ _ _ Ew) as Ho. cbn in Ho.
      destruct (negb _); [apply IH |].
      intros [= <-]. left. exact Ho.
    + pose proof (writeBytes_outcome _ _ _ _ _ _ Ew) as Ho. cbn in Ho.
      intros [= <-]. right. right. exact Ho.
Qed.

(** X11: What a write of at least one byte leaves behind, in a build with
    zstd.  When it returns [maxSize] the state is BytesWritten, so that
    close will ask the codec for the end of the stream.  When it returns -1,
    either the state is Error (it was before, or the codec failed), or the
    device refused a write: then the error string is the device's behind the
    fixed prefix, and the state has not been set to Error: it is what it
    was before the call, or BytesWritten when an earlier turn of the loop
    got its bytes through. *)
Theorem write_outcome_and_state (Spec : FormatSpec) (fuel : nat) (data : list byte)
    (maxSize : Z) (q q' : QtIOCompressor Dev (Members_of Spec)) (r : Z) :
  WITH_XC_ZSTD = true ->
  1 <= maxSize ->
  writeData fuel data maxSize q = Returns (r, q') ->
  (r = maxSize /\ state (d_ptr q') = BytesWritten)
  \/ (r = -1 /\ state (d_ptr q') = Error)
  \/ (r = -1
      /\ errorString q'
         = ("Error writing to underlying device: "
              ++ dev_errorString (device (d_ptr q')))%string
      /\ state (d_ptr q') <> Error
      /\ (state (d_ptr q') = state (d_ptr q) \/ state (d_ptr q') = BytesWritten)).
Proof.
  intros Hz Hn. unfold writeData.
  destruct (maxSize <? 1) eqn:E; [apply Z.ltb_lt in E; lia |].
  destruct (State_eqb (state (d_ptr q)) Error) eqn:Es.
  - intros [= <- <-]. right. left. split; [reflexivity |].
    apply State_eqb_eq; exact Es.
  - assert (Hne : state (d_ptr q) <> Error)
      by (intros He; rewrite He in Es; discriminate Es).
    assert (Hfin : forall q1 : QtIOCompressor Dev (Members_of Spec),
               state (d_ptr q1) = state (d_ptr q) \/ state (d_ptr q1) = BytesWritten ->
               state (d_ptr q1) <> Error).
    { intros q1 [H | H]; rewrite H; [exact Hne | discriminate]. }
    intros Hw.
    assert (Hout : (r = maxSize /\ state (d_ptr q') = BytesWritten)
                   \/ (r = -1 /\ state (d_ptr q') = Error)
                   \/ (r = -1
                       /\ errorString q'
                          = ("Error writing to underlying device: "
                               ++ dev_errorString (device (d_ptr q')))%string
                       /\ (state (d_ptr q') = state (d_ptr q)
                           \/ state (d_ptr q') = BytesWritten))).
    { revert Hw. clear Hfin Hne Es.
      destruct Spec as [level | level]; cbn [Members_of] in *;
        cbn [Private.writeData backend_of ZlibPrivate.zlib_backend
             ZstdPrivate.zstd_backend].
      - unfold ZlibPrivate.writeData. intros Hw.
        exact (zlib_writeLoop_outcome _ _ _ _ _ Hw).
      - unfold ZstdPrivate.writeData. rewrite Hz. apply zstd_writeLoop_outcome. }
    destruct Hout as [H | [H | (Hr & He & Hst)]]; auto.
    right. right. repeat split; auto.
Qed.

(** X12: What flush leaves behind on a write session, in a build with zstd: when
    it returns, the state is BytesWritten -- also when nothing had been
    written before, so that close will then ask the codec for the end of the
    stream -- or the state is Error, or the device refused a write and the
    error string says so. *)
Theorem flush_outcome_and_state (Spec : FormatSpec) (fuel : nat)
    (q q' : QtIOCompressor Dev (Members_of Spec)) :
  WITH_XC_ZSTD = true ->
  isOpen q = true ->
  has_flag (openMode q) ReadOnly = false ->
  flush fuel q = Returns q' ->
  state (d_ptr q') = BytesWritten
  \/ state (d_ptr q') = Error
  \/ errorString q'
     = ("Error writing to underlying device: "
          ++ dev_errorString (device (d_ptr q')))%string.
Proof.
  intros Hz Ho Hw. unfold flush. rewrite Ho, Hw. cbn [negb orb].
  destruct Spec as [level | level]; cbn [Members_of] in *;
    cbn [Private.flush backend_of ZlibPrivate.zlib_backend ZstdPrivate.zstd_backend].
  - unfold ZlibPrivate.flush, ZlibPrivate.flushZlib. apply zlib_flushLoop_outcome.
  - unfold ZstdPrivate.flush, ZstdPrivate.flushZstd. rewrite Hz.
    apply zstd_flushLoop_outcome.
Qed.

End WriteAndFlushFacts.

(** ** The read path *)

Section ReadFacts.
Context {Dev : Type} {dev_ops : QIODevice Dev} {zlib : ZlibApi} {zstd : ZstdApi}
        {build : BuildConfig}.

(** X13: A read that finds no input left and whose device fails: readData
    returns -1 without reaching the codec and without storing anything, the
    state is Error, and the error string is the device's behind the fixed
    prefix.  One call of the device's read is all that happens to the
    device. *)
Theorem read_error_of_the_device (Spec : FormatSpec) (fuel : nat) (maxSize : Z)
    (q : QtIOCompressor Dev (Members_of Spec)) :
  WITH_XC_ZSTD = true ->
  state (d_ptr q) <> EndOfStream ->
  state (d_ptr q) <> Error ->
  input_exhausted Spec q ->
  fst (dev_read (bufferSize (d_ptr q)) (device (d_ptr q))) = None ->
  exists q' : QtIOCompressor Dev (Members_of Spec),
    readData (S fuel) maxSize q = Returns (-1, [], q')
    /\ state (d_ptr q') = Error
    /\ device (d_ptr q') = snd (dev_read (bufferSize (d_ptr q)) (device (d_ptr q)))
    /\ errorString q'
       = ("Error reading data from underlying device: "
            ++ dev_errorString (device (d_ptr q')))%string.
Proof.
  intros Hz H1 H2 Hex Hr.
  destruct Spec as [level | level]; cbn [Members_of input_exhausted] in *;
    unfold readData; rewrite (State_eqb_neq _ _ H1), (State_eqb_neq _ _ H2);
    cbn [Private.readData backend_of ZlibPrivate.zlib_backend ZstdPrivate.zstd_backend].
  - unfold ZlibPrivate.readData. cbn [ZlibPrivate.readLoop]. unfold ZlibPrivate.fill.
    assert (E : (ZlibPrivate.avail_in
                   (ZlibPrivate.strm
                      (ZlibPrivate.set_strm
                         {| ZlibPrivate.next_in := ZlibPrivate.next_in (ZlibPrivate.strm q);
                            ZlibPrivate.avail_in := ZlibPrivate.avail_in (ZlibPrivate.strm q);
                            ZlibPrivate.avail_out := to_uInt maxSize;
                            ZlibPrivate.strm_state :=
                              ZlibPrivate.strm_state (ZlibPrivate.strm q) |} q)) =? 0)
                = true) by (apply Z.eqb_eq; exact Hex).
    rewrite E.
    change (dev_read (bufferSize (d_ptr (ZlibPrivate.set_strm ?s q)))
                     (device (d_ptr (ZlibPrivate.set_strm ?s q))))
      with (dev_read (bufferSize (d_ptr q)) (device (d_ptr q))).
    destruct (dev_read (bufferSize (d_ptr q)) (device (d_ptr q))) as [r dev'].
    simpl in Hr; subst r.
    eexists; split; [reflexivity |]. repeat split.
  - unfold ZstdPrivate.readData. rewrite Hz. cbn [ZstdPrivate.readLoop].
    unfold ZstdPrivate.fill.
    assert (E : (ZstdPrivate.pos (ZstdPrivate.inbuf q)
                 >=? ZstdPrivate.size (ZstdPrivate.inbuf q)) = true)
      by (rewrite Z.geb_leb; apply Z.leb_le; exact Hex).
    rewrite E.
    destruct (dev_read (bufferSize (d_ptr q)) (device (d_ptr q))) as [r dev'].
    simpl in Hr; subst r.
    eexists; split; [reflexivity |]. repeat split.
Qed.

(** X14: A read before the first byte of a stream that finds the device empty:
    readData returns 0 without reaching the codec, nothing is stored, and
    the state and the error string are as before; it is neither an error
    nor the end of a stream. *)
Theorem read_of_empty_device (Spec : FormatSpec) (fuel : nat) (maxSize : Z)
    (q : QtIOCompressor Dev (Members_of Spec)) :
  WITH_XC_ZSTD = true ->
  state (d_ptr q) <> EndOfStream ->
  state (d_ptr q) <> Error ->
  state (d_ptr q) <> InStream ->
  input_exhausted Spec q ->
  fst (dev_read (bufferSize (d_ptr q)) (device (d_ptr q))) = Some [] ->
  exists q' : QtIOCompressor Dev (Members_of Spec),
    readData (S fuel) maxSize q = Returns (0, [], q')
    /\ state (d_ptr q') = state (d_ptr q)
    /\ device (d_ptr q') = snd (dev_read (bufferSize (d_ptr q)) (device (d_ptr q)))
    /\ errorString q' = errorString q.
Proof.
  intros Hz H1 H2 H3 Hex Hr.
  destruct Spec as [level | level]; cbn [Members_of input_exhausted] in *;
    unfold readData; rewrite (State_eqb_neq _ _ H1), (State_eqb_neq _ _ H2);
    cbn [Private.readData backend_of ZlibPrivate.zlib_backend ZstdPrivate.zstd_backend].
  - unfold ZlibPrivate.readData. cbn [ZlibPrivate.readLoop]. unfold ZlibPrivate.fill.
    assert (E : (ZlibPrivate.avail_in
                   (ZlibPrivate.strm
                      (ZlibPrivate.set_strm
                         {| ZlibPrivate.next_in := ZlibPrivate.next_in (ZlibPrivate.strm q);
                            ZlibPrivate.avail_in := ZlibPrivate.avail_in (ZlibPrivate.strm q);
                            ZlibPrivate.avail_out := to_uInt maxSize;
                            ZlibPrivate.strm_state :=
                              ZlibPrivate.strm_state (ZlibPrivate.strm q) |} q)) =? 0)
                = true) by (apply Z.eqb_eq; exact Hex).
    rewrite E.
    change (dev_read (bufferSize (d_ptr (ZlibPrivate.set_strm ?s q)))
                     (device (d_ptr (ZlibPrivate.set_strm ?s q))))
      with (dev_read (bufferSize (d_ptr q)) (device (d_ptr q))).
    destruct (dev_read (bufferSize (d_ptr q)) (device (d_ptr q))) as [r dev'].
    simpl in Hr; subst r.
    cbn. rewrite (State_eqb_neq _ _ H3). cbn.
    eexists; split; [reflexivity |]. repeat split.
  - unfold ZstdPrivate.readData. rewrite Hz. cbn [ZstdPrivate.readLoop].
    unfold ZstdPrivate.fill.
    assert (E : (ZstdPrivate.pos (ZstdPrivate.inbuf q)
                 >=? ZstdPrivate.size (ZstdPrivate.inbuf q)) = true)
      by (rewrite Z.geb_leb; apply Z.leb_le; exact Hex).
    rewrite E.
    destruct (dev_read (bufferSize (d_ptr q)) (device (d_ptr q))) as [r dev'].
    simpl in Hr; subst r.
    cbn. rewrite (State_eqb_neq _ _ H3). cbn.
    eexists; split; [reflexivity |]. repeat split.
Qed.

End ReadFacts.

Section ReadBounds.
Context {Dev : Type} {dev_ops : QIODevice Dev} {zlib : ZlibApi} {zstd : ZstdApi}
        {build : BuildConfig}.

Lemma len_app (a b : list byte) : len (a ++ b) = len a + len b.
Proof. unfold len; rewrite length_app; lia. Qed.

Lemma zlib_fill_avail_out (data : list byte) (q q1 : QtIOCompressor Dev ZlibPrivate.Members) :
  ZlibPrivate.fill data q = inr q1 ->
  ZlibPrivate.avail_out (ZlibPrivate.strm q1) = ZlibPrivate.avail_out (ZlibPrivate.strm q).
Proof.
  unfold ZlibPrivate.fill.
  destruct (_ =? 0); [| intros [= <-]; reflexivity].
  destruct (dev_read _ _) as [[bs |] dev']; [| discriminate].
  cbn. destruct (negb _); [| intros [= <-]; reflexivity].
  destruct (len bs =? 0); [discriminate |].
  destruct (len bs >? 0); intros [= <-]; reflexivity.
Qed.

Lemma zlib_readLoop_bound (Hinf : inflate_stays_in_room) (fuel : nat) :
  forall maxSize data (q : QtIOCompressor Dev ZlibPrivate.Members) n d q',
    0 <= maxSize < 2 ^ 32 ->
    0 <= ZlibPrivate.avail_out (ZlibPrivate.strm q) ->
    len data + ZlibPrivate.avail_out (ZlibPrivate.strm q) = maxSize ->
    ZlibPrivate.readLoop fuel maxSize data q = Returns (n, d, q') ->
    len d <= maxSize /\ (n = len d \/ n = 0 \/ n = -1).
Proof.
  induction fuel as [| fuel IH]; intros maxSize data q n d q' Hm Ha Hinv; [discriminate |].
  cbn [ZlibPrivate.readLoop].
  destruct (ZlibPrivate.fill data q) as [[[n0 d0] q0] | q1] eqn:Ef.
  - intros [= -> -> ->].
    apply zlib_fill_return in Ef. destruct Ef as [-> Hn].
    split; [lia |]. destruct Hn as [[-> _] | [-> _]]; auto.
  - pose proof (zlib_fill_avail_out _ _ _ Ef) as Eo.
    unfold ZlibPrivate.inflate_call.
    pose proof (Hinf (ZlibPrivate.strm_state (ZlibPrivate.strm q1))
                  (take (ZlibPrivate.avail_in (ZlibPrivate.strm q1))
                        (ZlibPrivate.next_in (ZlibPrivate.strm q1)))
                  (ZlibPrivate.avail_out (ZlibPrivate.strm q1)) Z_SYNC_FLUSH) as Hp.
    destruct (inflate _ _ _ _) as [r st']. cbn [fst] in Hp.
    assert (Hd : len (data ++ produced r) <= maxSize) by (rewrite len_app; lia).
    destruct (_ || _); [intros [= <- <- _]; auto |].
    destruct (status r =? Z_BUF_ERROR); [intros [= <- <- _]; auto |].
    destruct (_ && _).
    + apply IH; [exact Hm | cbn; lia | cbn; rewrite len_app; lia].
    + unfold ZlibPrivate.readEnd.
      assert (Eout : to_uInt (maxSize - (ZlibPrivate.avail_out (ZlibPrivate.strm q1)
                                         - len (produced r)))
                     = len (data ++ produced r)).
      { rewrite len_app. unfold to_uInt. rewrite Z.mod_small; [lia |].
        unfold len in *; lia. }
      destruct (status r =? Z_STREAM_END).
      * destruct (_ >=? 0).
        -- destruct (ZlibPrivate.ungetLoop _ _ _) as [dev' |]; [| discriminate].
           cbn. rewrite Eout. intros [= <- <- _]. auto.
        -- cbn. rewrite Eout. intros [= <- <- _]. auto.
      * cbn. rewrite Eout. intros [= <- <- _]. auto.
Qed.

Lemma zstd_fill_return (data : list byte) (q : QtIOCompressor Dev ZstdPrivate.Members)
    n d q' :
  ZstdPrivate.fill data q = inl (n, d, q') -> d = data /\ (n = 0 \/ n = -1).
Proof.
  unfold ZstdPrivate.fill.
  destruct (_ >=? _); [| discriminate].
  destruct (dev_read _ _) as [[bs |] dev'].
  - cbn. destruct (negb _); [| discriminate].
    destruct (len bs =? 0).
    + intros [= <- <- <-]; auto.
    + destruct (len bs >? 0); discriminate.
  - intros [= <- <- <-]; auto.
Qed.

Lemma zstd_readEnd_count (st : Z) (data : list byte)
    (q : QtIOCompressor Dev ZstdPrivate.Members) n d q' :
  ZstdPrivate.readEnd st data q = Returns (n, d, q') -> d = data /\ n = len data.
Proof.
  unfold ZstdPrivate.readEnd.
  destruct (st =? 0).
  - destruct (ZstdPrivate.ungetLoop _ _) as [q2 | |]; cbn; try discriminate.
    intros [= <- <- _]; auto.
  - intros [= <- <- _]; auto.
Qed.

Lemma zstd_readLoop_bound (Hdec : decompress_stays_in_room) (fuel : nat) :
  forall outSize data (q : QtIOCompressor Dev ZstdPrivate.Members) n d q',
    len data <= outSize ->
    ZstdPrivate.readLoop fuel outSize data q = Returns (n, d, q') ->
    len d <= outSize /\ (n = len d \/ n = 0 \/ n = -1).
Proof.
  induction fuel as [| fuel IH]; intros outSize data q n d q' Hinv; [discriminate |].
  cbn [ZstdPrivate.readLoop].
  destruct (ZstdPrivate.fill data q) as [[[n0 d0] q0] | q1] eqn:Ef.
  - intros [= -> -> ->].
    apply zstd_fill_return in Ef. destruct Ef as [-> Hn].
    split; [lia |]. destruct Hn as [-> | ->]; auto.
  - unfold ZstdPrivate.decompress_call.
    destruct (ZstdPrivate.zstdDStream (derived (d_ptr q1))) as [ds |]; [| discriminate].
    destruct (ZstdPrivate.window q1) as [input |]; [| discriminate].
    pose proof (Hdec ds input (outSize - len data)) as Hp.
    destruct (ZSTD_decompressStream _ _ _) as [r ds']. cbn [fst] in Hp.
    assert (Hd : len (data ++ produced r) <= outSize) by (rewrite len_app; lia).
    destruct (status r =? 0) eqn:E0.
    + intros Hr. apply zstd_readEnd_count in Hr. destruct Hr as [-> ->]. auto.
    + destruct (ZSTD_isError (status r)); [intros [= <- <- _]; auto |].
      destruct (_ && _).
      * apply IH. exact Hd.
      * intros Hr. apply zstd_readEnd_count in Hr. destruct Hr as [-> ->]. auto.
Qed.

(** X15: A read never overruns the caller's buffer, as long as the codec keeps
    to the output area it is given: for a request of less than 4 GiB,
    readData stores at most [maxSize] bytes; and the value it returns is the
    number of bytes stored, or 0, or -1, never more than was stored. *)
Theorem read_stays_in_the_callers_buffer (Spec : FormatSpec) (fuel : nat) (maxSize : Z)
    (q q' : QtIOCompressor Dev (Members_of Spec)) (n : Z) (d : list byte) :
  inflate_stays_in_room ->
  decompress_stays_in_room ->
  0 <= maxSize < 2 ^ 32 ->
  readData fuel maxSize q = Returns (n, d, q') ->
  len d <= maxSize /\ (n = len d \/ n = 0 \/ n = -1).
Proof.
  intros Hinf Hdec Hm. unfold readData.
  destruct (State_eqb _ EndOfStream); [intros [= <- <- _]; cbn; split; [lia | auto] |].
  destruct (State_eqb _ Error); [intros [= <- <- _]; cbn; split; [lia | auto] |].
  destruct Spec as [level | level]; cbn [Members_of] in *;
    cbn [Private.readData backend_of ZlibPrivate.zlib_backend ZstdPrivate.zstd_backend].
  - unfold ZlibPrivate.readData.
    assert (Eu : to_uInt maxSize = maxSize) by (unfold to_uInt; apply Z.mod_small; lia).
    apply (zlib_readLoop_bound Hinf); [exact Hm | cbn; lia | cbn; lia].
  - unfold ZstdPrivate.readData.
    destruct WITH_XC_ZSTD; [| intros [= <- <- _]; cbn; split; [lia | auto]].
    assert (Eu : to_size_t maxSize = maxSize)
      by (unfold to_size_t; apply Z.mod_small; lia).
    rewrite Eu. apply (zstd_readLoop_bound Hdec). cbn; lia.
Qed.

Lemma zlib_readLoop_wraps (fuel : nat) :
  forall maxSize data (q : QtIOCompressor Dev ZlibPrivate.Members),
    ZlibPrivate.readLoop fuel (maxSize + 2 ^ 32) data q
    = ZlibPrivate.readLoop fuel maxSize data q.
Proof.
  induction fuel as [| fuel IH]; intros maxSize data q; [reflexivity |].
  cbn [ZlibPrivate.readLoop].
  destruct (ZlibPrivate.fill data q) as [early | q1]; [reflexivity |].
  destruct (ZlibPrivate.inflate_call Z_SYNC_FLUSH data q1) as [[st data'] q2].
  destruct (_ || _); [reflexivity |].
  destruct (st =? Z_BUF_ERROR); [reflexivity |].
  destruct (_ && _); [apply IH |].
  unfold ZlibPrivate.readEnd.
  assert (Ew : forall a : Z, to_uInt (maxSize + 2 ^ 32 - a) = to_uInt (maxSize - a)).
  { intros a. unfold to_uInt.
    replace (maxSize + 2 ^ 32 - a) with (maxSize - a + 1 * 2 ^ 32) by lia.
    apply Z_mod_plus_full. }
  destruct (st =? Z_STREAM_END).
  - destruct (_ >=? 0).
    + destruct (ZlibPrivate.ungetLoop _ _ _); [| reflexivity]. rewrite Ew; reflexivity.
    + rewrite Ew; reflexivity.
  - rewrite Ew; reflexivity.
Qed.

(** X16: The zlib readData sees the size of a request modulo 2^32, because it
    stores it in [avail_out] and computes its result in [uInt]: a request of
    [maxSize + 2^32] bytes does exactly what a request of [maxSize] bytes
    does, returns the same count and leaves the same object. *)
Theorem zlib_read_request_wraps_at_4GiB (fuel : nat) (maxSize : Z)
    (q : QtIOCompressor Dev ZlibPrivate.Members) :
  readData fuel (maxSize + 2 ^ 32) q = readData fuel maxSize q.
Proof.
  unfold readData.
  destruct (State_eqb _ EndOfStream); [reflexivity |].
  destruct (State_eqb _ Error); [reflexivity |].
  cbn [Private.readData ZlibPrivate.zlib_backend]. unfold ZlibPrivate.readData.
  assert (Eu : to_uInt (maxSize + 2 ^ 32) = to_uInt maxSize).
  { unfold to_uInt. replace (maxSize + 2 ^ 32) with (maxSize + 1 * 2 ^ 32) by lia.
    apply Z_mod_plus_full. }
  rewrite Eu. apply zlib_readLoop_wraps.
Qed.

Lemma zstd_fill_state (data : list byte) (q : QtIOCompressor Dev ZstdPrivate.Members) :
  match ZstdPrivate.fill data q with
  | inl (_, _, q') => state (d_ptr q') = state (d_ptr q) \/ state (d_ptr q') = Error
  | inr q1 => state (d_ptr q1) = state (d_ptr q) \/ state (d_ptr q1) = InStream
  end.
Proof.
  unfold ZstdPrivate.fill.
  destruct (_ >=? _); [| left; reflexivity].
  destruct (dev_read _ _) as [[bs |] dev']; [| right; reflexivity].
  cbn. destruct (negb _); [| left; reflexivity].
  destruct (len bs =? 0); [left; reflexivity |].
  destruct (len bs >? 0); [right | left]; reflexivity.
Qed.

Lemma zstd_decompress_call_result (outSize : Z) (data : list byte)
    (q q2 : QtIOCompressor Dev ZstdPrivate.Members) (st : Z) (d : list byte) :
  ZstdPrivate.decompress_call outSize data q = Returns (st, d, q2) ->
  state (d_ptr q2) = state (d_ptr q) /\ exists more : list byte, d = data ++ more.
Proof.
  unfold ZstdPrivate.decompress_call.
  destruct (ZstdPrivate.zstdDStream (derived (d_ptr q))); [| discriminate].
  destruct (ZstdPrivate.window q); [| discriminate].
  destruct (ZSTD_decompressStream _ _ _) as [r ds'].
  intros [= _ <- <-]. split; [reflexivity | eauto].
Qed.

Lemma zstd_readLoop_ends_a_frame (fuel : nat) :
  forall outSize data (q q' : QtIOCompressor Dev ZstdPrivate.Members) n d,
    state (d_ptr q) <> EndOfStream ->
    ZstdPrivate.readLoop fuel outSize data q = Returns (n, d, q') ->
    state (d_ptr q') = EndOfStream ->
    n = len d
    /\ exists (dprev : list byte) (q0 q1 q2 : QtIOCompressor Dev ZstdPrivate.Members),
        ZstdPrivate.fill dprev q0 = inr q1
        /\ ZstdPrivate.decompress_call outSize dprev q1 = Returns (0, d, q2)
        /\ ZstdPrivate.readEnd 0 d q2 = Returns (n, d, q')
        /\ (exists more : list byte, dprev = data ++ more)
        /\ (exists more : list byte, d = dprev ++ more).
Proof.
  induction fuel as [| fuel IH]; intros outSize data q q' n d Hs; [discriminate |].
  cbn [ZstdPrivate.readLoop].
  pose proof (zstd_fill_state data q) as Hf.
  destruct (ZstdPrivate.fill data q) as [[[n0 d0] q0] | q1] eqn:Ef.
  - intros [= -> -> ->] He. exfalso.
    destruct Hf as [Hf | Hf]; rewrite Hf in He; [contradiction | discriminate].
  - assert (Hs1 : state (d_ptr q1) <> EndOfStream)
      by (destruct Hf as [Hf | Hf]; rewrite Hf; [exact Hs | discriminate]).
    destruct (ZstdPrivate.decompress_call outSize data q1) as [[[st data'] q2] | |] eqn:Ed;
      try discriminate.
    destruct (zstd_decompress_call_result _ _ _ _ _ _ Ed) as (Hs2 & more & Hmore).
    assert (Hs2' : state (d_ptr q2) <> EndOfStream) by (rewrite Hs2; exact Hs1).
    destruct (st =? 0) eqn:E0.
    + apply Z.eqb_eq in E0. subst st. intros Hr He.
      destruct (zstd_readEnd_count _ _ _ _ _ _ Hr) as [-> ->].
      split; [reflexivity |].
      exists data, q, q1, q2. repeat split; auto.
      * exists []. rewrite app_nil_r. reflexivity.
      * exists more. exact Hmore.
    + destruct (ZSTD_isError st).
      * intros [= _ _ <-] He. exfalso.
        destruct (zstd_setZstdError_frame "Internal zstd error when decompressing: " st q2)
          as [Hd _].
        rewrite Hd in He. contradiction.
      * destruct (_ && _).
        -- intros Hr He.
           destruct (IH _ _ _ _ _ _ Hs2' Hr He)
             as (Hn & dprev & qa & qb & qc & H1 & H2 & H3 & (m1 & H4) & H5).
           split; [exact Hn |].
           exists dprev, qa, qb, qc. repeat split; auto.
           exists (more ++ m1). rewrite H4, Hmore, app_assoc. reflexivity.
        -- unfold ZstdPrivate.readEnd. rewrite E0.
           intros [= _ _ <-] He. contradiction.
Qed.

(** X17: The zstd readData at the end of a frame, in whichever turn of its
    loop the frame ends.  In any turn, with any bytes already stored: when
    ZSTD_decompressStream answers 0, readData returns the number of all the
    bytes stored by the call, the state is EndOfStream, and the device gets
    back, last byte first, exactly the bytes of the scratch buffer from
    [pos] to [size] that the codec did not take, so that the next read of
    the device starts with the first byte after the frame.  And the other
    way round: whenever readData returns in the state EndOfStream, some
    turn of its loop got the answer 0 from the codec, the value returned is
    the number of all the bytes stored, and the device has got back exactly
    what was left in the buffer after that answer. *)
Theorem zstd_end_of_frame_pushes_back_the_rest :
  (forall (fuel : nat) (outSize : Z) (data data' : list byte)
          (q q1 q2 : QtIOCompressor Dev ZstdPrivate.Members),
      ZstdPrivate.fill data q = inr q1 ->
      ZstdPrivate.decompress_call outSize data q1 = Returns (0, data', q2) ->
      ZstdPrivate.src (ZstdPrivate.inbuf q2) = ZstdPrivate.to_buffer ->
      0 <= ZstdPrivate.pos (ZstdPrivate.inbuf q2) <= ZstdPrivate.size (ZstdPrivate.inbuf q2) ->
      ZstdPrivate.size (ZstdPrivate.inbuf q2) <= len (buffer (d_ptr q2)) ->
      exists q' : QtIOCompressor Dev ZstdPrivate.Members,
        ZstdPrivate.readLoop (S fuel) outSize data q = Returns (len data', data', q')
        /\ (exists more : list byte, data' = data ++ more)
        /\ state (d_ptr q') = EndOfStream
        /\ device (d_ptr q')
           = unget_all (rev (take (ZstdPrivate.size (ZstdPrivate.inbuf q2)
                                   - ZstdPrivate.pos (ZstdPrivate.inbuf q2))
                                  (advance (ZstdPrivate.pos (ZstdPrivate.inbuf q2))
                                           (buffer (d_ptr q2)))))
                       (device (d_ptr q2)))
  /\ (forall (fuel : nat) (maxSize n : Z) (d : list byte)
             (q q' : QtIOCompressor Dev ZstdPrivate.Members),
         WITH_XC_ZSTD = true ->
         state (d_ptr q) <> EndOfStream ->
         ZstdPrivate.readData fuel maxSize q = Returns (n, d, q') ->
         state (d_ptr q') = EndOfStream ->
         n = len d
         /\ exists (dprev : list byte) (q0 q1 q2 : QtIOCompressor Dev ZstdPrivate.Members),
             ZstdPrivate.fill dprev q0 = inr q1
             /\ ZstdPrivate.decompress_call (to_size_t maxSize) dprev q1
                = Returns (0, d, q2)
             /\ (exists more : list byte, d = dprev ++ more)
             /\ (ZstdPrivate.src (ZstdPrivate.inbuf q2) = ZstdPrivate.to_buffer ->
                 0 <= ZstdPrivate.pos (ZstdPrivate.inbuf q2)
                   <= ZstdPrivate.size (ZstdPrivate.inbuf q2) ->
                 ZstdPrivate.size (ZstdPrivate.inbuf q2) <= len (buffer (d_ptr q2)) ->
                 device (d_ptr q')
                 = unget_all (rev (take (ZstdPrivate.size (ZstdPrivate.inbuf q2)
                                         - ZstdPrivate.pos (ZstdPrivate.inbuf q2))
                                        (advance (ZstdPrivate.pos (ZstdPrivate.inbuf q2))
                                                 (buffer (d_ptr q2)))))
                             (device (d_ptr q2)))).
Proof.
  split.
  - intros fuel outSize data data' q q1 q2 Ef Ed Hsrc Hpos Hlen.
    destruct (zstd_readEnd_ungets_the_rest data' q2 Hsrc Hpos Hlen)
      as (q' & Er & Hst & Hdev).
    destruct (zstd_decompress_call_result _ _ _ _ _ _ Ed) as (_ & Hmore).
    exists q'. cbn [ZstdPrivate.readLoop]. rewrite Ef, Ed. rewrite Z.eqb_refl.
    repeat split; assumption.
  - intros fuel maxSize n d q q' Hz Hs. unfold ZstdPrivate.readData. rewrite Hz.
    intros Hr He.
    destruct (zstd_readLoop_ends_a_frame _ _ _ _ _ _ _ Hs Hr He)
      as (Hn & dprev & q0 & q1 & q2 & H1 & H2 & H3 & _ & H5).
    split; [exact Hn |].
    exists dprev, q0, q1, q2. repeat split; auto.
    intros Hsrc Hpos Hlen.
    destruct (zstd_readEnd_ungets_the_rest d q2 Hsrc Hpos Hlen) as (q'' & Er & _ & Hdev).
    rewrite H3 in Er. injection Er as _ <-. exact Hdev.
Qed.

End ReadBounds.

Section ZlibReadAndInit.
Context {Dev : Type} {dev_ops : QIODevice Dev} {zlib : ZlibApi}.

Local Abbreviation Q := (QtIOCompressor Dev ZlibPrivate.Members).

(** X18: In the zlib read loop the bytes stored by one turn are lost when the
    next turn cannot go on: the first turn stores bytes with Z_OK and room
    left, the second finds no more input and inflate answers Z_BUF_ERROR;
    readData then returns 0, although [data1] and what the last call
    produced are in the caller's buffer. *)
Theorem zlib_buf_error_discards_stored_bytes (fuel : nat) (maxSize : Z)
    (data data1 data2 : list byte) (q q1 q2 q3 q4 : Q) :
  ZlibPrivate.fill data q = inr q1 ->
  ZlibPrivate.inflate_call Z_SYNC_FLUSH data q1 = (Z_OK, data1, q2) ->
  ZlibPrivate.avail_out (ZlibPrivate.strm q2) <> 0 ->
  ZlibPrivate.fill data1 q2 = inr q3 ->
  ZlibPrivate.inflate_call Z_SYNC_FLUSH data1 q3 = (Z_BUF_ERROR, data2, q4) ->
  ZlibPrivate.readLoop (S (S fuel)) maxSize data q = Returns (0, data2, q4)
  /\ (exists more1 more2 : list byte, data1 = data ++ more1 /\ data2 = data1 ++ more2).
Proof.
  intros Ef1 Ei1 Ho Ef2 Ei2. split.
  - cbn [ZlibPrivate.readLoop]. rewrite Ef1, Ei1. cbn [Z.eqb orb Z_OK Z_NEED_DICT
      Z_DATA_ERROR Z_MEM_ERROR Z_BUF_ERROR Z_STREAM_END negb andb].
    apply Z.eqb_neq in Ho. rewrite Ho. cbn [negb andb].
    rewrite Ef2, Ei2. reflexivity.
  - revert Ei1 Ei2. unfold ZlibPrivate.inflate_call.
    destruct (inflate _ _ _ _) as [r1 st1]. intros [= _ <- _].
    destruct (inflate _ _ _ _) as [r2 st2]. intros [= _ <- _].
    eauto.
Qed.

(** X19: The run-time check for gzip support is made when reading only.  With
    a zlib whose version checkGzipSupport refuses, initialize for reading a
    gzip stream fails with its own error string before inflateInit2 is
    called; initialize for writing makes no such check and succeeds exactly
    when deflateInit2, called with windowBits 31, answers Z_OK. *)
Theorem gzip_support_is_checked_when_reading_only (q : Q) :
  ZlibPrivate.streamFormat (derived (d_ptr q)) = ZlibPrivate.GzipFormat ->
  ZlibPrivate.checkGzipSupport zlibVersion = false ->
  (fst (ZlibPrivate.initialize true q) = false
   /\ errorString (snd (ZlibPrivate.initialize true q))
      = "The gzip format not supported in this version of zlib."%string
   /\ ZlibPrivate.strm_state (ZlibPrivate.strm (snd (ZlibPrivate.initialize true q)))
      = ZlibPrivate.strm_state (ZlibPrivate.strm q))
  /\ (fst (ZlibPrivate.initialize false q)
      = (fst (deflateInit2 (ZlibPrivate.compressionLevel (derived (d_ptr q)))
                Z_DEFLATED 31 8 Z_DEFAULT_STRATEGY) =? Z_OK)
      /\ ZlibPrivate.strm_state (ZlibPrivate.strm (snd (ZlibPrivate.initialize false q)))
         = snd (deflateInit2 (ZlibPrivate.compressionLevel (derived (d_ptr q)))
                  Z_DEFLATED 31 8 Z_DEFAULT_STRATEGY)).
Proof.
  intros Hf Hv. unfold ZlibPrivate.initialize. rewrite Hf, Hv. cbn [negb].
  split; [repeat split |].
  destruct (deflateInit2 _ _ _ _ _) as [st s']. cbn [fst snd].
  destruct (st =? Z_OK); cbn [negb fst snd]; split; try reflexivity.
  unfold ZlibPrivate.strm.
  match goal with
  | |- context [ZlibPrivate.setZlibError ?m ?c ?x] =>
    destruct (zlib_setZlibError_frame m c x) as [-> _]
  end.
  reflexivity.
Qed.

End ZlibReadAndInit.

(** ** bytesAvailable *)

Section BytesAvailableFacts.
Context {Dev D : Type}.

Lemma to_int_id (a : Z) : - 2 ^ 31 <= a < 2 ^ 31 -> to_int a = a.
Proof. intros H; unfold to_int; rewrite Z.mod_small; lia. Qed.

(** X20: bytesAvailable answers 0 or 1.  It answers 0 on a compressor that is
    not open for reading.  Open for reading, the count is summed in an
    [int]: in the state InStream it answers 1, whatever the device holds,
    as long as the base class has buffered between 0 and 2^31 - 2 bytes,
    and at 2^31 - 1 buffered bytes the sum 1 + buffered wraps to -2^31 and
    the answer is 0; in the other states except NotReadFirstByte, with
    between 0 and 2^31 - 1 bytes buffered, the answer is 1 exactly when
    something is buffered, and does not depend on the device. *)
Theorem bytesAvailable_answers (device_bytesAvailable : Dev -> Z) (buffered : Z)
    (q : QtIOCompressor Dev D) :
  (bytesAvailable device_bytesAvailable buffered q = 0
   \/ bytesAvailable device_bytesAvailable buffered q = 1)
  /\ (has_flag (openMode q) ReadOnly = false ->
      bytesAvailable device_bytesAvailable buffered q = 0)
  /\ (has_flag (openMode q) ReadOnly = true -> state (d_ptr q) = InStream ->
      0 <= buffered < 2 ^ 31 - 1 ->
      bytesAvailable device_bytesAvailable buffered q = 1)
  /\ (has_flag (openMode q) ReadOnly = true ->
      state (d_ptr q) <> NotReadFirstByte -> state (d_ptr q) <> InStream ->
      0 <= buffered < 2 ^ 31 ->
      bytesAvailable device_bytesAvailable buffered q = (if 0 <? buffered then 1 else 0))
  /\ (has_flag (openMode q) ReadOnly = true -> state (d_ptr q) = InStream ->
      buffered = 2 ^ 31 - 1 ->
      bytesAvailable device_bytesAvailable buffered q = 0).
Proof.
  unfold bytesAvailable.
  assert (Hwrap : has_flag (openMode q) ReadOnly = true -> state (d_ptr q) = InStream ->
                  buffered = 2 ^ 31 - 1 ->
                  (if negb (has_flag (openMode q) ReadOnly) then 0
                   else if to_int (match state (d_ptr q) with
                                   | NotReadFirstByte =>
                                     to_int (device_bytesAvailable (device (d_ptr q)))
                                   | InStream => 1
                                   | _ => 0
                                   end + buffered) >? 0 then 1 else 0) = 0)
    by (intros -> -> ->; reflexivity).
  split; [| split; [| split; [| split; [| exact Hwrap]]]].
  - destruct (negb _); [auto |]. destruct (_ >? 0); auto.
  - intros ->; reflexivity.
  - intros -> -> Hb. cbn [negb]. rewrite to_int_id by lia.
    destruct (1 + buffered >? 0) eqn:E; [reflexivity |].
    rewrite Z.gtb_ltb in E; apply Z.ltb_ge in E; lia.
  - intros -> H1 H2 Hb. cbn [negb].
    assert (E : to_int (match state (d_ptr q) with
                        | NotReadFirstByte => to_int (device_bytesAvailable (device (d_ptr q)))
                        | InStream => 1
                        | _ => 0
                        end + buffered) = buffered)
      by (destruct (state (d_ptr q)); try contradiction; cbn [Z.add];
          apply to_int_id; lia).
    rewrite E, Z.gtb_ltb. reflexivity.
Qed.

(** X21: Before the first byte is read, bytesAvailable takes the device's count
    through an [int]: with nothing buffered it answers 1 for a count
    between 1 and 2^31 - 1, and 0 for a device that holds from 2^31 to 2^32
    bytes; counts that differ by 2^32 get the same answer. *)
Theorem bytesAvailable_truncates_the_device_count (device_bytesAvailable : Dev -> Z)
    (buffered : Z) (q : QtIOCompressor Dev D) :
  has_flag (openMode q) ReadOnly = true ->
  state (d_ptr q) = NotReadFirstByte ->
  (0 < device_bytesAvailable (device (d_ptr q)) < 2 ^ 31 ->
   bytesAvailable device_bytesAvailable 0 q = 1)
  /\ (2 ^ 31 <= device_bytesAvailable (device (d_ptr q)) <= 2 ^ 32 ->
      bytesAvailable device_bytesAvailable 0 q = 0)
  /\ bytesAvailable (fun dev => device_bytesAvailable dev + 2 ^ 32) buffered q
     = bytesAvailable device_bytesAvailable buffered q.
Proof.
  intros Hr Hs. unfold bytesAvailable. rewrite Hr, Hs. cbn [negb].
  repeat split.
  - intros Hn. rewrite (to_int_id (device_bytesAvailable _)) by lia.
    rewrite Z.add_0_r, to_int_id by lia.
    destruct (_ >? 0) eqn:E; [reflexivity |].
    rewrite Z.gtb_ltb in E; apply Z.ltb_ge in E; lia.
  - intros Hn.
    assert (E1 : to_int (device_bytesAvailable (device (d_ptr q)))
                 = device_bytesAvailable (device (d_ptr q)) - 2 ^ 32).
    { unfold to_int.
      replace (device_bytesAvailable (device (d_ptr q)) + 2 ^ 31)
        with (device_bytesAvailable (device (d_ptr q)) - 2 ^ 31 + 1 * 2 ^ 32) by lia.
      rewrite Z_mod_plus_full, Z.mod_small; lia. }
    rewrite E1, Z.add_0_r, to_int_id by lia.
    destruct (_ >? 0) eqn:E; [| reflexivity].
    rewrite Z.gtb_ltb in E; apply Z.ltb_lt in E; lia.
  - assert (E1 : to_int (device_bytesAvailable (device (d_ptr q)) + 2 ^ 32)
                 = to_int (device_bytesAvailable (device (d_ptr q)))).
    { unfold to_int.
      replace (device_bytesAvailable (device (d_ptr q)) + 2 ^ 32 + 2 ^ 31)
        with (device_bytesAvailable (device (d_ptr q)) + 2 ^ 31 + 1 * 2 ^ 32) by lia.
      rewrite Z_mod_plus_full. reflexivity. }
    rewrite E1. reflexivity.
Qed.

End BytesAvailableFacts.

(** ** What the write loop has taken, and that flush and close return *)

Section WriteAssertion.
Context {Dev : Type} {dev_ops : QIODevice Dev} {zlib : ZlibApi}.

Local Abbreviation Q := (QtIOCompressor Dev ZlibPrivate.Members).

Lemma zlib_writeLoop_takes_all (Hz : deflate_takes_all_when_room_left) (fuel : nat) :
  forall maxSize (q : Q) r q',
    0 < bufferSize (d_ptr q) < 2 ^ 32 ->
    0 <= ZlibPrivate.avail_in (ZlibPrivate.strm q)
      <= len (ZlibPrivate.next_in (ZlibPrivate.strm q)) ->
    ZlibPrivate.writeLoop fuel maxSize q = Returns (r, q') ->
    r <> -1 ->
    ZlibPrivate.avail_in (ZlibPrivate.strm q') = 0.
Proof.
  induction fuel as [| fuel IH]; intros maxSize q r q' Hb Ha; [discriminate |].
  cbn [ZlibPrivate.writeLoop]. unfold ZlibPrivate.deflate_call.
  assert (Er : to_uInt (bufferSize (d_ptr q)) = bufferSize (d_ptr q))
    by (unfold to_uInt; apply Z.mod_small; lia).
  rewrite Er.
  pose proof (Hz (ZlibPrivate.strm_state (ZlibPrivate.strm q))
                (take (ZlibPrivate.avail_in (ZlibPrivate.strm q))
                      (ZlibPrivate.next_in (ZlibPrivate.strm q)))
                (bufferSize (d_ptr q)) (proj1 Hb)) as (Hc & Hp & Hall).
  assert (Hlen : List.length (take (ZlibPrivate.avail_in (ZlibPrivate.strm q))
                                   (ZlibPrivate.next_in (ZlibPrivate.strm q)))
                 = Z.to_nat (ZlibPrivate.avail_in (ZlibPrivate.strm q)))
    by (unfold take, len in *; rewrite length_firstn; lia).
  rewrite Hlen in Hc, Hall.
  destruct (deflate _ _ _ _) as [st st']. cbn [fst snd] in Hc, Hp, Hall.
  destruct (status st =? Z_OK) eqn:Eok; cbn [negb];
    [| intros [= <- _] Hr; contradiction].
  apply Z.eqb_eq in Eok.
  match goal with
  | |- context [writeBytes fuel ?mem ?n ?q1] =>
    destruct (writeBytes fuel mem n q1) as [[[|] q2] | |] eqn:Ew; try discriminate;
      [pose proof (writeBytes_derived fuel mem n q1 q2 true Ew) as (Hd & _ & Hbs)
      | intros [= <- _] Hr; contradiction]
  end.
  unfold ZlibPrivate.strm in *. rewrite Hd. cbn.
  cbn in Hbs.
  destruct (bufferSize (d_ptr q) - len (produced st) =? 0) eqn:E0.
  - intros Hw Hr. apply (IH maxSize q2 r q'); [rewrite Hbs; exact Hb | | exact Hw | exact Hr].
    rewrite Hd. cbn. unfold len in *. rewrite length_skipn. lia.
  - apply Z.eqb_neq in E0. intros [= _ <-] _. rewrite Hd. cbn.
    specialize (Hall Eok). lia.
Qed.

(** X22: The assertion at the end of the zlib writeData holds for a zlib that
    keeps its contract: when writeData does not return -1, zlib has taken
    all of the [avail_in] bytes it was handed, provided the caller's data
    holds that many bytes. *)
Theorem zlib_write_takes_all_input (fuel : nat) (data : list byte) (maxSize : Z)
    (q q' : Q) (r : Z) :
  deflate_takes_all_when_room_left ->
  0 < bufferSize (d_ptr q) < 2 ^ 32 ->
  to_uInt maxSize <= len data ->
  ZlibPrivate.writeData fuel data maxSize q = Returns (r, q') ->
  r <> -1 ->
  ZlibPrivate.avail_in (ZlibPrivate.strm q') = 0.
Proof.
  intros Hz Hb Hd. unfold ZlibPrivate.writeData.
  apply (zlib_writeLoop_takes_all Hz); [exact Hb |].
  cbn. unfold to_uInt in *. pose proof (Z.mod_pos_bound maxSize (2 ^ 32)). lia.
Qed.

End WriteAssertion.

Section FlushAndCloseReturn.
Context {Dev : Type} {dev_ops : QIODevice Dev} {zlib : ZlibApi} {zstd : ZstdApi}
        {build : BuildConfig}.

Lemma zlib_flushLoop_ends (Hdev : device_makes_progress)
    (pending : internal_state -> nat)
    (Hz : forall (st : internal_state) (room flushMode : Z),
        0 < room ->
        len (produced (fst (deflate st [] room flushMode))) <= room
        /\ ((flushMode = Z_FINISH
             /\ status (fst (deflate st [] room flushMode)) <> Z_STREAM_END)
            \/ (flushMode <> Z_FINISH
                /\ len (produced (fst (deflate st [] room flushMode))) = room)
            -> (pending (snd (deflate st [] room flushMode)) < pending st)%nat))
    (k : nat) :
  forall (fuel : nat) (flushMode : Z) (q : QtIOCompressor Dev ZlibPrivate.Members),
    0 < bufferSize (d_ptr q) < 2 ^ 31 ->
    ZlibPrivate.next_in (ZlibPrivate.strm q) = [] ->
    (pending (ZlibPrivate.strm_state (ZlibPrivate.strm q)) <= k)%nat ->
    (k + Z.to_nat (bufferSize (d_ptr q)) + 2 <= fuel)%nat ->
    exists q', ZlibPrivate.flushLoop fuel flushMode q = Returns q'.
Proof.
  induction k as [| k IH]; intros fuel flushMode q Hb Hin Hk Hf;
    (destruct fuel as [| fuel]; [lia |]); cbn [ZlibPrivate.flushLoop];
    unfold ZlibPrivate.deflate_call;
    (assert (Er : to_uInt (bufferSize (d_ptr q)) = bufferSize (d_ptr q))
      by (unfold to_uInt; apply Z.mod_small; lia)); rewrite Er;
    rewrite Hin; unfold take; rewrite firstn_nil;
    pose proof (Hz (ZlibPrivate.strm_state (ZlibPrivate.strm q))
                  (bufferSize (d_ptr q)) flushMode (proj1 Hb)) as (Hp & Hless);
    destruct (deflate _ _ _ _) as [r st']; cbn [fst snd] in Hp, Hless;
    (destruct (negb (status r =? Z_OK) && negb (status r =? Z_STREAM_END));
     [eauto |]);
    cbn;
    (assert (Eo : to_uInt (bufferSize (d_ptr q) - (bufferSize (d_ptr q) - len (produced r)))
                  = len (produced r))
      by (unfold to_uInt, len in *; rewrite Z.mod_small; lia)); rewrite Eo;
    match goal with
    | |- context [writeBytes fuel ?mem ?n ?q1] =>
      destruct (writeBytes_returns Hdev fuel mem n q1) as (ok & q2 & Ew);
        [unfold len in *; lia |];
        pose proof (writeBytes_derived fuel mem n q1 q2 ok Ew) as (Hd & _ & Hbs);
        rewrite Ew
    end;
    (destruct ok; [| eauto]);
    unfold ZlibPrivate.strm; rewrite Hd; cbn;
    match goal with
    | |- context [if ?c then _ else _] => destruct c eqn:Ec; [| eauto]
    end;
    (assert (Hlt : (pending st' < pending (ZlibPrivate.strm_state (ZlibPrivate.strm q)))%nat)
      by (apply Hless;
          apply orb_true_iff in Ec; destruct Ec as [Ec | Ec];
          apply andb_true_iff in Ec; destruct Ec as [E1 E2];
          [ left; split;
            [apply Z.eqb_eq in E1; exact E1
            | apply negb_true_iff in E2; apply Z.eqb_neq in E2; exact E2]
          | right; split;
            [apply negb_true_iff in E1; apply Z.eqb_neq in E1; exact E1
            | apply Z.eqb_eq in E2; lia] ])).
  - exfalso. lia.
  - apply IH.
    + rewrite Hbs; cbn; exact Hb.
    + unfold ZlibPrivate.strm; rewrite Hd; cbn. apply skipn_nil.
    + unfold ZlibPrivate.strm; rewrite Hd; cbn. lia.
    + rewrite Hbs; cbn. lia.
Qed.

Lemma zstd_flushLoop_ends (Hdev : device_makes_progress)
    (pending : ZSTD_CStream -> nat)
    (Hz : forall (cs : ZSTD_CStream) (room : Z) (flushMode : ZSTD_EndDirective),
        0 < room ->
        len (produced (fst (ZSTD_compressStream2 cs [] room flushMode))) <= room
        /\ (status (fst (ZSTD_compressStream2 cs [] room flushMode)) <> 0 ->
            (pending (snd (ZSTD_compressStream2 cs [] room flushMode)) < pending cs)%nat))
    (k : nat) :
  forall (fuel : nat) (flushMode : ZSTD_EndDirective)
         (q : QtIOCompressor Dev ZstdPrivate.Members) (cs : ZSTD_CStream),
    0 < bufferSize (d_ptr q) < 2 ^ 31 ->
    ZstdPrivate.zstdCStream (derived (d_ptr q)) = Some cs ->
    (pending cs <= k)%nat ->
    (k + Z.to_nat (bufferSize (d_ptr q)) + 2 <= fuel)%nat ->
    exists q', ZstdPrivate.flushLoop fuel flushMode q = Returns q'.
Proof.
  induction k as [| k IH]; intros fuel flushMode q cs Hb Hcs Hk Hf;
    (destruct fuel as [| fuel]; [lia |]); cbn [ZstdPrivate.flushLoop];
    unfold ZstdPrivate.compress_call; rewrite Hcs;
    (assert (Er : to_size_t (bufferSize (d_ptr q)) = bufferSize (d_ptr q))
      by (unfold to_size_t; apply Z.mod_small; lia)); rewrite Er;
    pose proof (Hz cs (bufferSize (d_ptr q)) flushMode (proj1 Hb)) as (Hp & Hless);
    destruct (ZSTD_compressStream2 _ _ _ _) as [r cs']; cbn [fst snd] in Hp, Hless;
    (destruct (ZSTD_isError (status r)); [eauto |]);
    match goal with
    | |- context [writeBytes fuel ?mem ?n ?q1] =>
      destruct (writeBytes_returns Hdev fuel mem n q1) as (ok & q2 & Ew);
        [unfold len in *; lia |];
        pose proof (writeBytes_derived fuel mem n q1 q2 ok Ew) as (Hd & _ & Hbs);
        rewrite Ew
    end;
    (destruct ok; [| eauto]);
    (destruct (negb (status r =? 0)) eqn:Ec; [| eauto]);
    apply negb_true_iff in Ec; apply Z.eqb_neq in Ec; specialize (Hless Ec).
  - exfalso. lia.
  - apply (IH fuel flushMode q2 cs').
    + rewrite Hbs; cbn; exact Hb.
    + rewrite Hd; reflexivity.
    + lia.
    + rewrite Hbs; cbn. lia.
Qed.

(** X23: flush returns when it is given enough fuel, over a device that accepts
    something of every write and codecs whose flushing makes progress, with
    a scratch buffer of positive [int] size and, for zstd, the compressing
    stream created. *)
Theorem flush_returns (Spec : FormatSpec) (q : QtIOCompressor Dev (Members_of Spec)) :
  device_makes_progress ->
  deflate_flush_makes_progress ->
  compress_flush_makes_progress ->
  0 < bufferSize (d_ptr q) < 2 ^ 31 ->
  write_stream_ready Spec q ->
  exists (fuel : nat) (q' : QtIOCompressor Dev (Members_of Spec)),
    flush fuel q = Returns q'.
Proof.
  intros Hdev [pz Hz] [ps Hs] Hb Hready. unfold flush.
  destruct (negb (isOpen q) || has_flag (openMode q) ReadOnly); [exists O; eauto |].
  destruct Spec as [level | level]; cbn [Members_of write_stream_ready] in *;
    cbn [Private.flush backend_of ZlibPrivate.zlib_backend ZstdPrivate.zstd_backend].
  - unfold ZlibPrivate.flush, ZlibPrivate.flushZlib.
    match goal with
    | |- exists fuel q', ZlibPrivate.flushLoop fuel ?m ?q1 = _ =>
      destruct (zlib_flushLoop_ends Hdev pz Hz
                  (pz (ZlibPrivate.strm_state (ZlibPrivate.strm q1)))
                  (pz (ZlibPrivate.strm_state (ZlibPrivate.strm q1))
                   + Z.to_nat (bufferSize (d_ptr q1)) + 2) m q1) as (q' & Eq)
    end; [exact Hb | reflexivity | lia | lia |].
    eauto.
  - unfold ZstdPrivate.flush, ZstdPrivate.flushZstd.
    destruct WITH_XC_ZSTD; [| exists O; eauto].
    destruct (ZstdPrivate.zstdCStream (derived (d_ptr q))) as [cs |] eqn:Ecs;
      [| contradiction].
    destruct (zstd_flushLoop_ends Hdev ps Hs (ps cs)
                (ps cs + Z.to_nat (bufferSize (d_ptr q)) + 2) ZSTD_e_flush q cs)
      as (q' & Eq); [exact Hb | exact Ecs | lia | lia |].
    eauto.
Qed.

(** X24: close returns when it is given enough fuel, over a device that
    accepts something of every write and codecs whose flushing makes
    progress, with a scratch buffer of positive [int] size; the compressing
    stream has to exist only for a zstd write session.  The compressor is
    closed afterwards. *)
Theorem close_returns (Spec : FormatSpec) (q : QtIOCompressor Dev (Members_of Spec)) :
  device_makes_progress ->
  deflate_flush_makes_progress ->
  compress_flush_makes_progress ->
  0 < bufferSize (d_ptr q) < 2 ^ 31 ->
  (has_flag (openMode q) ReadOnly = false -> write_stream_ready Spec q) ->
  exists (fuel : nat) (q' : QtIOCompressor Dev (Members_of Spec)),
    close fuel q = Returns q' /\ isOpen q' = false.
Proof.
  intros Hdev [pz Hz] [ps Hs] Hb Hready.
  assert (Hfin : exists fuel q1,
             Private.finalize fuel (has_flag (openMode q) ReadOnly) q = Returns q1).
  { destruct (has_flag (openMode q) ReadOnly) eqn:Er.
    - exists O.
      destruct Spec as [level | level]; cbn [Members_of] in *;
        cbn [Private.finalize backend_of ZlibPrivate.zlib_backend ZstdPrivate.zstd_backend].
      + unfold ZlibPrivate.finalize. eauto.
      + unfold ZstdPrivate.finalize. destruct WITH_XC_ZSTD; cbn [bind]; eauto.
    - specialize (Hready eq_refl).
      destruct Spec as [level | level]; cbn [Members_of write_stream_ready] in *;
        cbn [Private.finalize backend_of ZlibPrivate.zlib_backend ZstdPrivate.zstd_backend].
      + unfold ZlibPrivate.finalize.
        destruct (State_eqb (state (d_ptr q)) BytesWritten); [| exists O; eauto].
        unfold ZlibPrivate.flushZlib.
        match goal with
        | |- exists fuel q1, bind (ZlibPrivate.flushLoop fuel ?m ?q0) _ = _ =>
          destruct (zlib_flushLoop_ends Hdev pz Hz
                      (pz (ZlibPrivate.strm_state (ZlibPrivate.strm q0)))
                      (pz (ZlibPrivate.strm_state (ZlibPrivate.strm q0))
                       + Z.to_nat (bufferSize (d_ptr q0)) + 2) m q0) as (q' & Eq);
            [exact Hb | reflexivity | lia | lia |];
            exists (pz (ZlibPrivate.strm_state (ZlibPrivate.strm q0))
                    + Z.to_nat (bufferSize (d_ptr q0)) + 2)%nat;
            rewrite Eq
        end.
        cbn [bind]. eauto.
      + unfold ZstdPrivate.finalize.
        destruct WITH_XC_ZSTD; [| exists O; eauto].
        destruct (State_eqb (state (d_ptr q)) BytesWritten);
          [| exists O; cbn [bind]; eauto].
        unfold ZstdPrivate.flushZstd.
        destruct (ZstdPrivate.zstdCStream (derived (d_ptr q))) as [cs |] eqn:Ecs;
          [| contradiction].
        destruct (zstd_flushLoop_ends Hdev ps Hs (ps cs)
                    (ps cs + Z.to_nat (bufferSize (d_ptr (set_state NoBytesWritten q))) + 2)
                    ZSTD_e_end (set_state NoBytesWritten q) cs) as (q' & Eq);
          [exact Hb | exact Ecs | lia | lia |].
        exists (ps cs + Z.to_nat (bufferSize (d_ptr (set_state NoBytesWritten q))) + 2)%nat.
        destruct WITH_XC_ZSTD eqn:Ez.
        * rewrite Eq. cbn [bind]. eauto.
        * cbn [bind]. eauto. }
  destruct Hfin as (fuel & q1 & Hfin).
  unfold close. destruct (isOpen q) eqn:Eo; cbn [negb].
  - exists fuel. rewrite Hfin. cbn [bind]. eexists; split; [reflexivity |]. reflexivity.
  - exists O, q. split; [reflexivity | exact Eo].
Qed.

End FlushAndCloseReturn.

(** ** The statements above on the devices and codecs of the examples *)

Section ExtraEvaluations.
#[local] Existing Instance mem_device.
#[local] Existing Instance toy_zlib.
#[local] Existing Instance toy_zstd.

Lemma short_device_appends (k : Z) :
  0 < k -> device_appends (dev_ops := short_device k) md_out.
Proof.
  intros Hk m n dev Hn; cbn; unfold md_dev_write.
  destruct (has_flag (md_mode dev) WriteOnly); cbn; [| auto].
  destruct (0 <=? Z.min k n) eqn:E; cbn; [| auto].
  apply Z.leb_le in E. right. split; [lia | reflexivity].
Qed.

Lemma short_device_makes_progress (k : Z) :
  0 < k -> device_makes_progress (dev_ops := short_device k).
Proof.
  intros Hk m n dev; cbn; unfold md_dev_write.
  destruct (has_flag (md_mode dev) WriteOnly); cbn; [| auto].
  destruct (0 <=? Z.min k n) eqn:E; cbn; [| auto].
  apply Z.leb_le in E. right. lia.
Qed.

Lemma toy_decode_room (input : list byte) : forall room : nat,
  (List.length (snd (toy_decode input room)) <= room)%nat.
Proof.
  induction input as [| b rest IH]; intros room; simpl; [lia |].
  destruct (Byte.eqb b Byte.x00); [simpl; lia |].
  destruct (Byte.eqb b Byte.xff); [simpl; lia |].
  destruct room as [| room]; [simpl; lia |].
  specialize (IH room). destruct (toy_decode rest room) as [[s c] p]. simpl in *. lia.
Qed.

Lemma toy_inflate_stays_in_room : inflate_stays_in_room (zlib := toy_zlib).
Proof.
  intros st input room flushMode; cbn; unfold toy_inflate.
  pose proof (toy_decode_room input (Z.to_nat room)) as H.
  destruct (toy_decode input (Z.to_nat room)) as [[s c] p]. cbn in *.
  unfold len; lia.
Qed.

Lemma toy_decompress_stays_in_room : decompress_stays_in_room (zstd := toy_zstd).
Proof.
  intros ds input room; cbn; unfold toy_decompressStream.
  pose proof (toy_decode_room input (Z.to_nat room)) as H.
  destruct (toy_decode input (Z.to_nat room)) as [[s c] p]. cbn in *.
  unfold len; lia.
Qed.

(** open for writing over a closed device. *)
Lemma open_success_postcondition_witness :
  fst (open WriteOnly (QtIOCompressor_Gzip (mem NotOpen []) 6 8)) = true
  /\ openMode (gzip_writer 8) = WriteOnly
  /\ manageDevice (d_ptr (gzip_writer 8)) = true.
Proof.
  assert (H : fst (open WriteOnly (QtIOCompressor_Gzip (mem NotOpen []) 6 8)) = true)
    by (vm_compute; reflexivity).
  split; [exact H |].
  pose proof (open_success_postcondition (build := with_zstd) (GzipFormatSpec 6) WriteOnly
                (QtIOCompressor_Gzip (mem NotOpen []) 6 8) H) as P.
  destruct P as (_ & _ & Hmode & _ & Hman & _).
  split; [exact Hmode | exact Hman].
Defined.

(** open for reading of the zstd compressor of a build without zstd, over
    a closed device: the device is left open for reading. *)
Lemma failed_initialize_leaves_device_open_witness :
  fst (open (backend := zstd_off) ReadOnly (zstd_stub (mem NotOpen []))) = false
  /\ md_mode (device (d_ptr (snd (open (backend := zstd_off) ReadOnly
                                   (zstd_stub (mem NotOpen [])))))) = ReadOnly
  /\ close (backend := zstd_off) 0
       (snd (open (backend := zstd_off) ReadOnly (zstd_stub (mem NotOpen []))))
     = Returns (snd (open (backend := zstd_off) ReadOnly (zstd_stub (mem NotOpen [])))).
Proof.
  assert (H1 : isOpen (zstd_stub (mem NotOpen [])) = false) by (vm_compute; reflexivity).
  assert (H2 : has_flag ReadOnly ReadOnly = negb (has_flag ReadOnly WriteOnly))
    by (vm_compute; reflexivity).
  assert (H3 : dev_isOpen (device (d_ptr (zstd_stub (mem NotOpen [])))) = false)
    by (vm_compute; reflexivity).
  assert (H4 : fst (dev_open ReadOnly (device (d_ptr (zstd_stub (mem NotOpen []))))) = true)
    by (vm_compute; reflexivity).
  assert (H5 : fst (Private.initialize (Backend := zstd_off) (has_flag ReadOnly ReadOnly)
                      (set_device
                         (snd (dev_open ReadOnly (device (d_ptr (zstd_stub (mem NotOpen []))))))
                         (set_manageDevice true (zstd_stub (mem NotOpen []))))) = false)
    by (vm_compute; reflexivity).
  pose proof (failed_initialize_leaves_device_open (build := without_zstd) (ZstdFormatSpec 3)
                ReadOnly (zstd_stub (mem NotOpen [])) H1 H2 H3 H4 H5) as P.
  destruct P as (Hf & _ & Hd & _ & Hc).
  split; [exact Hf |]. split; [| exact (Hc O)].
  etransitivity; [exact (f_equal md_mode Hd) | reflexivity].
Defined.

(** Reopening the gzip compressor whose write session ended in Error. *)
Lemma zlib_open_resets_state_witness :
  state (d_ptr (after_close failed_writer (close 3 failed_writer))) = Error
  /\ state (d_ptr (snd (open WriteOnly (after_close failed_writer (close 3 failed_writer)))))
     = NoBytesWritten.
Proof.
  split; [vm_compute; reflexivity |].
  assert (H : fst (open WriteOnly (after_close failed_writer (close 3 failed_writer))) = true)
    by (vm_compute; reflexivity).
  exact (proj1 (zlib_open_resets_state WriteOnly
                  (after_close failed_writer (close 3 failed_writer)) H)).
Defined.


(** A zstd compressor asked for a buffer of 2 bytes gets the 4 bytes the
    codec of the examples recommends. *)
Lemma zstd_open_prepares_stream_witness :
  fst (open (backend := zstd_on) WriteOnly
         (QtIOCompressor_Zstd (build := with_zstd) (mem NotOpen []) 3 2)) = true
  /\ bufferSize (d_ptr (zstd_writer 2)) = 4
  /\ len (buffer (d_ptr (zstd_writer 2))) = 4.
Proof.
  assert (H : fst (open (backend := zstd_on) WriteOnly
                     (QtIOCompressor_Zstd (build := with_zstd) (mem NotOpen []) 3 2)) = true)
    by (vm_compute; reflexivity).
  split; [exact H |].
  pose proof (zstd_open_prepares_stream (build := with_zstd) WriteOnly
                (QtIOCompressor_Zstd (build := with_zstd) (mem NotOpen []) 3 2) H) as P.
  destruct P as (_ & _ & _ & Hb & Hl).
  split.
  - etransitivity; [exact Hb | reflexivity].
  - etransitivity; [exact Hl |]. etransitivity; [exact (f_equal (Z.max 0) Hb) | reflexivity].
Defined.

(** Closing the gzip writer at once leaves the device empty. *)
Lemma close_after_no_write_writes_nothing_witness :
  exists q' : QtIOCompressor MemDevice ZlibPrivate.Members,
    close 0 (gzip_writer 8) = Returns q'
    /\ device (d_ptr q') = {| md_mode := NotOpen; md_in := []; md_out := [] |}.
Proof.
  assert (H1 : isOpen (gzip_writer 8) = true) by (vm_compute; reflexivity).
  assert (H2 : has_flag (openMode (gzip_writer 8)) ReadOnly = false)
    by (vm_compute; reflexivity).
  assert (H3 : state (d_ptr (gzip_writer 8)) <> BytesWritten)
    by (vm_compute; discriminate).
  pose proof (close_after_no_write_writes_nothing (build := with_zstd) (GzipFormatSpec 6) 0
                (gzip_writer 8) H1 H2 H3) as P.
  destruct P as (q' & Hc & _ & Hd & _).
  exists q'. split; [exact Hc |]. etransitivity; [exact Hd | reflexivity].
Defined.

(** Closing the gzip reader. *)
Lemma close_of_read_session_witness :
  exists q' : QtIOCompressor MemDevice ZlibPrivate.Members,
    close 0 (gzip_reader 8 two_streams) = Returns q'
    /\ state (d_ptr q') = NotReadFirstByte.
Proof.
  assert (H1 : isOpen (gzip_reader 8 two_streams) = true) by (vm_compute; reflexivity).
  assert (H2 : has_flag (openMode (gzip_reader 8 two_streams)) ReadOnly = true)
    by (vm_compute; reflexivity).
  pose proof (close_of_read_session (build := with_zstd) (GzipFormatSpec 6) 0
                (gzip_reader 8 two_streams) eq_refl H1 H2) as P.
  destruct P as (q' & Hc & _ & _ & Hs).
  exists q'. split; [exact Hc | exact Hs].
Defined.

(** Five bytes through a device that takes two at a time. *)
Lemma writeBytes_delivers_in_order_witness :
  exists (ok : bool) (q' : QtIOCompressor MemDevice ZlibPrivate.Members),
    writeBytes (dev_ops := short_device 2) 6
      [Byte.x41; Byte.x42; Byte.x43; Byte.x44; Byte.x45] 5 (gzip_writer 8)
    = Returns (ok, q')
    /\ if ok
       then md_out (device (d_ptr q'))
            = md_out (device (d_ptr (gzip_writer 8)))
              ++ take 5 [Byte.x41; Byte.x42; Byte.x43; Byte.x44; Byte.x45]
            /\ state (d_ptr q') = BytesWritten
       else (exists k : Z,
                0 <= k <= 5
                /\ md_out (device (d_ptr q'))
                   = md_out (device (d_ptr (gzip_writer 8)))
                     ++ take k [Byte.x41; Byte.x42; Byte.x43; Byte.x44; Byte.x45])
            /\ errorString q'
               = ("Error writing to underlying device: "
                    ++ dev_errorString (QIODevice := short_device 2)
                         (device (d_ptr q')))%string.
Proof.
  assert (H1 : device_appends (dev_ops := short_device 2) md_out)
    by (apply short_device_appends; lia).
  assert (H2 : device_makes_progress (dev_ops := short_device 2))
    by (apply short_device_makes_progress; lia).
  assert (H3 : 0 <= 5) by lia.
  assert (H4 : (Z.to_nat 5 < 6)%nat) by (simpl; lia).
  exact (writeBytes_delivers_in_order (dev_ops := short_device 2) md_out 6
           [Byte.x41; Byte.x42; Byte.x43; Byte.x44; Byte.x45] 5 (gzip_writer 8)
           H1 H2 H3 H4).
Defined.

(** A write of three bytes through the gzip compressor; and the same
    write when the device is no longer open for writing and refuses it. *)
Lemma write_outcome_and_state_witness :
  (writeData 3 [Byte.x41; Byte.x42; Byte.x43] 3 (gzip_writer 8)
   = Returns (3, after_write (gzip_writer 8)
                   (writeData 3 [Byte.x41; Byte.x42; Byte.x43] 3 (gzip_writer 8)))
   /\ state (d_ptr (after_write (gzip_writer 8)
                      (writeData 3 [Byte.x41; Byte.x42; Byte.x43] 3 (gzip_writer 8))))
      = BytesWritten)
  /\ (writeData 3 [Byte.x41; Byte.x42; Byte.x43] 3
        (set_device (mem ReadOnly []) (gzip_writer 8))
      = Returns (-1, after_write (set_device (mem ReadOnly []) (gzip_writer 8))
                       (writeData 3 [Byte.x41; Byte.x42; Byte.x43] 3
                          (set_device (mem ReadOnly []) (gzip_writer 8))))
      /\ state (d_ptr (after_write (set_device (mem ReadOnly []) (gzip_writer 8))
                         (writeData 3 [Byte.x41; Byte.x42; Byte.x43] 3
                            (set_device (mem ReadOnly []) (gzip_writer 8)))))
         <> Error
      /\ errorString (after_write (set_device (mem ReadOnly []) (gzip_writer 8))
                        (writeData 3 [Byte.x41; Byte.x42; Byte.x43] 3
                           (set_device (mem ReadOnly []) (gzip_writer 8))))
         = "Error writing to underlying device: Unknown error"%string).
Proof.
  assert (H1 : 1 <= 3) by lia.
  split.
  - assert (E : writeData 3 [Byte.x41; Byte.x42; Byte.x43] 3 (gzip_writer 8)
                = Returns (3, after_write (gzip_writer 8)
                                (writeData 3 [Byte.x41; Byte.x42; Byte.x43] 3
                                   (gzip_writer 8))))
      by (vm_compute; reflexivity).
    split; [exact E |].
    pose proof (write_outcome_and_state (build := with_zstd) (GzipFormatSpec 6) 3
                  [Byte.x41; Byte.x42; Byte.x43] 3 (gzip_writer 8)
                  (after_write (gzip_writer 8)
                     (writeData 3 [Byte.x41; Byte.x42; Byte.x43] 3 (gzip_writer 8)))
                  3 eq_refl H1 E) as P.
    destruct P as [[_ Hs] | [[Hr _] | [Hr _]]];
      [exact Hs | discriminate Hr | discriminate Hr].
  - assert (E : writeData 3 [Byte.x41; Byte.x42; Byte.x43] 3
                  (set_device (mem ReadOnly []) (gzip_writer 8))
                = Returns (-1, after_write (set_device (mem ReadOnly []) (gzip_writer 8))
                                 (writeData 3 [Byte.x41; Byte.x42; Byte.x43] 3
                                    (set_device (mem ReadOnly []) (gzip_writer 8)))))
      by (vm_compute; reflexivity).
    split; [exact E |].
    pose proof (write_outcome_and_state (build := with_zstd) (GzipFormatSpec 6) 3
                  [Byte.x41; Byte.x42; Byte.x43] 3
                  (set_device (mem ReadOnly []) (gzip_writer 8))
                  (after_write (set_device (mem ReadOnly []) (gzip_writer 8))
                     (writeData 3 [Byte.x41; Byte.x42; Byte.x43] 3
                        (set_device (mem ReadOnly []) (gzip_writer 8))))
                  (-1) eq_refl H1 E) as P.
    destruct P as [[Hr _] | [[_ Hs] | (_ & He & Hne & _)]].
    + discriminate Hr.
    + vm_compute in Hs. discriminate Hs.
    + split; [exact Hne |].
      etransitivity; [exact He | vm_compute; reflexivity].
Defined.

(** A flush of the gzip writer before anything was written. *)
Lemma flush_outcome_and_state_witness :
  flush 3 (gzip_writer 8)
  = Returns (after_close (gzip_writer 8) (flush 3 (gzip_writer 8)))
  /\ (state (d_ptr (after_close (gzip_writer 8) (flush 3 (gzip_writer 8)))) = BytesWritten
      \/ state (d_ptr (after_close (gzip_writer 8) (flush 3 (gzip_writer 8)))) = Error
      \/ errorString (after_close (gzip_writer 8) (flush 3 (gzip_writer 8)))
         = ("Error writing to underlying device: "
              ++ dev_errorString
                   (device (d_ptr (after_close (gzip_writer 8)
                                     (flush 3 (gzip_writer 8))))))%string).
Proof.
  assert (E : flush 3 (gzip_writer 8)
              = Returns (after_close (gzip_writer 8) (flush 3 (gzip_writer 8))))
    by (vm_compute; reflexivity).
  split; [exact E |].
  assert (H1 : isOpen (gzip_writer 8) = true) by (vm_compute; reflexivity).
  assert (H2 : has_flag (openMode (gzip_writer 8)) ReadOnly = false)
    by (vm_compute; reflexivity).
  exact (flush_outcome_and_state (build := with_zstd) (GzipFormatSpec 6) 3 (gzip_writer 8)
           (after_close (gzip_writer 8) (flush 3 (gzip_writer 8))) eq_refl H1 H2 E).
Defined.

(** A gzip reader whose device is no longer open for reading. *)
Lemma read_error_of_the_device_witness :
  exists q' : QtIOCompressor MemDevice ZlibPrivate.Members,
    readData 1 64 (set_device (mem WriteOnly []) (gzip_reader 8 [])) = Returns (-1, [], q')
    /\ state (d_ptr q') = Error.
Proof.
  assert (H1 : state (d_ptr (set_device (mem WriteOnly []) (gzip_reader 8 [])))
               <> EndOfStream) by (vm_compute; discriminate).
  assert (H2 : state (d_ptr (set_device (mem WriteOnly []) (gzip_reader 8 []))) <> Error)
    by (vm_compute; discriminate).
  assert (H3 : input_exhausted (GzipFormatSpec 6)
                 (set_device (mem WriteOnly []) (gzip_reader 8 [])))
    by (vm_compute; reflexivity).
  assert (H4 : fst (dev_read
                      (bufferSize (d_ptr (set_device (mem WriteOnly []) (gzip_reader 8 []))))
                      (device (d_ptr (set_device (mem WriteOnly []) (gzip_reader 8 [])))))
               = None) by (vm_compute; reflexivity).
  pose proof (read_error_of_the_device (build := with_zstd) (GzipFormatSpec 6) 0 64
                (set_device (mem WriteOnly []) (gzip_reader 8 [])) eq_refl H1 H2 H3 H4) as P.
  destruct P as (q' & Hr & Hs & _).
  exists q'. split; [exact Hr | exact Hs].
Defined.

(** A gzip reader over an empty device. *)
Lemma read_of_empty_device_witness :
  exists q' : QtIOCompressor MemDevice ZlibPrivate.Members,
    readData 1 64 (gzip_reader 8 []) = Returns (0, [], q')
    /\ state (d_ptr q') = NotReadFirstByte.
Proof.
  assert (H1 : state (d_ptr (gzip_reader 8 [])) <> EndOfStream)
    by (vm_compute; discriminate).
  assert (H2 : state (d_ptr (gzip_reader 8 [])) <> Error) by (vm_compute; discriminate).
  assert (H3 : state (d_ptr (gzip_reader 8 [])) <> InStream) by (vm_compute; discriminate).
  assert (H4 : input_exhausted (GzipFormatSpec 6) (gzip_reader 8 []))
    by (vm_compute; reflexivity).
  assert (H5 : fst (dev_read (bufferSize (d_ptr (gzip_reader 8 [])))
                      (device (d_ptr (gzip_reader 8 [])))) = Some [])
    by (vm_compute; reflexivity).
  pose proof (read_of_empty_device (build := with_zstd) (GzipFormatSpec 6) 0 64
                (gzip_reader 8 []) eq_refl H1 H2 H3 H4 H5) as P.
  destruct P as (q' & Hr & Hs & _).
  exists q'. split; [exact Hr |]. etransitivity; [exact Hs | vm_compute; reflexivity].
Defined.

(** A read of up to 64 bytes from the two streams. *)
Lemma read_stays_in_the_callers_buffer_witness :
  readData 3 64 (gzip_reader 8 two_streams)
  = Returns (4, [Byte.x41; Byte.x42; Byte.x43; Byte.x44],
             after_read (gzip_reader 8 two_streams)
               (readData 3 64 (gzip_reader 8 two_streams)))
  /\ len [Byte.x41; Byte.x42; Byte.x43; Byte.x44] <= 64.
Proof.
  assert (E : readData 3 64 (gzip_reader 8 two_streams)
              = Returns (4, [Byte.x41; Byte.x42; Byte.x43; Byte.x44],
                         after_read (gzip_reader 8 two_streams)
                           (readData 3 64 (gzip_reader 8 two_streams))))
    by (vm_compute; reflexivity).
  split; [exact E |].
  assert (H1 : 0 <= 64 < 2 ^ 32) by lia.
  exact (proj1 (read_stays_in_the_callers_buffer (build := with_zstd) (GzipFormatSpec 6) 3 64
                  (gzip_reader 8 two_streams)
                  (after_read (gzip_reader 8 two_streams)
                     (readData 3 64 (gzip_reader 8 two_streams)))
                  4 [Byte.x41; Byte.x42; Byte.x43; Byte.x44]
                  toy_inflate_stays_in_room toy_decompress_stays_in_room H1 E)).
Defined.

(** The gzip reader in the middle of a stream: with nothing buffered by the
    base class the answer is 1, with 2^31 - 1 bytes buffered it is 0. *)
Lemma bytesAvailable_answers_witness :
  bytesAvailable (fun _ : MemDevice => 0) 0
    (after_read (gzip_reader 8 [Byte.x41; Byte.x42; Byte.x43])
                (readData 2 64 (gzip_reader 8 [Byte.x41; Byte.x42; Byte.x43]))) = 1
  /\ bytesAvailable (fun _ : MemDevice => 0) (2 ^ 31 - 1)
       (after_read (gzip_reader 8 [Byte.x41; Byte.x42; Byte.x43])
                   (readData 2 64 (gzip_reader 8 [Byte.x41; Byte.x42; Byte.x43]))) = 0.
Proof.
  pose (q := after_read (gzip_reader 8 [Byte.x41; Byte.x42; Byte.x43])
                        (readData 2 64 (gzip_reader 8 [Byte.x41; Byte.x42; Byte.x43]))).
  assert (H1 : has_flag (openMode q) ReadOnly = true) by (vm_compute; reflexivity).
  assert (H2 : state (d_ptr q) = InStream) by (vm_compute; reflexivity).
  pose proof (bytesAvailable_answers (fun _ : MemDevice => 0) 0 q) as P.
  pose proof (bytesAvailable_answers (fun _ : MemDevice => 0) (2 ^ 31 - 1) q) as P'.
  destruct P as (_ & _ & P & _). destruct P' as (_ & _ & _ & _ & P').
  split; [apply (P H1 H2); lia | exact (P' H1 H2 eq_refl)].
Defined.

(** A device that reports 2 GiB before the first byte is read. *)
Lemma bytesAvailable_truncates_the_device_count_witness :
  bytesAvailable (fun _ : MemDevice => 2 ^ 31) 0 (gzip_reader 8 two_streams) = 0.
Proof.
  assert (H1 : has_flag (openMode (gzip_reader 8 two_streams)) ReadOnly = true)
    by (vm_compute; reflexivity).
  assert (H2 : state (d_ptr (gzip_reader 8 two_streams)) = NotReadFirstByte)
    by (vm_compute; reflexivity).
  pose proof (bytesAvailable_truncates_the_device_count (fun _ : MemDevice => 2 ^ 31) 0
                (gzip_reader 8 two_streams) H1 H2) as P.
  destruct P as (_ & P & _). apply P. lia.
Defined.

(** The gzip compressor over a zlib 1.1.4. *)
Lemma gzip_support_is_checked_when_reading_only_witness :
  fst (ZlibPrivate.initialize (zlib := old_zlib) true
         (QtIOCompressor_Gzip (zlib := old_zlib) (mem NotOpen []) 6 8)) = false
  /\ fst (ZlibPrivate.initialize (zlib := old_zlib) false
            (QtIOCompressor_Gzip (zlib := old_zlib) (mem NotOpen []) 6 8)) = true.
Proof.
  pose proof (gzip_support_is_checked_when_reading_only (zlib := old_zlib)
                (QtIOCompressor_Gzip (zlib := old_zlib) (mem NotOpen []) 6 8)
                eq_refl eq_refl) as P.
  destruct P as [(Hr & _) (Hw & _)].
  split; [exact Hr | etransitivity; [exact Hw | reflexivity]].
Defined.

(** The zstd reader over the two streams: the first frame ends inside the
    buffer and the second stream goes back to the device.  With a scratch
    buffer of two bytes the frame ends in the third turn of the loop, and
    the read returns the four bytes of all three turns. *)
Lemma zstd_end_of_frame_pushes_back_the_rest_witness :
  (exists q' : QtIOCompressor MemDevice ZstdPrivate.Members,
      ZstdPrivate.readData (build := with_zstd) 1 64 (zstd_reader 8 two_streams)
      = Returns (4, [Byte.x41; Byte.x42; Byte.x43; Byte.x44], q')
      /\ state (d_ptr q') = EndOfStream
      /\ md_in (device (d_ptr q')) = [Byte.x45; Byte.x00])
  /\ (exists (n : Z) (q' : QtIOCompressor MemDevice ZstdPrivate.Members),
        ZstdPrivate.readData (build := with_zstd) 3 64 (zstd_reader 2 two_streams)
        = Returns (n, [Byte.x41; Byte.x42; Byte.x43; Byte.x44], q')
        /\ state (d_ptr q') = EndOfStream
        /\ n = 4
        /\ (forall q1 : QtIOCompressor MemDevice ZstdPrivate.Members,
              ZstdPrivate.fill [] (zstd_reader 2 two_streams) = inr q1 ->
              exists st : Z,
                st <> 0
                /\ match ZstdPrivate.decompress_call (to_size_t 64) [] q1 with
                   | Returns (s, _, _) => s = st
                   | _ => False
                   end)).
Proof.
  split; [| 
    pose (r := ZstdPrivate.readData (build := with_zstd) 3 64 (zstd_reader 2 two_streams));
    pose (qe := match r with
                | Returns (_, _, x) => x
                | _ => zstd_reader 2 two_streams
                end);
    assert (O : match r with
                | Returns (n, d, _) => Some (n, d)
                | _ => None
                end = Some (4, [Byte.x41; Byte.x42; Byte.x43; Byte.x44]))
      by (unfold r; vm_compute; reflexivity);
    assert (Hr : exists n : Z,
               r = Returns (n, [Byte.x41; Byte.x42; Byte.x43; Byte.x44], qe))
      by (unfold qe; destruct r as [[[n d] x] | |];
          [injection O as -> ->; eexists; reflexivity | discriminate O | discriminate O]);
    destruct Hr as [n Hr];
    assert (Hs : state (d_ptr (zstd_reader 2 two_streams)) <> EndOfStream)
      by (vm_compute; discriminate);
    assert (He : state (d_ptr qe) = EndOfStream)
      by (unfold qe, r; vm_compute; reflexivity);
    pose proof (proj2 (zstd_end_of_frame_pushes_back_the_rest (build := with_zstd)) 3%nat 64 n
                  [Byte.x41; Byte.x42; Byte.x43; Byte.x44] (zstd_reader 2 two_streams) qe
                  eq_refl Hs Hr He) as P;
    destruct P as [Hn _];
    exists n, qe; split; [exact Hr |]; split; [exact He |]; split; [exact Hn |];
    intros q1 H1;
    assert (O1 : match ZstdPrivate.fill [] (zstd_reader 2 two_streams) with
                 | inr x => match ZstdPrivate.decompress_call (to_size_t 64) [] x with
                            | Returns (s, _, _) => Some s
                            | _ => None
                            end
                 | inl _ => None
                 end = Some 1) by (vm_compute; reflexivity);
    rewrite H1 in O1;
    exists 1; split; [discriminate |];
    destruct (ZstdPrivate.decompress_call (to_size_t 64) [] q1) as [[[s d] x] | |];
      [injection O1 as ->; reflexivity | discriminate O1 | discriminate O1]].
  pose (q1 := match ZstdPrivate.fill [] (zstd_reader 8 two_streams) with
              | inr x => x
              | inl _ => zstd_reader 8 two_streams
              end).
  pose (q2 := match ZstdPrivate.decompress_call (to_size_t 64) [] q1 with
              | Returns (_, _, x) => x
              | _ => q1
              end).
  assert (O1 : match ZstdPrivate.fill [] (zstd_reader 8 two_streams) with
               | inr _ => true
               | inl _ => false
               end = true) by (vm_compute; reflexivity).
  assert (H1 : ZstdPrivate.fill [] (zstd_reader 8 two_streams) = inr q1).
  { unfold q1. destruct (ZstdPrivate.fill [] (zstd_reader 8 two_streams));
      [discriminate O1 | reflexivity]. }
  assert (O2 : match ZstdPrivate.decompress_call (to_size_t 64) [] q1 with
               | Returns (st, d, _) => Some (st, d)
               | _ => None
               end = Some (0, [Byte.x41; Byte.x42; Byte.x43; Byte.x44]))
    by (unfold q1; vm_compute; reflexivity).
  assert (H2 : ZstdPrivate.decompress_call (to_size_t 64) [] q1
               = Returns (0, [Byte.x41; Byte.x42; Byte.x43; Byte.x44], q2)).
  { unfold q2. destruct (ZstdPrivate.decompress_call (to_size_t 64) [] q1)
      as [[[st d] x] | |]; [| discriminate O2 | discriminate O2].
    injection O2 as -> ->. reflexivity. }
  assert (H3 : ZstdPrivate.src (ZstdPrivate.inbuf q2) = ZstdPrivate.to_buffer)
    by (unfold q2, q1; vm_compute; reflexivity).
  assert (H4 : 0 <= ZstdPrivate.pos (ZstdPrivate.inbuf q2)
               <= ZstdPrivate.size (ZstdPrivate.inbuf q2))
    by (unfold q2, q1; vm_compute; split; discriminate).
  assert (H5 : ZstdPrivate.size (ZstdPrivate.inbuf q2) <= len (buffer (d_ptr q2)))
    by (unfold q2, q1; vm_compute; discriminate).
  pose proof (proj1 (zstd_end_of_frame_pushes_back_the_rest (build := with_zstd)) 0%nat
                (to_size_t 64) [] [Byte.x41; Byte.x42; Byte.x43; Byte.x44]
                (zstd_reader 8 two_streams) q1 q2 H1 H2 H3 H4 H5) as P.
  destruct P as (q' & Hr & _ & Hs & Hd).
  exists q'. split; [exact Hr |]. split; [exact Hs |].
  etransitivity; [exact (f_equal md_in Hd) | unfold q2, q1; vm_compute; reflexivity].
Defined.

(** The gzip reader over a stream that stops after "ABC": the three bytes
    are stored and the read returns 0. *)
Lemma zlib_buf_error_discards_stored_bytes_witness :
  read_outcome (readData 2 64 (gzip_reader 8 [Byte.x41; Byte.x42; Byte.x43]))
  = Returns (0, [Byte.x41; Byte.x42; Byte.x43], InStream, [], ""%string).
Proof.
  pose (q := ZlibPrivate.set_strm
               {| ZlibPrivate.next_in :=
                    ZlibPrivate.next_in
                      (ZlibPrivate.strm (gzip_reader 8 [Byte.x41; Byte.x42; Byte.x43]));
                  ZlibPrivate.avail_in :=
                    ZlibPrivate.avail_in
                      (ZlibPrivate.strm (gzip_reader 8 [Byte.x41; Byte.x42; Byte.x43]));
                  ZlibPrivate.avail_out := to_uInt 64;
                  ZlibPrivate.strm_state :=
                    ZlibPrivate.strm_state
                      (ZlibPrivate.strm (gzip_reader 8 [Byte.x41; Byte.x42; Byte.x43])) |}
               (gzip_reader 8 [Byte.x41; Byte.x42; Byte.x43])).
  pose (q1 := match ZlibPrivate.fill [] q with inr x => x | inl _ => q end).
  pose (q2 := snd (ZlibPrivate.inflate_call Z_SYNC_FLUSH [] q1)).
  pose (q3 := match ZlibPrivate.fill [Byte.x41; Byte.x42; Byte.x43] q2 with
              | inr x => x
              | inl _ => q2
              end).
  pose (q4 := snd (ZlibPrivate.inflate_call Z_SYNC_FLUSH [Byte.x41; Byte.x42; Byte.x43] q3)).
  assert (H1 : ZlibPrivate.fill [] q = inr q1) by (unfold q1, q; vm_compute; reflexivity).
  assert (H2 : ZlibPrivate.inflate_call Z_SYNC_FLUSH [] q1
               = (Z_OK, [Byte.x41; Byte.x42; Byte.x43], q2))
    by (unfold q2, q1, q; vm_compute; reflexivity).
  assert (H3 : ZlibPrivate.avail_out (ZlibPrivate.strm q2) <> 0)
    by (unfold q2, q1, q; vm_compute; discriminate).
  assert (H4 : ZlibPrivate.fill [Byte.x41; Byte.x42; Byte.x43] q2 = inr q3)
    by (unfold q3, q2, q1, q; vm_compute; reflexivity).
  assert (H5 : ZlibPrivate.inflate_call Z_SYNC_FLUSH [Byte.x41; Byte.x42; Byte.x43] q3
               = (Z_BUF_ERROR, [Byte.x41; Byte.x42; Byte.x43], q4))
    by (unfold q4, q3, q2, q1, q; vm_compute; reflexivity).
  pose proof (zlib_buf_error_discards_stored_bytes 0 64 [] [Byte.x41; Byte.x42; Byte.x43]
                [Byte.x41; Byte.x42; Byte.x43] q q1 q2 q3 q4 H1 H2 H3 H4 H5) as P.
  destruct P as [P _].
  assert (E : readData 2 64 (gzip_reader 8 [Byte.x41; Byte.x42; Byte.x43])
              = ZlibPrivate.readLoop 2 64 [] q) by reflexivity.
  rewrite E, P. unfold q4, q3, q2, q1, q. vm_compute. reflexivity.
Defined.

Lemma toy_deflate_takes_all : deflate_takes_all_when_room_left (zlib := toy_zlib).
Proof.
  intros st input room Hroom; cbn; unfold toy_deflate.
  destruct ((List.length input =? 0)%nat && _ && _); cbn.
  - repeat split; try lia. discriminate.
  - unfold len. rewrite length_firstn. repeat split; lia.
Qed.

Lemma toy_deflate_flush_makes_progress : deflate_flush_makes_progress (zlib := toy_zlib).
Proof.
  exists (fun _ => O). intros st room flushMode Hroom; cbn; unfold toy_deflate.
  assert (Hr : (0 <? Z.to_nat room)%nat = true) by (apply Nat.ltb_lt; lia).
  cbn [List.length Nat.min firstn Nat.eqb andb app]. rewrite Hr.
  destruct (flushMode =? Z_FINISH) eqn:Ef.
  - destruct (toy_rank flushMode <=? toy_rank st); cbn.
    + split; [unfold len; cbn; lia |].
      intros [[_ H] | [H _]]; [contradiction | apply Z.eqb_eq in Ef; contradiction].
    + split; [unfold len; cbn; lia |].
      intros [[_ H] | [H _]]; [contradiction | apply Z.eqb_eq in Ef; contradiction].
  - apply Z.eqb_neq in Ef.
    destruct (toy_rank flushMode <=? toy_rank st); cbn.
    + split; [unfold len; cbn; lia |].
      intros [[H _] | [_ H]]; [contradiction | unfold len in H; cbn in H; lia].
    + split; [unfold len; cbn; lia |].
      intros [[H _] | [_ H]]; [contradiction | unfold len in H; cbn in H; lia].
Qed.

Lemma toy_compress_flush_makes_progress : compress_flush_makes_progress (zstd := toy_zstd).
Proof.
  exists (fun _ => O). intros cs room flushMode Hroom; cbn; unfold toy_compressStream2.
  assert (Hr : (0 <? Z.to_nat room)%nat = true) by (apply Nat.ltb_lt; lia).
  cbn [List.length Nat.min firstn Nat.eqb andb app]. rewrite Hr.
  destruct flushMode; cbn; (split; [unfold len; cbn; lia | intros H; contradiction]).
Qed.

(** The write of three bytes through the gzip compressor leaves no input
    behind. *)
Lemma zlib_write_takes_all_input_witness :
  ZlibPrivate.writeData 3 [Byte.x41; Byte.x42; Byte.x43] 3 (gzip_writer 8)
  = Returns (3, after_write (gzip_writer 8)
                  (ZlibPrivate.writeData 3 [Byte.x41; Byte.x42; Byte.x43] 3 (gzip_writer 8)))
  /\ ZlibPrivate.avail_in
       (ZlibPrivate.strm
          (after_write (gzip_writer 8)
             (ZlibPrivate.writeData 3 [Byte.x41; Byte.x42; Byte.x43] 3 (gzip_writer 8))))
     = 0.
Proof.
  assert (E : ZlibPrivate.writeData 3 [Byte.x41; Byte.x42; Byte.x43] 3 (gzip_writer 8)
              = Returns (3, after_write (gzip_writer 8)
                              (ZlibPrivate.writeData 3 [Byte.x41; Byte.x42; Byte.x43] 3
                                 (gzip_writer 8))))
    by (vm_compute; reflexivity).
  split; [exact E |].
  assert (H1 : 0 < bufferSize (d_ptr (gzip_writer 8)) < 2 ^ 32)
    by (vm_compute; split; reflexivity).
  assert (H2 : to_uInt 3 <= len [Byte.x41; Byte.x42; Byte.x43])
    by (vm_compute; discriminate).
  assert (H3 : 3 <> -1) by discriminate.
  exact (zlib_write_takes_all_input 3 [Byte.x41; Byte.x42; Byte.x43] 3 (gzip_writer 8)
           (after_write (gzip_writer 8)
              (ZlibPrivate.writeData 3 [Byte.x41; Byte.x42; Byte.x43] 3 (gzip_writer 8)))
           3 toy_deflate_takes_all H1 H2 E H3).
Defined.

(** flush of the gzip writer. *)
Lemma flush_returns_witness :
  exists (fuel : nat) (q' : QtIOCompressor MemDevice ZlibPrivate.Members),
    flush fuel (gzip_writer 8) = Returns q'.
Proof.
  assert (H1 : 0 < bufferSize (d_ptr (gzip_writer 8)) < 2 ^ 31)
    by (vm_compute; split; reflexivity).
  exact (flush_returns (build := with_zstd) (GzipFormatSpec 6) (gzip_writer 8)
           mem_device_makes_progress toy_deflate_flush_makes_progress
           toy_compress_flush_makes_progress H1 I).
Defined.

(** close of the gzip writer after "ABC" was written and flushed. *)
Lemma close_returns_witness :
  exists (fuel : nat) (q' : QtIOCompressor MemDevice ZlibPrivate.Members),
    close fuel abc_written = Returns q' /\ isOpen q' = false.
Proof.
  assert (H1 : 0 < bufferSize (d_ptr abc_written) < 2 ^ 31)
    by (vm_compute; split; reflexivity).
  exact (close_returns (build := with_zstd) (GzipFormatSpec 6) abc_written
           mem_device_makes_progress toy_deflate_flush_makes_progress
           toy_compress_flush_makes_progress H1 (fun _ => I)).
Defined.

End ExtraEvaluations.
